(** * FaceIt-Stats: the statistics grabber of [faceit_games.py]

    A shallow embedding of the class [FaceitStatsGrabber]: the three raw
    lookups, the paginating orchestration [fetch_games] and
    [export_to_excel], followed by the properties of the specification.

    Modelling conventions.
    - A value decoded from a response body is a [json].  Numbers are the
      integers of Python ([Z]); numbers with a fraction are left out.  A
      string has one [ascii] per character.  A JSON object is an
      association list in which the first binding of a key is the dict's
      entry for that key.
    - Python exceptions are explicit: a computation yields [Ok v] or
      [Raise e].
    - The program's interaction with the outside world is a [trace] of
      events, newest first.  The upstream service answers a request as a
      function of the whole trace so far and of the request, so a service
      that changes its answers over time (a scripted mock, for instance)
      is covered.
    - A URL built by an f-string is kept as the structured [request] it
      renders; a printed line is kept as the structured [message] it
      renders.
    - [while True] is run with a bound on the number of iterations;
      [None] means the bound was reached. *)

From Stdlib Require Import ZArith List String Ascii Bool Lia DecimalString.
Import ListNotations.

Local Open Scope string_scope.
Local Open Scope Z_scope.

(** ** Values *)

#[local] Set Warnings "-register-all".

Inductive json : Type :=
| JNull
| JBool (b : bool)
| JNum (n : Z)
| JStr (s : string)
| JList (items : list json)
| JObj (fields : list (string * json)).

Inductive exn : Type :=
| RequestException (msg : string)
| TypeError
| AttributeError
| IndexError
| KeyError
| ValueError
| OtherException (name msg : string).

Inductive outcome (A : Type) : Type :=
| Ok (a : A)
| Raise (e : exn).
Arguments Ok {A} a.
Arguments Raise {A} e.

Definition is_ok {A} (o : outcome A) : bool :=
  match o with Ok _ => true | Raise _ => false end.

(** [d.get(k)] on the entries of a dict. *)
Fixpoint dict_get (k : string) (fields : list (string * json)) : option json :=
  match fields with
  | [] => None
  | (k', v) :: rest => if String.eqb k k' then Some v else dict_get k rest
  end.

(** The keys of a dict, each once. *)
Fixpoint dict_keys (fields : list (string * json)) : list string :=
  match fields with
  | [] => []
  | (k, _) :: rest =>
      k :: filter (fun k' => negb (String.eqb k k')) (dict_keys rest)
  end.

(** Python's truth value of a decoded JSON value. *)
Definition truthy (v : json) : bool :=
  match v with
  | JNull => false
  | JBool b => b
  | JNum n => negb (n =? 0)
  | JStr s => negb (String.eqb s "")
  | JList l => match l with [] => false | _ => true end
  | JObj f => match f with [] => false | _ => true end
  end.

(** [v.get(k, default)]: only a dict has the method. *)
Definition py_get (v : json) (k : string) (default : json) : outcome json :=
  match v with
  | JObj f => Ok (match dict_get k f with Some x => x | None => default end)
  | _ => Raise AttributeError
  end.

(** [s in t] on strings: [s] occurs in [t]. *)
Fixpoint is_substring (s t : string) : bool :=
  if String.prefix s t then true
  else match t with
       | EmptyString => false
       | String _ t' => is_substring s t'
       end.

Definition is_str (k : string) (v : json) : bool :=
  match v with JStr s => String.eqb k s | _ => false end.

(** [k in v] for a string [k]: key of a dict, element of a list,
    substring of a string; the other values are not containers. *)
Definition py_in (k : string) (v : json) : outcome bool :=
  match v with
  | JObj f => Ok (match dict_get k f with Some _ => true | None => false end)
  | JList l => Ok (existsb (is_str k) l)
  | JStr s => Ok (is_substring k s)
  | _ => Raise TypeError
  end.

Fixpoint chars_of (s : string) : list json :=
  match s with
  | EmptyString => []
  | String c s' => JStr (String c EmptyString) :: chars_of s'
  end.

(** The items a [for] loop runs over. *)
Definition py_iter (v : json) : outcome (list json) :=
  match v with
  | JList l => Ok l
  | JObj f => Ok (map JStr (dict_keys f))
  | JStr s => Ok (chars_of s)
  | _ => Raise TypeError
  end.

(** [v[0]]. *)
Definition py_index0 (v : json) : outcome json :=
  match v with
  | JList [] => Raise IndexError
  | JList (x :: _) => Ok x
  | JStr EmptyString => Raise IndexError
  | JStr (String c _) => Ok (JStr (String c EmptyString))
  | JObj _ => Raise KeyError
  | _ => Raise TypeError
  end.

(** [v[k]] for a string [k]. *)
Definition py_getitem (v : json) (k : string) : outcome json :=
  match v with
  | JObj f => match dict_get k f with Some x => Ok x | None => Raise KeyError end
  | _ => Raise TypeError
  end.

(** [len(v)]. *)
Definition py_len (v : json) : outcome Z :=
  match v with
  | JList l => Ok (Z.of_nat (List.length l))
  | JObj f => Ok (Z.of_nat (List.length (dict_keys f)))
  | JStr s => Ok (Z.of_nat (String.length s))
  | _ => Raise TypeError
  end.

(** [x == s] for a string [s]. *)
Definition py_eq_str (x : json) (s : string) : bool := is_str s x.

(** [str(n)] of an integer. *)
Definition str_of_int (n : Z) : string := NilZero.string_of_int (Z.to_int n).

(** ** UTC calendar time *)

Module Calendar.

(** Days since 1970-01-01 of a date of the proleptic Gregorian calendar. *)
Definition days_from_civil (y m d : Z) : Z :=
  let y' := if m <=? 2 then y - 1 else y in
  let era := y' / 400 in
  let yoe := y' - era * 400 in
  let mp := if m <=? 2 then m + 9 else m - 3 in
  let doy := (153 * mp + 2) / 5 + d - 1 in
  let doe := yoe * 365 + yoe / 4 - yoe / 100 + doy in
  era * 146097 + doe - 719468.

(** The date (year, month, day) of a day count since 1970-01-01. *)
Definition civil_from_days (days : Z) : Z * Z * Z :=
  let z := days + 719468 in
  let era := z / 146097 in
  let doe := z - era * 146097 in
  let yoe := (doe - doe / 1460 + doe / 36524 - doe / 146096) / 365 in
  let doy := doe - (365 * yoe + yoe / 4 - yoe / 100) in
  let mp := (5 * doy + 2) / 153 in
  let d := doy - (153 * mp + 2) / 5 + 1 in
  let m := if mp <? 10 then mp + 3 else mp - 9 in
  let y := yoe + era * 400 in
  (if m <=? 2 then y + 1 else y, m, d).

(** [int(datetime(y, m, d, hh, mm, ss, tzinfo=timezone.utc).timestamp())] *)
Definition timestamp (y m d hh mm ss : Z) : Z :=
  days_from_civil y m d * 86400 + hh * 3600 + mm * 60 + ss.

Definition digit (n : Z) : ascii := ascii_of_nat (48 + Z.to_nat (n mod 10)).

Definition pad2 (n : Z) : string :=
  String (digit (n / 10)) (String (digit n) EmptyString).

Definition pad4 (n : Z) : string :=
  String (digit (n / 1000)) (String (digit (n / 100)) (pad2 n)).

(** The instants a [datetime] can hold: years 1 to 9999. *)
Definition min_timestamp : Z := Eval cbv in timestamp 1 1 1 0 0 0.
Definition max_timestamp : Z := Eval cbv in timestamp 9999 12 31 23 59 59.

(** The first instant of the year 1000. *)
Definition year_1000_timestamp : Z := Eval cbv in timestamp 1000 1 1 0 0 0.

(** The platform of the dates is CPython on 64-bit Linux with glibc.
    There [time_t] has 64 bits, [gmtime] fails when the year does not fit
    a C [int], and [%Y] is the year in decimal, not padded. *)
Definition time_t_min : Z := Eval cbv in - 2 ^ 63.
Definition time_t_max : Z := Eval cbv in 2 ^ 63 - 1.
Definition gmtime_min : Z := Eval cbv in timestamp (-2147481748) 1 1 0 0 0.
Definition gmtime_max : Z := Eval cbv in timestamp 2147485547 12 31 23 59 59.

(** [strftime("%Y-%m-%d %H:%M:%S")] of the UTC datetime of [ts], for
    the years from 1 on. *)
Definition format_utc (ts : Z) : string :=
  let '(y, m, d) := civil_from_days (ts / 86400) in
  let sod := ts mod 86400 in
  str_of_int y ++ "-" ++ pad2 m ++ "-" ++ pad2 d ++ " " ++
  pad2 (sod / 3600) ++ ":" ++ pad2 (sod mod 3600 / 60) ++ ":" ++ pad2 (sod mod 60).

(** [datetime.fromtimestamp(ts, tz=timezone.utc)] for an integer [ts]:
    [OverflowError] when [ts] is no [time_t], [OSError] when [gmtime]
    fails, [ValueError] when the year is not one of 1 to 9999. *)
Definition fromtimestamp_utc (ts : Z) : outcome Z :=
  if (ts <? time_t_min) || (time_t_max <? ts) then
    Raise (OtherException "OverflowError" "timestamp out of range for platform time_t")
  else if (ts <? gmtime_min) || (gmtime_max <? ts) then
    Raise (OtherException "OSError" "[Errno 75] Value too large for defined data type")
  else if (ts <? min_timestamp) || (max_timestamp <? ts) then Raise ValueError
  else Ok ts.

(** [datetime.fromtimestamp(v, tz=timezone.utc).strftime(...)]: [v] is an
    integer (a bool is one) that [fromtimestamp] accepts. *)
Definition strftime_utc (v : json) : outcome string :=
  let at_ts ts :=
    match fromtimestamp_utc ts with
    | Ok instant => Ok (format_utc instant)
    | Raise e => Raise e
    end in
  match v with
  | JNum ts => at_ts ts
  | JBool b => at_ts (if b then 1 else 0)
  | _ => Raise TypeError
  end.

Definition is_leap (y : Z) : bool :=
  (y mod 4 =? 0) && (negb (y mod 100 =? 0) || (y mod 400 =? 0)).

Definition days_in_month (y m : Z) : Z :=
  if m =? 2 then (if is_leap y then 29 else 28)
  else if (m =? 4) || (m =? 6) || (m =? 9) || (m =? 11) then 30 else 31.

(** [s] shows the UTC date and time of [ts], field by field, the year
    as it is written in decimal: a date of the calendar and a time of day
    that make up [ts]. *)
Definition is_utc_date (ts : Z) (s : string) : Prop :=
  exists y m d hh mm ss,
    s = str_of_int y ++ "-" ++ pad2 m ++ "-" ++ pad2 d ++ " " ++
        pad2 hh ++ ":" ++ pad2 mm ++ ":" ++ pad2 ss /\
    timestamp y m d hh mm ss = ts /\
    1 <= y <= 9999 /\ 1 <= m <= 12 /\ 1 <= d <= days_in_month y m /\
    0 <= hh < 24 /\ 0 <= mm < 60 /\ 0 <= ss < 60.

(** [s] shows the UTC date and time of [ts], field by field, the year on
    four digits: a date of the calendar and a time of day that make up
    [ts]. *)
Definition is_utc_rendering (ts : Z) (s : string) : Prop :=
  exists y m d hh mm ss,
    s = pad4 y ++ "-" ++ pad2 m ++ "-" ++ pad2 d ++ " " ++
        pad2 hh ++ ":" ++ pad2 mm ++ ":" ++ pad2 ss /\
    timestamp y m d hh mm ss = ts /\
    1 <= y <= 9999 /\ 1 <= m <= 12 /\ 1 <= d <= days_in_month y m /\
    0 <= hh < 24 /\ 0 <= mm < 60 /\ 0 <= ss < 60.

End Calendar.

(** ** The outside world *)

(** The three GET endpoints.  [ReqPlayer n] stands for
    [{base_url}/players?nickname={n}], [ReqHistory p g f t o l] for
    [{base_url}/players/{p}/history?game={g}&from={f}&to={t}&offset={o}&limit={l}]
    and [ReqStats m] for [{base_url}/matches/{m}/stats]. *)
Inductive request : Type :=
| ReqPlayer (nickname : string)
| ReqHistory (player_id game_id : string) (from_ts to_ts offset limit : Z)
| ReqStats (match_id : json).

(** What [requests.get] returns: [status_code], [text] and the result of
    [json()], which raises on a body that is not JSON. *)
Record response : Type := {
  status_code : Z;
  text : string;
  body_json : outcome json
}.

(** The lines the program prints. *)
Inductive message : Type :=
| MsgRequesting (url : request)
| MsgFetched (count offset : Z)
| MsgSkipping (match_id msg : json)
| MsgNoStats (match_id : json).

(** One row of the export, the dict [match_data]. *)
Record match_data : Type := {
  Nickname : string;
  Match_ID : json;
  Date : string;
  Map : json;
  Score : json;
  Kills : json;
  Deaths : json;
  Assists : json;
  KD_Ratio : json;
  Headshots : json;
  MVPs : json;
  Result : json
}.

Inductive event : Type :=
| EvRequest (r : request)
| EvPrint (m : message)
| EvSleep (seconds : Z)
| EvToExcel (filename : string) (rows : list match_data).

(** Newest event first. *)
Definition trace : Type := list event.

(** ** Computations with exceptions over the trace *)

Definition M (A : Type) : Type := trace -> outcome A * trace.

Definition ret {A} (a : A) : M A := fun tr => (Ok a, tr).

Definition bind {A B} (m : M A) (k : A -> M B) : M B :=
  fun tr =>
    match m tr with
    | (Ok a, tr') => k a tr'
    | (Raise e, tr') => (Raise e, tr')
    end.

Definition lift {A} (o : outcome A) : M A := fun tr => (o, tr).

Definition emit (e : event) : M unit := fun tr => (Ok tt, e :: tr).

(** [try: m except requests.RequestException as e: h(str(e))] *)
Definition try_request {A} (m : M A) (h : string -> M A) : M A :=
  fun tr =>
    match m tr with
    | (Raise (RequestException msg), tr') => h msg tr'
    | r => r
    end.

Notation "x <- m ;; k" := (bind m (fun x => k))
  (at level 61, m at next level, right associativity).
Notation "m ;;; k" := (bind m (fun _ => k))
  (at level 61, right associativity).

(** The same sequencing for computations that touch no trace. *)
Definition obind {A B} (o : outcome A) (k : A -> outcome B) : outcome B :=
  match o with
  | Ok a => k a
  | Raise e => Raise e
  end.

Notation "x <~ o ;; k" := (obind o (fun x => k))
  (at level 61, o at next level, right associativity).

(** The dict a lookup returns when it fails. *)
Definition error_result (error msg : string) : json :=
  JObj [("error", JStr error); ("message", JStr msg)].

(** What the main loop of [fetch_games] does after one page. *)
Inductive page_end : Type :=
| Returned (history : json)
| Break
| Next (all_matches : list match_data).

(** [fetch_games] returns the page that carries ["error"] or the list
    [all_matches]. *)
Inductive fetch_result : Type :=
| FError (history : json)
| FRecords (all_matches : list match_data).

Section FaceitStatsGrabber.

(** The service behind [base_url] (the headers are constant): its answer
    to a request after the events of a trace, or the exception that
    [requests.get] raises. *)
Variable upstream : trace -> request -> outcome response.

Definition requests_get (url : request) : M response :=
  fun tr => (upstream tr url, EvRequest url :: tr).

Definition find_player_id (nickname : string) : M json :=
  let url := ReqPlayer nickname in
  try_request
    (response <- requests_get url ;;
     if status_code response =? 200 then
       data <- lift (body_json response) ;;
       lift (py_get data "player_id" JNull)
     else
       ret (error_result
              ("Player search failed with status " ++ str_of_int (status_code response))
              (text response)))
    (fun e => ret (error_result "Player search error" e)).

Definition get_match_history (player_id game_id : string)
    (from_timestamp to_timestamp offset limit : Z) : M json :=
  let url := ReqHistory player_id game_id from_timestamp to_timestamp offset limit in
  emit (EvPrint (MsgRequesting url)) ;;;
  try_request
    (response <- requests_get url ;;
     if status_code response =? 200 then
       lift (body_json response)
     else
       ret (error_result
              ("Match history request failed with status " ++ str_of_int (status_code response))
              (text response)))
    (fun e => ret (error_result "Request error" e)).

Definition get_match_stats (match_id : json) : M json :=
  let url := ReqStats match_id in
  try_request
    (response <- requests_get url ;;
     if status_code response =? 200 then
       lift (body_json response)
     else
       ret (error_result
              ("Match stats request failed with status " ++ str_of_int (status_code response))
              (text response)))
    (fun e => ret (error_result "Request error" e)).

(** *** fetch_games *)

Definition start_date : Z := Eval cbv in Calendar.timestamp 2025 6 1 0 0 0.
Definition end_date : Z := Eval cbv in Calendar.timestamp 2025 12 31 23 59 59.
Definition limit : Z := 100.

(** The inner [for player in ...] loop; the result is [player_stats]
    when the loop is left. *)
Fixpoint scan_players (player_id : string) (players : list json)
    (player_stats : json) : outcome json :=
  match players with
  | [] => Ok player_stats
  | player :: rest =>
      id <~ py_get player "player_id" JNull ;;
      if py_eq_str id player_id then py_get player "player_stats" (JObj [])
      else scan_players player_id rest player_stats
  end.

(** The outer [for team in ...] loop. *)
Fixpoint scan_teams (player_id : string) (teams : list json)
    (player_stats : json) : outcome json :=
  match teams with
  | [] => Ok player_stats
  | team :: rest =>
      players <~ py_get team "players" (JList []) ;;
      players <~ py_iter players ;;
      player_stats <~ scan_players player_id players player_stats ;;
      if truthy player_stats then Ok player_stats
      else scan_teams player_id rest player_stats
  end.

(** [stats.get("rounds", [{}])[0]] *)
Definition first_round (stats : json) : outcome json :=
  rounds <~ py_get stats "rounds" (JList [JObj []]) ;;
  py_index0 rounds.

(** [stats.get("rounds", [{}])[0].get("round_stats", {}).get(key, "N/A")] *)
Definition round_stat (stats : json) (key : string) : outcome json :=
  round <~ first_round stats ;;
  round_stats <~ py_get round "round_stats" (JObj []) ;;
  py_get round_stats key (JStr "N/A").

(** The dict display that builds [match_data], entries in source order. *)
Definition compile_match_data (nickname : string)
    (match_id match_date stats player_stats : json) : outcome match_data :=
  date <~ Calendar.strftime_utc match_date ;;
  map_name <~ round_stat stats "Map" ;;
  score <~ round_stat stats "Score" ;;
  kills <~ py_get player_stats "Kills" (JStr "0") ;;
  deaths <~ py_get player_stats "Deaths" (JStr "0") ;;
  assists <~ py_get player_stats "Assists" (JStr "0") ;;
  kd_ratio <~ py_get player_stats "K/D Ratio" (JStr "0") ;;
  headshots <~ py_get player_stats "Headshots %" (JStr "0") ;;
  mvps <~ py_get player_stats "MVPs" (JStr "0") ;;
  result <~ py_get player_stats "Result" (JStr "N/A") ;;
  Ok {| Nickname := nickname; Match_ID := match_id; Date := date;
        Map := map_name; Score := score; Kills := kills; Deaths := deaths;
        Assists := assists; KD_Ratio := kd_ratio; Headshots := headshots;
        MVPs := mvps; Result := result |}.

(** The body of [for match in matches]: [Some d] when [d] is appended,
    [None] when the iteration ends in [continue]. *)
Definition process_match (player_id nickname : string) (match_ : json)
    : M (option match_data) :=
  match_id <- lift (py_get match_ "match_id" JNull) ;;
  match_date <- lift (py_get match_ "started_at" JNull) ;;
  if negb (truthy match_id) || negb (truthy match_date) then ret None
  else
    stats <- get_match_stats match_id ;;
    is_error <- lift (py_in "error" stats) ;;
    if is_error then
      msg <- lift (py_getitem stats "message") ;;
      emit (EvPrint (MsgSkipping match_id msg)) ;;;
      ret None
    else
      round <- lift (first_round stats) ;;
      teams <- lift (py_get round "teams" (JList [])) ;;
      teams <- lift (py_iter teams) ;;
      player_stats <- lift (scan_teams player_id teams JNull) ;;
      if negb (truthy player_stats) then
        emit (EvPrint (MsgNoStats match_id)) ;;;
        ret None
      else
        d <- lift (compile_match_data nickname match_id match_date stats player_stats) ;;
        ret (Some d).

(** [for match in matches: ...] with the list [all_matches] it grows. *)
Fixpoint for_matches (player_id nickname : string) (matches : list json)
    (all_matches : list match_data) : M (list match_data) :=
  match matches with
  | [] => ret all_matches
  | match_ :: rest =>
      r <- process_match player_id nickname match_ ;;
      for_matches player_id nickname rest
        (match r with Some d => all_matches ++ [d] | None => all_matches end)
  end.

(** One turn of [while True], up to [offset += limit]. *)
Definition fetch_page (player_id game_id nickname : string)
    (all_matches : list match_data) (offset : Z) : M page_end :=
  history <- get_match_history player_id game_id start_date end_date offset limit ;;
  is_error <- lift (py_in "error" history) ;;
  if is_error then ret (Returned history)
  else
    matches <- lift (py_get history "items" (JList [])) ;;
    if negb (truthy matches) then ret Break
    else
      count <- lift (py_len matches) ;;
      emit (EvPrint (MsgFetched count offset)) ;;;
      matches <- lift (py_iter matches) ;;
      all_matches <- for_matches player_id nickname matches all_matches ;;
      emit (EvSleep 1) ;;;
      ret (Next all_matches).

(** [while True] with at most [fuel] turns. *)
Fixpoint fetch_loop (fuel : nat) (player_id game_id nickname : string)
    (all_matches : list match_data) (offset : Z) (tr : trace)
    : option (outcome fetch_result * trace) :=
  match fuel with
  | O => None
  | S fuel' =>
      match fetch_page player_id game_id nickname all_matches offset tr with
      | (Raise e, tr') => Some (Raise e, tr')
      | (Ok (Returned history), tr') => Some (Ok (FError history), tr')
      | (Ok Break, tr') => Some (Ok (FRecords all_matches), tr')
      | (Ok (Next all_matches'), tr') =>
          fetch_loop fuel' player_id game_id nickname all_matches' (offset + limit) tr'
      end
  end.

Definition fetch_games (fuel : nat) (player_id game_id nickname : string)
    (tr : trace) : option (outcome fetch_result * trace) :=
  fetch_loop fuel player_id game_id nickname [] 0 tr.

(** *** export_to_excel *)

(** [pd.DataFrame(matches)] followed by [to_excel(filename, ...)]: [None]
    when both complete, [Some s] when one raises an exception [e] with
    [str(e) = s]. *)
Variable to_excel : trace -> string -> list match_data -> option string.

Definition export_to_excel (matches : list match_data) (nickname : string) : M json :=
  match matches with
  | [] => ret (JObj [("error", JStr "No matches to export")])
  | _ =>
      let filename := nickname ++ "'s faceit_games.xlsx" in
      fun tr =>
        let tr' := EvToExcel filename matches :: tr in
        match to_excel tr filename matches with
        | None =>
            (Ok (JObj [("success",
                        JStr ("Exported " ++ str_of_int (Z.of_nat (List.length matches))
                              ++ " matches to " ++ filename))]), tr')
        | Some e => (Ok (error_result "Export error" e), tr')
        end
  end.

End FaceitStatsGrabber.


(** ** Vocabulary of the properties *)

(** The number of match-history requests in a trace. *)
Fixpoint history_count (tr : trace) : nat :=
  match tr with
  | [] => O
  | EvRequest (ReqHistory _ _ _ _ _ _) :: tr' => S (history_count tr')
  | _ :: tr' => history_count tr'
  end.

Definition is_history (r : request) : bool :=
  match r with ReqHistory _ _ _ _ _ _ => true | _ => false end.

(** The history request of the turn at [offset]. *)
Definition history_url (player_id game_id : string) (offset : Z) : request :=
  ReqHistory player_id game_id start_date end_date offset limit.

(** A trace only grows. *)
Definition extends (tr' tr : trace) : Prop := exists new, tr' = (new ++ tr)%list.

(** A lookup fails: the transport raises, or the status is not 200.
    [msg] is the message of the error result the lookup then returns. *)
Definition fetch_fails (upstream : trace -> request -> outcome response)
    (tr : trace) (url : request) (msg : string) : Prop :=
  upstream tr url = Raise (RequestException msg) \/
  exists r, upstream tr url = Ok r /\ status_code r <> 200 /\ msg = text r.

(** A lookup answers with status 200 and the decoded body [v]. *)
Definition answers (upstream : trace -> request -> outcome response)
    (tr : trace) (url : request) (v : json) : Prop :=
  exists r, upstream tr url = Ok r /\ status_code r = 200 /\ body_json r = Ok v.

(** A successful history body with the match summaries [items]. *)
Definition page_body (items : list json) (v : json) : Prop :=
  exists fields,
    v = JObj fields /\ dict_get "error" fields = None /\
    dict_get "items" fields = Some (JList items).

(** The state of [fetch_games] after [n] turns of its loop that all reached
    [offset += limit]: the records, the offset and the trace. *)
Fixpoint pages_done (upstream : trace -> request -> outcome response) (n : nat)
    (player_id game_id nickname : string)
    (all_matches : list match_data) (offset : Z) (tr : trace)
    : option (list match_data * Z * trace) :=
  match n with
  | O => Some (all_matches, offset, tr)
  | S n' =>
      match fetch_page upstream player_id game_id nickname all_matches offset tr with
      | (Ok (Next all_matches'), tr') =>
          pages_done upstream n' player_id game_id nickname all_matches'
            (offset + limit) tr'
      | _ => None
      end
  end.

(** What [fetch_games] comes to when a turn of its loop ends as [r] with
    the records [all_matches] gathered before it; nothing when the turn
    goes on to the next page. *)
Definition loop_result (r : outcome page_end) (all_matches : list match_data)
    : option (outcome fetch_result) :=
  match r with
  | Raise e => Some (Raise e)
  | Ok (Returned history) => Some (Ok (FError history))
  | Ok Break => Some (Ok (FRecords all_matches))
  | Ok (Next _) => None
  end.

(** No match of the pages makes its iteration raise. *)
Definition quiet (upstream : trace -> request -> outcome response)
    (player_id nickname : string) (pages : list (list json)) : Prop :=
  forall items m tr,
    In items pages -> In m items ->
    is_ok (fst (process_match upstream player_id nickname m tr)) = true.

(** [v] when present, the string [d] otherwise. *)
Definition or_default (o : option json) (d : string) : json :=
  match o with Some v => v | None => JStr d end.

(** The value of [key] among [fields] is the list [l]; an absent key
    stands for the empty list. *)
Definition list_field (key : string) (fields : list (string * json))
    (l : list json) : Prop :=
  dict_get key fields = Some (JList l) \/ (dict_get key fields = None /\ l = []).

(** The value of [key] among [fields] is the object [o]; an absent key
    stands for the empty object. *)
Definition obj_field (key : string) (fields : list (string * json))
    (o : list (string * json)) : Prop :=
  dict_get key fields = Some (JObj o) \/ (dict_get key fields = None /\ o = []).

(** A player entry of another player. *)
Definition other_player (player_id : string) (p : json) : Prop :=
  exists fields,
    p = JObj fields /\
    match dict_get "player_id" fields with
    | Some id => py_eq_str id player_id = false
    | None => True
    end.

(** A team none of whose player entries is the target's. *)
Definition other_team (player_id : string) (t : json) : Prop :=
  exists fields players,
    t = JObj fields /\ list_field "players" fields players /\
    Forall (other_player player_id) players.

(** [pfields] is the first player entry with the target id among the
    teams of the round [rfields], in team order, then player order. *)
Definition first_entry (player_id : string) (rfields pfields : list (string * json))
    : Prop :=
  exists tpre tfields tpost ppre ppost,
    dict_get "teams" rfields = Some (JList (tpre ++ JObj tfields :: tpost)) /\
    Forall (other_team player_id) tpre /\
    dict_get "players" tfields = Some (JList (ppre ++ JObj pfields :: ppost)) /\
    Forall (other_player player_id) ppre /\
    dict_get "player_id" pfields = Some (JStr player_id).

(** Some player entry of round 0 of the match detail [stats] has the
    target id and the non-empty statistics object [ps]. *)
Definition has_player_stats (player_id : string) (stats : json)
    (ps : list (string * json)) : Prop :=
  exists sfields rfields rounds teams tfields players pfields,
    stats = JObj sfields /\
    dict_get "rounds" sfields = Some (JList (JObj rfields :: rounds)) /\
    dict_get "teams" rfields = Some (JList teams) /\
    In (JObj tfields) teams /\
    dict_get "players" tfields = Some (JList players) /\
    In (JObj pfields) players /\
    dict_get "player_id" pfields = Some (JStr player_id) /\
    dict_get "player_stats" pfields = Some (JObj ps) /\
    ps <> [].

(** Some player entry of round 0 of [stats] has the target id. *)
Definition has_player_entry (player_id : string) (stats : json) : Prop :=
  exists sfields rfields rounds teams tfields players pfields,
    stats = JObj sfields /\
    dict_get "rounds" sfields = Some (JList (JObj rfields :: rounds)) /\
    dict_get "teams" rfields = Some (JList teams) /\
    In (JObj tfields) teams /\
    dict_get "players" tfields = Some (JList players) /\
    In (JObj pfields) players /\
    dict_get "player_id" pfields = Some (JStr player_id).

(** The record [d] of a run that ends with the trace [final] has a
    source: a stats request for its match id, issued in the run and
    answered with a detail in which a player entry with the target id has
    the non-empty statistics [ps], from which [d] is compiled. *)
Definition record_source (upstream : trace -> request -> outcome response)
    (player_id nickname : string) (final : trace) (d : match_data) : Prop :=
  exists tr match_date stats ps,
    extends final (EvRequest (ReqStats (Match_ID d)) :: tr) /\
    answers upstream tr (ReqStats (Match_ID d)) stats /\
    has_player_stats player_id stats ps /\
    compile_match_data nickname (Match_ID d) match_date stats (JObj ps) = Ok d.

(** ** A scripted upstream *)

Module Mock.

Definition ok200 (v : json) : outcome response :=
  Ok {| status_code := 200; text := ""; body_json := Ok v |}.

Definition status (code : Z) (body : string) : outcome response :=
  Ok {| status_code := code; text := body; body_json := Raise ValueError |}.

Definition page (items : list json) : json := JObj [("items", JList items)].

(** The k-th history request is answered with the k-th page, then with
    the empty page; a stats request with the detail of its match. *)
Definition scripted (pages : list (list json)) (details : json -> outcome response)
    : trace -> request -> outcome response :=
  fun tr url =>
    match url with
    | ReqHistory _ _ _ _ _ _ => ok200 (page (nth (history_count tr) pages []))
    | ReqStats match_id => details match_id
    | ReqPlayer _ => ok200 (JObj [("player_id", JStr "p1")])
    end.

Definition summary (id : string) (started_at : Z) : json :=
  JObj [("match_id", JStr id); ("started_at", JNum started_at)].

Definition player (id : string) (stats : list (string * json)) : json :=
  JObj [("player_id", JStr id); ("nickname", JStr id); ("player_stats", JObj stats)].

Definition p1_stats : list (string * json) :=
  [("Kills", JStr "21"); ("Deaths", JStr "14"); ("Result", JStr "1")].

Definition p1_entry : list (string * json) :=
  [("player_id", JStr "p1"); ("nickname", JStr "p1"); ("player_stats", JObj p1_stats)].

Definition round1 : list (string * json) :=
  [("round_stats", JObj [("Map", JStr "de_dust2"); ("Score", JStr "13 / 7")]);
   ("teams", JList [
      JObj [("players", JList [player "p0" [("Kills", JStr "3")]; player "p2" []])];
      JObj [("players", JList [player "p3" [("Kills", JStr "9")]; JObj p1_entry])]])].

(** A detail in which p1 played. *)
Definition detail1 : json := JObj [("rounds", JList [JObj round1])].

(** A detail whose only entry for p1 has no statistics. *)
Definition detail_no_stats : json :=
  JObj [("rounds", JList [JObj [
    ("teams", JList [JObj [("players", JList [JObj [("player_id", JStr "p1")]])]])]])].

(** A detail with an empty list of rounds. *)
Definition detail_no_rounds : json := JObj [("rounds", JList [])].

Definition details (match_id : json) : outcome response :=
  match match_id with
  | JStr "m1" => ok200 detail1
  | JStr "m2" => status 404 "not found"
  | JStr "m3" => ok200 detail_no_rounds
  | JStr "m4" => ok200 detail_no_stats
  | JStr "m5" => ok200 (JObj [])
  | _ => Raise (RequestException "timed out")
  end.

Definition full_page : list json := repeat (summary "m1" 1748736000) 100.

(** A page whose second match has a detail that cannot be fetched. *)
Definition mixed_page : list json :=
  [summary "m1" 1748736000; summary "m2" 1748739600; summary "m1" 1748736000].

(** The trace of a run when the loop over [mixed_page] starts. *)
Definition mixed_start : trace :=
  [EvPrint (MsgFetched 3 0);
   EvRequest (ReqHistory "p1" "cs2" start_date end_date 0 limit);
   EvPrint (MsgRequesting (ReqHistory "p1" "cs2" start_date end_date 0 limit))].

(** As [scripted], the history request after the last page failing with
    status 503. *)
Definition failing_after (pages : list (list json)) (details : json -> outcome response)
    : trace -> request -> outcome response :=
  fun tr url =>
    match url with
    | ReqHistory _ _ _ _ _ _ =>
        if (history_count tr <? List.length pages)%nat
        then ok200 (page (nth (history_count tr) pages []))
        else status 503 "unavailable"
    | _ => scripted pages details tr url
    end.

(** Every history request answered with a body that has no [items]; the
    player search answered with status 404. *)
Definition bare (details : json -> outcome response)
    : trace -> request -> outcome response :=
  fun tr url =>
    match url with
    | ReqHistory _ _ _ _ _ _ => ok200 (JObj [("start", JNum 0); ("end", JNum 0)])
    | ReqStats match_id => details match_id
    | ReqPlayer _ => status 404 "player not found"
    end.

(** The record of match m1 for p1, started at 2025-06-01 00:00:00 UTC. *)
Definition record1 : match_data :=
  {| Nickname := "Kevzip"; Match_ID := JStr "m1"; Date := "2025-06-01 00:00:00";
     Map := JStr "de_dust2"; Score := JStr "13 / 7";
     Kills := JStr "21"; Deaths := JStr "14"; Assists := JStr "0";
     KD_Ratio := JStr "0"; Headshots := JStr "0"; MVPs := JStr "0";
     Result := JStr "1" |}.

End Mock.

(** ** Vocabulary of the further properties *)

(** The test of the script on what a method returned,
    [if "error" in result]. *)
Definition is_error_result (result : json) : outcome bool := py_in "error" result.

Definition is_request_exception (e : exn) : bool :=
  match e with RequestException _ => true | _ => false end.

(** The exceptions that the operations on decoded values raise. *)
Definition is_builtin_error (e : exn) : bool :=
  match e with
  | TypeError | AttributeError | IndexError | KeyError | ValueError => true
  | _ => false
  end.

(** The exceptions of [datetime.fromtimestamp] on an integer that is no
    instant of the platform: [OverflowError] and [OSError]. *)
Definition is_range_error (e : exn) : bool :=
  match e with
  | OtherException name _ => String.eqb name "OverflowError" || String.eqb name "OSError"
  | _ => false
  end.

(** [e] is what [requests.get] raised on [url] after [tr], or what
    [json()] raised on the body of its answer with status 200. *)
Definition raised_by (upstream : trace -> request -> outcome response)
    (tr : trace) (url : request) (e : exn) : Prop :=
  upstream tr url = Raise e \/
  exists r, upstream tr url = Ok r /\ status_code r = 200 /\ body_json r = Raise e.

(** The exceptions of [fetch_games]: those of the operations on decoded
    values, those of a start time out of range, and those of the
    transport and of the decoding that are no [RequestException]. *)
Definition expected_exception (upstream : trace -> request -> outcome response)
    (e : exn) : Prop :=
  is_request_exception e = false /\
  (is_builtin_error e = true \/ is_range_error e = true \/
   exists tr url, raised_by upstream tr url e).

(** The history requests of a trace, newest first. *)
Fixpoint history_requests (tr : trace) : list request :=
  match tr with
  | [] => []
  | EvRequest (ReqHistory p g f t o l) :: tr' =>
      ReqHistory p g f t o l :: history_requests tr'
  | _ :: tr' => history_requests tr'
  end.

(** The number of match-stats requests in a trace. *)
Fixpoint stats_count (tr : trace) : nat :=
  match tr with
  | [] => O
  | EvRequest (ReqStats _) :: tr' => S (stats_count tr')
  | _ :: tr' => stats_count tr'
  end.

(** The seconds slept in a trace. *)
Fixpoint sleep_total (tr : trace) : Z :=
  match tr with
  | [] => 0
  | EvSleep seconds :: tr' => seconds + sleep_total tr'
  | _ :: tr' => sleep_total tr'
  end.

(** The number of calls of the spreadsheet writer in a trace. *)
Fixpoint write_count (tr : trace) : nat :=
  match tr with
  | [] => O
  | EvToExcel _ _ :: tr' => S (write_count tr')
  | _ :: tr' => write_count tr'
  end.

(** What the loop over the matches of a page adds to a trace: stats
    requests and printed lines. *)
Definition page_event (e : event) : Prop :=
  match e with
  | EvRequest (ReqStats _) => True
  | EvPrint _ => True
  | _ => False
  end.

(** The history requests of the turns [k], ..., [k + n - 1] of the loop,
    newest first. *)
Definition turns (player_id game_id : string) (k n : nat) : list request :=
  rev (map (fun i => history_url player_id game_id (Z.of_nat i * limit)) (seq k n)).

(** The value of [key] in a dict, [None] of Python when it is absent. *)
Definition get_or_none (key : string) (fields : list (string * json)) : json :=
  match dict_get key fields with Some v => v | None => JNull end.

(** A start time the record can show: an integer in the range of
    [datetime]. *)
Definition date_ok (match_date : json) : Prop :=
  exists ts, match_date = JNum ts /\
             Calendar.min_timestamp <= ts <= Calendar.max_timestamp.

(** A player entry that the search can read: an object whose statistics,
    when the entry is the target's, are absent, falsy or an object. *)
Definition safe_player (player_id : string) (p : json) : Prop :=
  exists fields,
    p = JObj fields /\
    (dict_get "player_id" fields = Some (JStr player_id) ->
     match dict_get "player_stats" fields with
     | Some v => truthy v = false \/ exists ps, v = JObj ps
     | None => True
     end).

Definition safe_team (player_id : string) (t : json) : Prop :=
  exists fields players,
    t = JObj fields /\ list_field "players" fields players /\
    Forall (safe_player player_id) players.

(** A round whose [teams] and [round_stats] have the expected shape. *)
Definition safe_round (player_id : string) (r : json) : Prop :=
  exists fields teams rs,
    r = JObj fields /\ list_field "teams" fields teams /\
    Forall (safe_team player_id) teams /\ obj_field "round_stats" fields rs.

(** A match detail of the expected shape: an object without ["error"]
    whose [rounds], when present, start with such a round. *)
Definition safe_detail (player_id : string) (stats : json) : Prop :=
  exists fields,
    stats = JObj fields /\ dict_get "error" fields = None /\
    (dict_get "rounds" fields = None \/
     exists r rest, dict_get "rounds" fields = Some (JList (r :: rest)) /\
                    safe_round player_id r).

(** A row of the export: the nickname given, a date that shows an
    instant between the years 1 and 9999, the year as it is written and
    the other fields on two digits, which makes 16 to 19 characters, and
    19 with a year of four digits from the year 1000 on, and statistics
    that are those of a player entry with the target id in the detail of
    the match, or the defaults. *)
Definition is_row (upstream : trace -> request -> outcome response)
    (player_id nickname : string) (d : match_data) : Prop :=
  Nickname d = nickname /\
  (exists ts,
      Calendar.min_timestamp <= ts <= Calendar.max_timestamp /\
      Date d = Calendar.format_utc ts /\
      Calendar.is_utc_date ts (Date d) /\
      (16 <= String.length (Date d) <= 19)%nat /\
      (Calendar.year_1000_timestamp <= ts ->
       String.length (Date d) = 19%nat /\ Calendar.is_utc_rendering ts (Date d))) /\
  exists tr stats ps,
    answers upstream tr (ReqStats (Match_ID d)) stats /\
    has_player_stats player_id stats ps /\
    Kills d = or_default (dict_get "Kills" ps) "0" /\
    Deaths d = or_default (dict_get "Deaths" ps) "0" /\
    Assists d = or_default (dict_get "Assists" ps) "0" /\
    KD_Ratio d = or_default (dict_get "K/D Ratio" ps) "0" /\
    Headshots d = or_default (dict_get "Headshots %" ps) "0" /\
    MVPs d = or_default (dict_get "MVPs" ps) "0" /\
    Result d = or_default (dict_get "Result" ps) "N/A".

(** ** Further upstreams *)

Module Cases.

(** A detail in which the first entry for p1 of the first team has no
    statistics and a second entry of that team has some. *)
Definition detail_shadowed : json :=
  JObj [("rounds", JList [JObj [
    ("teams", JList [
       JObj [("players", JList [Mock.player "p1" []; JObj Mock.p1_entry])];
       JObj [("players", JList [Mock.player "p2" [("Kills", JStr "4")]])]])]])].

(** A body with status 200 that reports an error, with and without a
    message. *)
Definition body_error_message : json :=
  JObj [("error", JStr "rate limited"); ("message", JStr "slow down")].

Definition body_error_only : json := JObj [("error", JStr "rate limited")].

Definition details (match_id : json) : outcome response :=
  match match_id with
  | JStr "m6" => Mock.ok200 detail_shadowed
  | JStr "m7" => Mock.ok200 body_error_message
  | JStr "m8" => Mock.ok200 body_error_only
  | JStr "m9" =>
      Ok {| status_code := 200; text := "<html>"; body_json := Raise ValueError |}
  | _ => Mock.details match_id
  end.

(** Every request fails in the transport with a connection error. *)
Definition offline : trace -> request -> outcome response :=
  fun _ _ => Raise (RequestException "connection refused").

(** The player search is answered with a body without [player_id]. *)
Definition no_player : trace -> request -> outcome response :=
  fun _ _ => Mock.ok200 (JObj [("items", JList [])]).

(** Every history request is answered with the body [v]. *)
Definition history_body (v : json) : trace -> request -> outcome response :=
  fun tr url =>
    match url with
    | ReqHistory _ _ _ _ _ _ => Mock.ok200 v
    | _ => Mock.scripted [] Mock.details tr url
    end.

(** The player search is answered with a body that is a list. *)
Definition player_list : trace -> request -> outcome response :=
  fun _ _ => Mock.ok200 (JList [JStr "p1"]).

(** The transport fails with an exception that is no [RequestException]. *)
Definition out_of_memory : trace -> request -> outcome response :=
  fun _ _ => Raise (OtherException "MemoryError" "").

Definition two_pages : list (list json) :=
  [[Mock.summary "m1" 1748736000; Mock.summary "m2" 1748739600;
    JObj [("match_id", JStr "m1")]];
   [Mock.summary "m4" 1748743200; Mock.summary "m1" 1748736000]].

(** The run over [two_pages]: its trace and its records. *)
Definition run_trace : trace :=
  Eval cbv in
    match fetch_games (Mock.scripted two_pages details) 5 "p1" "cs2" "Kevzip" [] with
    | Some (_, tr) => tr
    | None => []
    end.

Definition run_records : list match_data :=
  Eval cbv in
    match fetch_games (Mock.scripted two_pages details) 5 "p1" "cs2" "Kevzip" [] with
    | Some (Ok (FRecords records), _) => records
    | _ => []
    end.

(** The trace of that run after its first page. *)
Definition first_page_trace : trace :=
  Eval cbv in
    match pages_done (Mock.scripted two_pages details) 1 "p1" "cs2" "Kevzip" [] 0 [] with
    | Some (_, _, tr) => tr
    | None => []
    end.

(** The trace of the run over [two_pages] whose third history request
    fails. *)
Definition failed_trace : trace :=
  Eval cbv in
    match fetch_games (Mock.failing_after two_pages details) 5 "p1" "cs2" "Kevzip" [] with
    | Some (_, tr) => tr
    | None => []
    end.

(** The trace of the run that the detail without rounds ends. *)
Definition raised_trace : trace :=
  Eval cbv in
    match fetch_games
            (Mock.scripted [[Mock.summary "m1" 1748736000; Mock.summary "m3" 1748739600]]
               Mock.details) 3 "p1" "cs2" "Kevzip" [] with
    | Some (_, tr) => tr
    | None => []
    end.

End Cases.

(** ** Faulty answers *)

Module Faults.

(** The detail of m2 is answered with status 200 and a body that is no
    JSON: [json()] raises the [JSONDecodeError] of [requests], which is a
    [RequestException]. *)
Definition undecodable : outcome response :=
  Ok {| status_code := 200; text := "<html>";
        body_json := Raise (RequestException "Expecting value: line 1 column 1 (char 0)") |}.

Definition details (match_id : json) : outcome response :=
  match match_id with
  | JStr "m2" => undecodable
  | _ => Mock.details match_id
  end.

(** Two pages; the detail of the second match of the first cannot be
    decoded. *)
Definition pages : list (list json) :=
  [Mock.mixed_page; [Mock.summary "m1" 1748743200]].

(** The trace when the turn of the first page is over. *)
Definition first_page_trace : trace :=
  [EvSleep 1; EvRequest (ReqStats (JStr "m1"));
   EvPrint (MsgSkipping (JStr "m2")
              (JStr "Expecting value: line 1 column 1 (char 0)"));
   EvRequest (ReqStats (JStr "m2")); EvRequest (ReqStats (JStr "m1"));
   EvPrint (MsgFetched 3 0);
   EvRequest (ReqHistory "p1" "cs2" start_date end_date 0 limit);
   EvPrint (MsgRequesting (ReqHistory "p1" "cs2" start_date end_date 0 limit))].

(** The trace when the turn of the second page is over, and the trace of
    the whole run, which the turn of the empty page ends. *)
Definition second_page_trace : trace :=
  ([EvSleep 1; EvRequest (ReqStats (JStr "m1"));
    EvPrint (MsgFetched 1 100);
    EvRequest (ReqHistory "p1" "cs2" start_date end_date 100 limit);
    EvPrint (MsgRequesting (ReqHistory "p1" "cs2" start_date end_date 100 limit))]
   ++ first_page_trace)%list.

Definition run_trace : trace :=
  ([EvRequest (ReqHistory "p1" "cs2" start_date end_date 200 limit);
    EvPrint (MsgRequesting (ReqHistory "p1" "cs2" start_date end_date 200 limit))]
   ++ second_page_trace)%list.

(** The record of the match of the second page. *)
Definition record3 : match_data :=
  {| Nickname := "Kevzip"; Match_ID := JStr "m1"; Date := "2025-06-01 02:00:00";
     Map := JStr "de_dust2"; Score := JStr "13 / 7";
     Kills := JStr "21"; Deaths := JStr "14"; Assists := JStr "0";
     KD_Ratio := JStr "0"; Headshots := JStr "0"; MVPs := JStr "0";
     Result := JStr "1" |}.

(** A full page of matches whose detail has an empty list of rounds. *)
Definition no_rounds_page : list json := repeat (Mock.summary "m3" 1748736000) 100.

End Faults.

(** ** The calendar *)

Example format_utc_start : Calendar.format_utc 1748736000 = "2025-06-01 00:00:00".
Proof. reflexivity. Qed.

Example format_utc_end : Calendar.format_utc 1767225599 = "2025-12-31 23:59:59".
Proof. reflexivity. Qed.

Example format_utc_leap : Calendar.format_utc 1709210096 = "2024-02-29 12:34:56".
Proof. reflexivity. Qed.

(** Before the year 1000 the year has fewer than four digits. *)
Example format_utc_year_999 :
  Calendar.format_utc (Calendar.year_1000_timestamp - 1) = "999-12-31 23:59:59".
Proof. reflexivity. Qed.

Example format_utc_year_1 : Calendar.format_utc Calendar.min_timestamp = "1-01-01 00:00:00".
Proof. reflexivity. Qed.

(** The three ways [fromtimestamp] refuses an integer, at their bounds. *)
Example strftime_utc_bounds :
  Calendar.strftime_utc (JNum Calendar.max_timestamp) = Ok "9999-12-31 23:59:59" /\
  Calendar.strftime_utc (JNum (Calendar.max_timestamp + 1)) = Raise ValueError /\
  Calendar.strftime_utc (JNum (Calendar.min_timestamp - 1)) = Raise ValueError /\
  Calendar.strftime_utc (JNum Calendar.gmtime_max) = Raise ValueError /\
  Calendar.strftime_utc (JNum (Calendar.gmtime_max + 1))
  = Raise (OtherException "OSError" "[Errno 75] Value too large for defined data type") /\
  Calendar.strftime_utc (JNum (Calendar.gmtime_min - 1))
  = Raise (OtherException "OSError" "[Errno 75] Value too large for defined data type") /\
  Calendar.strftime_utc (JNum Calendar.time_t_max)
  = Raise (OtherException "OSError" "[Errno 75] Value too large for defined data type") /\
  Calendar.strftime_utc (JNum (Calendar.time_t_max + 1))
  = Raise (OtherException "OverflowError" "timestamp out of range for platform time_t") /\
  Calendar.strftime_utc (JNum (Calendar.time_t_min - 1))
  = Raise (OtherException "OverflowError" "timestamp out of range for platform time_t") /\
  Calendar.strftime_utc (JStr "1748736000") = Raise TypeError.
Proof. repeat split; reflexivity. Qed.

Lemma civil_from_days_inverse (z : Z) :
  let '(y, m, d) := Calendar.civil_from_days z in
  Calendar.days_from_civil y m d = z /\ 1 <= m <= 12 /\ 1 <= d <= 31.
Proof.
  unfold Calendar.civil_from_days, Calendar.days_from_civil. cbv zeta.
  repeat match goal with
         | |- context [if ?b then _ else _] => destruct b eqn:?
         end;
    Z.to_euclidean_division_equations; lia.
Qed.

Lemma days_from_civil_year (y m d : Z) :
  1 <= m <= 12 -> 1 <= d <= 31 ->
  Calendar.min_timestamp <= Calendar.days_from_civil y m d * 86400 + 86399 ->
  Calendar.days_from_civil y m d * 86400 <= Calendar.max_timestamp ->
  1 <= y <= 9999.
Proof.
  unfold Calendar.days_from_civil, Calendar.min_timestamp, Calendar.max_timestamp.
  cbv zeta. intros Hm Hd.
  destruct (m <=? 2) eqn:Hm2; intros Hmin Hmax;
    Z.to_euclidean_division_equations; lia.
Qed.

Lemma year_of_era (doe : Z) :
  0 <= doe < 146097 ->
  let yoe := (doe - doe / 1460 + doe / 36524 - doe / 146096) / 365 in
  let doy := doe - (365 * yoe + yoe / 4 - yoe / 100) in
  0 <= yoe <= 399 /\ 0 <= doy <= 365 /\
  (doy = 365 -> (yoe + 1) mod 4 = 0 /\ ((yoe + 1) mod 100 <> 0 \/ yoe + 1 = 400)).
Proof.
  cbv zeta. intros H.
  Z.to_euclidean_division_equations. lia.
Qed.

Lemma month_of_year (doy : Z) :
  0 <= doy <= 365 ->
  let mp := (5 * doy + 2) / 153 in
  let d := doy - (153 * mp + 2) / 5 + 1 in
  0 <= mp <= 11 /\ 1 <= d /\
  (mp = 11 -> d <= 29 /\ (d = 29 -> doy = 365)) /\
  (mp = 1 \/ mp = 3 \/ mp = 6 \/ mp = 8 -> d <= 30) /\
  d <= 31.
Proof.
  cbv zeta. intros H. Z.to_euclidean_division_equations. lia.
Qed.

(** The day of [civil_from_days] is a day of its month. *)
Lemma civil_from_days_day (z : Z) :
  let '(y, m, d) := Calendar.civil_from_days z in d <= Calendar.days_in_month y m.
Proof.
  unfold Calendar.civil_from_days. cbv zeta.
  set (era := (z + 719468) / 146097).
  set (doe := z + 719468 - era * 146097).
  assert (Hdoe : 0 <= doe < 146097).
  { subst doe era. Z.to_euclidean_division_equations. lia. }
  pose proof (year_of_era doe Hdoe) as Hy. cbv zeta in Hy.
  set (yoe := (doe - doe / 1460 + doe / 36524 - doe / 146096) / 365) in *.
  set (doy := doe - (365 * yoe + yoe / 4 - yoe / 100)) in *.
  destruct Hy as (Hyoe & Hdoy & Hleap).
  pose proof (month_of_year doy Hdoy) as Hm. cbv zeta in Hm.
  set (mp := (5 * doy + 2) / 153) in *.
  set (d := doy - (153 * mp + 2) / 5 + 1) in *.
  destruct Hm as (Hmp & Hd1 & Hfeb & H30 & H31).
  clearbody d mp doy yoe doe era.
  unfold Calendar.days_in_month, Calendar.is_leap.
  destruct (mp <? 10) eqn:Hmp10.
  - apply Z.ltb_lt in Hmp10.
    replace (mp + 3 <=? 2) with false by (symmetry; apply Z.leb_gt; lia).
    replace (mp + 3 =? 2) with false by (symmetry; apply Z.eqb_neq; lia).
    destruct ((mp + 3 =? 4) || (mp + 3 =? 6) || (mp + 3 =? 9) || (mp + 3 =? 11)) eqn:Hb;
      [|exact H31].
    apply H30.
    rewrite !orb_true_iff, !Z.eqb_eq in Hb. lia.
  - apply Z.ltb_ge in Hmp10.
    replace (mp - 9 <=? 2) with true by (symmetry; apply Z.leb_le; lia).
    destruct (mp - 9 =? 2) eqn:Hfeb2.
    + apply Z.eqb_eq in Hfeb2. assert (Hmp11 : mp = 11) by lia.
      destruct (Hfeb Hmp11) as [H29 Hlast].
      destruct (((yoe + era * 400 + 1) mod 4 =? 0) &&
                (negb ((yoe + era * 400 + 1) mod 100 =? 0) ||
                 ((yoe + era * 400 + 1) mod 400 =? 0))) eqn:Hb; [exact H29|].
      assert (Hd : d = 29 \/ d <= 28) by lia.
      destruct Hd as [Hd | Hd]; [|exact Hd]. exfalso.
      destruct (Hleap (Hlast Hd)) as [H4 H100].
      rewrite andb_false_iff, orb_false_iff, negb_false_iff, !Z.eqb_neq, Z.eqb_eq in Hb.
      Z.to_euclidean_division_equations. lia.
    + replace ((mp - 9 =? 4) || (mp - 9 =? 6) || (mp - 9 =? 9) || (mp - 9 =? 11))
        with false; [exact H31|].
      symmetry. rewrite !orb_false_iff, !Z.eqb_neq. lia.
Qed.

(** From the year 1000 on the timestamps have a year of four digits. *)
Lemma days_from_civil_year_1000 (y m d : Z) :
  1 <= m <= 12 -> 1 <= d <= 31 ->
  Calendar.year_1000_timestamp <= Calendar.days_from_civil y m d * 86400 + 86399 ->
  1000 <= y.
Proof.
  unfold Calendar.days_from_civil, Calendar.year_1000_timestamp.
  cbv zeta. intros Hm Hd.
  destruct (m <=? 2) eqn:Hm2; intros Hmin;
    Z.to_euclidean_division_equations; lia.
Qed.

(** A year of four digits is written as its four digits. *)
Lemma year_digits (y : Z) : 1000 <= y <= 9999 -> str_of_int y = Calendar.pad4 y.
Proof.
  intros H.
  assert (Hall : forallb (fun n => String.eqb (str_of_int (Z.of_nat n))
                                     (Calendar.pad4 (Z.of_nat n)))
                   (seq (10 * 10 * 10) (9 * (10 * 10 * 10))) = true)
    by (vm_compute; reflexivity).
  rewrite forallb_forall in Hall.
  specialize (Hall (Z.to_nat y)). rewrite Z2Nat.id in Hall by lia.
  apply String.eqb_eq, Hall, in_seq. lia.
Qed.

(** Within the range of [datetime], the formatted string shows the UTC
    calendar fields of the timestamp. *)
Lemma format_utc_date (ts : Z) :
  Calendar.min_timestamp <= ts <= Calendar.max_timestamp ->
  Calendar.is_utc_date ts (Calendar.format_utc ts).
Proof.
  intros [Hmin Hmax]. unfold Calendar.is_utc_date, Calendar.format_utc.
  pose proof (civil_from_days_inverse (ts / 86400)) as Hinv.
  pose proof (civil_from_days_day (ts / 86400)) as Hdim.
  destruct (Calendar.civil_from_days (ts / 86400)) as [[y m] d].
  destruct Hinv as (Hd & Hm & Hday).
  pose proof (days_from_civil_year y m d Hm Hday) as Hy. rewrite Hd in Hy.
  exists y, m, d, (ts mod 86400 / 3600), (ts mod 86400 mod 3600 / 60), (ts mod 86400 mod 60).
  split; [reflexivity|].
  split.
  { unfold Calendar.timestamp. rewrite Hd. Z.to_euclidean_division_equations; lia. }
  split.
  { apply Hy; Z.to_euclidean_division_equations; lia. }
  repeat split; try tauto; Z.to_euclidean_division_equations; lia.
Qed.

(** From the year 1000 on the year takes four digits, and the string is
    the rendering on 19 characters. *)
Lemma format_utc_rendering (ts : Z) :
  Calendar.year_1000_timestamp <= ts <= Calendar.max_timestamp ->
  Calendar.is_utc_rendering ts (Calendar.format_utc ts).
Proof.
  intros [Hmin Hmax]. unfold Calendar.is_utc_rendering, Calendar.format_utc.
  assert (Hmin1 : Calendar.min_timestamp <= ts).
  { unfold Calendar.year_1000_timestamp in Hmin. unfold Calendar.min_timestamp. lia. }
  pose proof (civil_from_days_inverse (ts / 86400)) as Hinv.
  pose proof (civil_from_days_day (ts / 86400)) as Hdim.
  destruct (Calendar.civil_from_days (ts / 86400)) as [[y m] d].
  destruct Hinv as (Hd & Hm & Hday).
  pose proof (days_from_civil_year y m d Hm Hday) as Hy. rewrite Hd in Hy.
  pose proof (days_from_civil_year_1000 y m d Hm Hday) as Hy1000. rewrite Hd in Hy1000.
  assert (Hyear : 1 <= y <= 9999).
  { apply Hy; Z.to_euclidean_division_equations; lia. }
  assert (Hyear1000 : 1000 <= y).
  { apply Hy1000; Z.to_euclidean_division_equations; lia. }
  exists y, m, d, (ts mod 86400 / 3600), (ts mod 86400 mod 3600 / 60), (ts mod 86400 mod 60).
  split; [rewrite year_digits by lia; reflexivity|].
  split.
  { unfold Calendar.timestamp. rewrite Hd. Z.to_euclidean_division_equations; lia. }
  split; [exact Hyear|].
  repeat split; try tauto; Z.to_euclidean_division_equations; lia.
Qed.

(** [fromtimestamp] accepts the instants of the years 1 to 9999, and
    nothing else. *)
Lemma fromtimestamp_utc_ok (ts instant : Z) :
  Calendar.fromtimestamp_utc ts = Ok instant <->
  instant = ts /\ Calendar.min_timestamp <= ts <= Calendar.max_timestamp.
Proof.
  unfold Calendar.fromtimestamp_utc, Calendar.time_t_min, Calendar.time_t_max,
    Calendar.gmtime_min, Calendar.gmtime_max, Calendar.min_timestamp,
    Calendar.max_timestamp.
  repeat match goal with
         | |- context [?a <? ?b] => destruct (Z.ltb_spec a b)
         end; cbn [orb]; split;
    try discriminate; try (intros [_ ?]; lia).
  - intros Heq. injection Heq as <-. split; [reflexivity | lia].
  - intros [-> _]. reflexivity.
Qed.

(** The date of a match is formatted exactly when it is an integer of
    the years 1 to 9999. *)
Lemma strftime_utc_ok (v : json) (s : string) :
  Calendar.strftime_utc v = Ok s ->
  exists ts, (v = JNum ts \/ exists b : bool, v = JBool b /\ ts = if b then 1 else 0) /\
             Calendar.min_timestamp <= ts <= Calendar.max_timestamp /\
             s = Calendar.format_utc ts.
Proof.
  unfold Calendar.strftime_utc.
  destruct v as [|b|ts| | |]; try discriminate.
  - destruct (Calendar.fromtimestamp_utc (if b then 1 else 0)) as [i|e] eqn:Hi;
      [|discriminate].
    apply fromtimestamp_utc_ok in Hi. destruct Hi as [-> Hr].
    intros H. injection H as <-. eexists. split; [right; exists b; split; reflexivity|].
    split; [exact Hr | reflexivity].
  - destruct (Calendar.fromtimestamp_utc ts) as [i|e] eqn:Hi; [|discriminate].
    apply fromtimestamp_utc_ok in Hi. destruct Hi as [-> Hr].
    intros H. injection H as <-. exists ts. split; [left; reflexivity|].
    split; [exact Hr | reflexivity].
Qed.

Lemma strftime_utc_in_range (ts : Z) :
  Calendar.min_timestamp <= ts <= Calendar.max_timestamp ->
  Calendar.strftime_utc (JNum ts) = Ok (Calendar.format_utc ts).
Proof.
  intros Hr. unfold Calendar.strftime_utc.
  destruct (Calendar.fromtimestamp_utc ts) as [i|e] eqn:Hi.
  - apply fromtimestamp_utc_ok in Hi. destruct Hi as [-> _]. reflexivity.
  - assert (Hok : Calendar.fromtimestamp_utc ts = Ok ts)
      by (apply fromtimestamp_utc_ok; split; [reflexivity | exact Hr]).
    congruence.
Qed.

(** ** Basic facts *)

Section Properties.

Variable upstream : trace -> request -> outcome response.

Lemma for_matches_app (player_id nickname : string) (pre post : list json) :
  forall all_matches tr,
    for_matches upstream player_id nickname (pre ++ post) all_matches tr =
    match for_matches upstream player_id nickname pre all_matches tr with
    | (Ok all_matches', tr') =>
        for_matches upstream player_id nickname post all_matches' tr'
    | (Raise e, tr') => (Raise e, tr')
    end.
Proof.
  induction pre as [|m pre IH]; intros all_matches tr; [reflexivity|].
  cbn [app for_matches]. unfold bind.
  destruct (process_match upstream player_id nickname m tr) as [[r|e] tr1];
    [apply IH | reflexivity].
Qed.

(** A failing lookup of a match detail returns the error result. *)
Lemma get_match_stats_fails (match_id : json) (tr : trace) (msg : string) :
  fetch_fails upstream tr (ReqStats match_id) msg ->
  exists error,
    get_match_stats upstream match_id tr =
    (Ok (error_result error msg), EvRequest (ReqStats match_id) :: tr).
Proof.
  unfold get_match_stats, try_request, bind, requests_get, ret.
  intros [H | (r & H & Hs & ->)]; rewrite H.
  - eexists; reflexivity.
  - apply Z.eqb_neq in Hs. rewrite Hs. eexists; reflexivity.
Qed.

(** A lookup of a match detail answered with status 200 returns the body. *)
Lemma get_match_stats_answers (match_id : json) (tr : trace) (stats : json) :
  answers upstream tr (ReqStats match_id) stats ->
  get_match_stats upstream match_id tr = (Ok stats, EvRequest (ReqStats match_id) :: tr).
Proof.
  unfold get_match_stats, try_request, bind, requests_get, lift.
  intros (r & H & Hs & Hb). rewrite H, Hs, Hb. reflexivity.
Qed.

(** C6: a match summary without [match_id] or without [started_at] ends
    its iteration at once: no record is appended and the trace is left as
    it was, so no match-detail request is issued for it; the loop goes on
    with the next summary. *)
Theorem missing_id_or_date_skipped (player_id nickname : string)
    (fields : list (string * json)) (rest : list json)
    (all_matches : list match_data) (tr : trace) :
  dict_get "match_id" fields = None \/ dict_get "started_at" fields = None ->
  process_match upstream player_id nickname (JObj fields) tr = (Ok None, tr) /\
  for_matches upstream player_id nickname (JObj fields :: rest) all_matches tr =
  for_matches upstream player_id nickname rest all_matches tr.
Proof.
  intros H.
  assert (Hp : process_match upstream player_id nickname (JObj fields) tr = (Ok None, tr)).
  { unfold process_match, bind, lift, py_get.
    destruct H as [H | H]; rewrite H; cbn [truthy negb orb]; [reflexivity|].
    rewrite orb_true_r. reflexivity. }
  split; [exact Hp|].
  cbn [for_matches]. unfold bind. rewrite Hp. reflexivity.
Qed.

(** C9: when the player search is answered with status 200 and a body
    that has the field [player_id], [find_player_id] returns the value
    of that field as it is; when the status is not 200 it returns the
    error result with the status in ["error"] and the body text in
    ["message"]. *)
Theorem find_player_id_result (nickname : string) (tr : trace) (r : response) :
  upstream tr (ReqPlayer nickname) = Ok r ->
  (forall fields id,
      status_code r = 200 -> body_json r = Ok (JObj fields) ->
      dict_get "player_id" fields = Some id ->
      find_player_id upstream nickname tr = (Ok id, EvRequest (ReqPlayer nickname) :: tr)) /\
  (status_code r <> 200 ->
   find_player_id upstream nickname tr =
   (Ok (JObj [("error", JStr ("Player search failed with status "
                               ++ str_of_int (status_code r)));
              ("message", JStr (text r))]),
    EvRequest (ReqPlayer nickname) :: tr)).
Proof.
  intros H. unfold find_player_id, try_request, bind, requests_get, lift, ret.
  rewrite H. split.
  - intros fields id Hs Hb Hid. rewrite Hs, Hb. cbn. rewrite Hid. reflexivity.
  - intros Hs. apply Z.eqb_neq in Hs. rewrite Hs. reflexivity.
Qed.

End Properties.

(** C8: with no records [export_to_excel] returns the error result and
    leaves the trace as it was, so nothing is written; with [n] records,
    n > 0, and a serialization that does not raise, it returns the success
    result whose message names [n] and the file, after one call of the
    spreadsheet writer. *)
Theorem export_to_excel_result
    (to_excel : trace -> string -> list match_data -> option string)
    (matches : list match_data) (nickname : string) (tr : trace) :
  export_to_excel to_excel [] nickname tr =
    (Ok (JObj [("error", JStr "No matches to export")]), tr) /\
  (matches <> [] ->
   to_excel tr (nickname ++ "'s faceit_games.xlsx") matches = None ->
   export_to_excel to_excel matches nickname tr =
     (Ok (JObj [("success",
                 JStr ("Exported " ++ str_of_int (Z.of_nat (List.length matches))
                       ++ " matches to " ++ nickname ++ "'s faceit_games.xlsx"))]),
      EvToExcel (nickname ++ "'s faceit_games.xlsx") matches :: tr)).
Proof.
  split; [reflexivity|].
  intros Hne Hw. destruct matches as [|d matches]; [congruence|].
  unfold export_to_excel. rewrite Hw. reflexivity.
Qed.

(** ** Traces *)

Lemma extends_refl (tr : trace) : extends tr tr.
Proof. exists []. reflexivity. Qed.

Lemma extends_trans (tr2 tr1 tr : trace) :
  extends tr2 tr1 -> extends tr1 tr -> extends tr2 tr.
Proof.
  intros [n2 ->] [n1 ->]. exists (n2 ++ n1)%list. apply app_assoc.
Qed.

Lemma extends_cons (e : event) (tr' tr : trace) :
  extends tr' tr -> extends (e :: tr') tr.
Proof. intros [n ->]. exists (e :: n). reflexivity. Qed.

Ltac trace_grows := repeat apply extends_cons; apply extends_refl.

Lemma extends_In (e : event) (tr' tr : trace) :
  extends tr' tr -> In e tr -> In e tr'.
Proof. intros [n ->] H. apply in_or_app. right. exact H. Qed.

Section Traces.

Variable upstream : trace -> request -> outcome response.

Lemma get_match_stats_trace (match_id : json) (tr : trace) :
  snd (get_match_stats upstream match_id tr) = EvRequest (ReqStats match_id) :: tr.
Proof.
  unfold get_match_stats, try_request, bind, requests_get, lift, ret.
  destruct (upstream tr (ReqStats match_id)) as [r|[]]; try reflexivity.
  destruct (status_code r =? 200); [|reflexivity].
  destruct (body_json r) as [v|[]]; reflexivity.
Qed.

Lemma get_match_history_trace (player_id game_id : string) (f t offset lim : Z)
    (tr : trace) :
  let url := ReqHistory player_id game_id f t offset lim in
  snd (get_match_history upstream player_id game_id f t offset lim tr) =
  EvRequest url :: EvPrint (MsgRequesting url) :: tr.
Proof.
  unfold get_match_history, try_request, bind, requests_get, lift, ret, emit.
  cbv zeta.
  destruct (upstream _ _) as [r|[]]; try reflexivity.
  destruct (status_code r =? 200); [|reflexivity].
  destruct (body_json r) as [v|[]]; reflexivity.
Qed.

(** What one match adds to the trace: nothing, its stats request, or the
    request and one printed line. *)
Lemma process_match_trace (player_id nickname : string) (m : json) (tr : trace) :
  let tr' := snd (process_match upstream player_id nickname m tr) in
  tr' = tr \/
  exists match_id,
    py_get m "match_id" JNull = Ok match_id /\
    (tr' = EvRequest (ReqStats match_id) :: tr \/
     exists line, tr' = EvPrint line :: EvRequest (ReqStats match_id) :: tr).
Proof.
  cbv zeta. unfold process_match, bind, lift.
  destruct (py_get m "match_id" JNull) as [match_id|e]; [|left; reflexivity].
  destruct (py_get m "started_at" JNull) as [match_date|e]; [|left; reflexivity].
  destruct (negb (truthy match_id) || negb (truthy match_date)); [left; reflexivity|].
  right. exists match_id. split; [reflexivity|].
  pose proof (get_match_stats_trace match_id tr) as Ht.
  destruct (get_match_stats upstream match_id tr) as [[stats|e] tr1];
    cbn [snd] in Ht; subst tr1; [|left; reflexivity].
  destruct (py_in "error" stats) as [[|]|e]; [| |left; reflexivity].
  - destruct (py_getitem stats "message") as [msg|e]; [|left; reflexivity].
    right. eexists. reflexivity.
  - destruct (first_round stats) as [round|e]; [|left; reflexivity].
    destruct (py_get round "teams" (JList [])) as [teams|e]; [|left; reflexivity].
    destruct (py_iter teams) as [teams'|e]; [|left; reflexivity].
    destruct (scan_teams player_id teams' JNull) as [ps|e]; [|left; reflexivity].
    destruct (negb (truthy ps)).
    + right. eexists. reflexivity.
    + destruct (compile_match_data nickname match_id match_date stats ps);
        left; reflexivity.
Qed.

Lemma process_match_history_count (player_id nickname : string) (m : json) (tr : trace) :
  history_count (snd (process_match upstream player_id nickname m tr)) = history_count tr.
Proof.
  destruct (process_match_trace player_id nickname m tr)
    as [-> | (match_id & _ & [-> | (line & ->)])]; reflexivity.
Qed.

Lemma for_matches_history_count (player_id nickname : string) (matches : list json) :
  forall all_matches tr,
    history_count (snd (for_matches upstream player_id nickname matches all_matches tr))
    = history_count tr.
Proof.
  induction matches as [|m matches IH]; intros all_matches tr; [reflexivity|].
  cbn [for_matches]. unfold bind.
  pose proof (process_match_history_count player_id nickname m tr) as Hm.
  destruct (process_match upstream player_id nickname m tr) as [[r|e] tr1];
    cbn [snd] in Hm.
  - rewrite IH. exact Hm.
  - exact Hm.
Qed.

Lemma process_match_extends (player_id nickname : string) (m : json) (tr : trace) :
  extends (snd (process_match upstream player_id nickname m tr)) tr.
Proof.
  destruct (process_match_trace player_id nickname m tr)
    as [-> | (match_id & _ & [-> | (line & ->)])]; trace_grows.
Qed.

Lemma for_matches_extends (player_id nickname : string) (matches : list json) :
  forall all_matches tr,
    extends (snd (for_matches upstream player_id nickname matches all_matches tr)) tr.
Proof.
  induction matches as [|m matches IH]; intros all_matches tr; [apply extends_refl|].
  cbn [for_matches]. unfold bind.
  pose proof (process_match_extends player_id nickname m tr) as Hm.
  destruct (process_match upstream player_id nickname m tr) as [[r|e] tr1];
    cbn [snd] in Hm.
  - eapply extends_trans; [apply IH | exact Hm].
  - exact Hm.
Qed.

End Traces.

Section Pagination.

Variable upstream : trace -> request -> outcome response.
Variables player_id game_id nickname : string.

Lemma get_match_history_answers (offset : Z) (tr : trace) (v : json) :
  answers upstream (EvPrint (MsgRequesting (history_url player_id game_id offset)) :: tr)
    (history_url player_id game_id offset) v ->
  get_match_history upstream player_id game_id start_date end_date offset limit tr =
  (Ok v, EvRequest (history_url player_id game_id offset)
         :: EvPrint (MsgRequesting (history_url player_id game_id offset)) :: tr).
Proof.
  unfold get_match_history, try_request, bind, requests_get, lift, emit.
  intros (r & H & Hs & Hb). fold (history_url player_id game_id offset).
  rewrite H, Hs, Hb. reflexivity.
Qed.

Lemma get_match_history_fails (offset : Z) (tr : trace) (msg : string) :
  fetch_fails upstream (EvPrint (MsgRequesting (history_url player_id game_id offset)) :: tr)
    (history_url player_id game_id offset) msg ->
  exists error,
    get_match_history upstream player_id game_id start_date end_date offset limit tr =
    (Ok (error_result error msg),
     EvRequest (history_url player_id game_id offset)
       :: EvPrint (MsgRequesting (history_url player_id game_id offset)) :: tr).
Proof.
  unfold get_match_history, try_request, bind, requests_get, ret, emit.
  fold (history_url player_id game_id offset).
  intros [H | (r & H & Hs & ->)]; rewrite H.
  - eexists; reflexivity.
  - apply Z.eqb_neq in Hs. rewrite Hs. eexists; reflexivity.
Qed.

(** A turn whose history carries ["error"] returns it. *)
Lemma fetch_page_error (all_matches : list match_data) (offset : Z)
    (tr tr' : trace) (history : json) :
  get_match_history upstream player_id game_id start_date end_date offset limit tr
    = (Ok history, tr') ->
  py_in "error" history = Ok true ->
  fetch_page upstream player_id game_id nickname all_matches offset tr
    = (Ok (Returned history), tr').
Proof.
  intros Hg He. unfold fetch_page, bind, lift, ret. rewrite Hg, He. reflexivity.
Qed.

(** A turn whose page has no items, or no [items] at all, leaves the loop. *)
Lemma fetch_page_break (all_matches : list match_data) (offset : Z)
    (tr tr' : trace) (fields : list (string * json)) :
  get_match_history upstream player_id game_id start_date end_date offset limit tr
    = (Ok (JObj fields), tr') ->
  dict_get "error" fields = None ->
  dict_get "items" fields = None \/ dict_get "items" fields = Some (JList []) ->
  fetch_page upstream player_id game_id nickname all_matches offset tr = (Ok Break, tr').
Proof.
  intros Hg He Hi. unfold fetch_page, bind, lift, ret, py_in, py_get.
  rewrite Hg, He. destruct Hi as [-> | ->]; reflexivity.
Qed.

(** A turn whose page has items runs over them, sleeps and goes on. *)
Lemma fetch_page_items (all_matches : list match_data) (offset : Z)
    (tr tr' : trace) (fields : list (string * json)) (items : list json) :
  get_match_history upstream player_id game_id start_date end_date offset limit tr
    = (Ok (JObj fields), tr') ->
  dict_get "error" fields = None ->
  dict_get "items" fields = Some (JList items) ->
  items <> [] ->
  fetch_page upstream player_id game_id nickname all_matches offset tr =
  match for_matches upstream player_id nickname items all_matches
          (EvPrint (MsgFetched (Z.of_nat (List.length items)) offset) :: tr') with
  | (Ok all_matches', tr2) => (Ok (Next all_matches'), EvSleep 1 :: tr2)
  | (Raise e, tr2) => (Raise e, tr2)
  end.
Proof.
  intros Hg He Hi Hne. unfold fetch_page, bind, lift, ret, emit, py_in, py_get.
  rewrite Hg, He, Hi.
  destruct items as [|m items]; [congruence|]. cbn [truthy negb py_len py_iter].
  destruct (for_matches upstream player_id nickname (m :: items) all_matches _)
    as [[a|e] tr2]; reflexivity.
Qed.

Lemma fetch_loop_pages_done (n : nat) :
  forall all_matches offset tr all_matches' offset' tr' fuel,
    pages_done upstream n player_id game_id nickname all_matches offset tr
      = Some (all_matches', offset', tr') ->
    fetch_loop upstream (n + fuel) player_id game_id nickname all_matches offset tr =
    fetch_loop upstream fuel player_id game_id nickname all_matches' offset' tr'.
Proof.
  induction n as [|n IH]; intros all_matches offset tr all_matches' offset' tr' fuel H.
  - cbn in H. injection H as -> -> ->. reflexivity.
  - cbn [pages_done] in H. cbn [Nat.add fetch_loop].
    destruct (fetch_page upstream player_id game_id nickname all_matches offset tr)
      as [[[h| |a]|e] tr1]; try discriminate.
    apply IH. exact H.
Qed.

Lemma py_in_error_result (error msg : string) :
  py_in "error" (error_result error msg) = Ok true.
Proof. reflexivity. Qed.

(** C2: when, after any number of turns of the loop, the history lookup
    returns a result that carries ["error"], [fetch_games] returns exactly
    that result; the records gathered in the earlier turns are not part of
    what it returns.  So it is when the history request fails (transport
    exception or a status other than 200): the error result of the lookup
    is what [fetch_games] returns. *)
Theorem history_error_returned (n fuel : nat) (tr0 tr : trace)
    (all_matches : list match_data) (offset : Z) :
  pages_done upstream n player_id game_id nickname [] 0 tr0
    = Some (all_matches, offset, tr) ->
  (n < fuel)%nat ->
  (forall history tr',
      get_match_history upstream player_id game_id start_date end_date offset limit tr
        = (Ok history, tr') ->
      py_in "error" history = Ok true ->
      fetch_games upstream fuel player_id game_id nickname tr0
        = Some (Ok (FError history), tr')) /\
  (forall msg,
      fetch_fails upstream
        (EvPrint (MsgRequesting (history_url player_id game_id offset)) :: tr)
        (history_url player_id game_id offset) msg ->
      exists error,
        fetch_games upstream fuel player_id game_id nickname tr0
        = Some (Ok (FError (error_result error msg)),
                EvRequest (history_url player_id game_id offset)
                  :: EvPrint (MsgRequesting (history_url player_id game_id offset)) :: tr)).
Proof.
  intros Hdone Hfuel.
  assert (Hgen : forall history tr',
             get_match_history upstream player_id game_id start_date end_date offset limit tr
               = (Ok history, tr') ->
             py_in "error" history = Ok true ->
             fetch_games upstream fuel player_id game_id nickname tr0
               = Some (Ok (FError history), tr')).
  { intros history tr' Hg He. unfold fetch_games.
    replace fuel with (n + S (fuel - S n))%nat by lia.
    rewrite (fetch_loop_pages_done n _ _ _ _ _ _ _ Hdone).
    cbn [fetch_loop]. rewrite (fetch_page_error _ _ _ _ _ Hg He). reflexivity. }
  split; [exact Hgen|].
  intros msg Hfail.
  destruct (get_match_history_fails offset tr msg Hfail) as [error Hg].
  exists error. apply Hgen; [exact Hg | apply py_in_error_result].
Qed.

Lemma fetch_page_history_request (all_matches : list match_data) (offset : Z)
    (tr : trace) :
  In (EvRequest (history_url player_id game_id offset))
     (snd (fetch_page upstream player_id game_id nickname all_matches offset tr)).
Proof.
  unfold fetch_page, bind, lift, ret, emit.
  pose proof (get_match_history_trace upstream player_id game_id start_date end_date
                offset limit tr) as Ht.
  cbv zeta in Ht. fold (history_url player_id game_id offset) in Ht.
  destruct (get_match_history upstream player_id game_id start_date end_date offset limit tr)
    as [[history|e] tr1]; cbn [snd] in Ht; subst tr1; [|left; reflexivity].
  destruct (py_in "error" history) as [[|]|e]; try (left; reflexivity).
  destruct (py_get history "items" (JList [])) as [matches|e]; [|left; reflexivity].
  destruct (negb (truthy matches)); [left; reflexivity|].
  destruct (py_len matches) as [count|e]; [|left; reflexivity].
  destruct (py_iter matches) as [ms|e]; [|right; left; reflexivity].
  pose proof (for_matches_extends upstream player_id nickname ms all_matches
                (EvPrint (MsgFetched count offset) :: EvRequest (history_url player_id game_id offset)
                   :: EvPrint (MsgRequesting (history_url player_id game_id offset)) :: tr)) as Hext.
  destruct (for_matches upstream player_id nickname ms all_matches _) as [[a|e] tr2];
    cbn [snd] in *.
  - right. eapply extends_In; [exact Hext|]. right. left. reflexivity.
  - eapply extends_In; [exact Hext|]. right. left. reflexivity.
Qed.

Lemma fetch_page_extends (all_matches : list match_data) (offset : Z) (tr : trace) :
  extends (snd (fetch_page upstream player_id game_id nickname all_matches offset tr)) tr.
Proof.
  unfold fetch_page, bind, lift, ret, emit.
  pose proof (get_match_history_trace upstream player_id game_id start_date end_date
                offset limit tr) as Ht.
  cbv zeta in Ht.
  destruct (get_match_history upstream player_id game_id start_date end_date offset limit tr)
    as [[history|e] tr1]; cbn [snd] in Ht; subst tr1;
    [|trace_grows].
  destruct (py_in "error" history) as [[|]|e];
    try (trace_grows).
  destruct (py_get history "items" (JList [])) as [matches|e];
    [|trace_grows].
  destruct (negb (truthy matches)); [trace_grows|].
  destruct (py_len matches) as [count|e];
    [|trace_grows].
  destruct (py_iter matches) as [ms|e];
    [|trace_grows].
  match goal with
  | |- context [for_matches upstream player_id nickname ms all_matches ?t] =>
      pose proof (for_matches_extends upstream player_id nickname ms all_matches t) as Hext;
      destruct (for_matches upstream player_id nickname ms all_matches t) as [[a|e] tr2]
  end; cbn [snd] in *.
  - apply extends_cons. eapply extends_trans; [exact Hext|].
    trace_grows.
  - eapply extends_trans; [exact Hext|].
    trace_grows.
Qed.

Lemma fetch_loop_extends (fuel : nat) :
  forall all_matches offset tr out tr',
    fetch_loop upstream fuel player_id game_id nickname all_matches offset tr
      = Some (out, tr') ->
    extends tr' tr.
Proof.
  induction fuel as [|fuel IH]; intros all_matches offset tr out tr' H; [discriminate|].
  cbn [fetch_loop] in H.
  pose proof (fetch_page_extends all_matches offset tr) as Hext.
  destruct (fetch_page upstream player_id game_id nickname all_matches offset tr)
    as [[[h| |a]|e] tr1]; cbn [snd] in Hext;
    try (injection H as <- <-; exact Hext).
  eapply extends_trans; [eapply IH; exact H | exact Hext].
Qed.

(** Every turn that is run issues the history request of its offset. *)
Lemma fetch_loop_history_request (fuel : nat) (all_matches : list match_data)
    (offset : Z) (tr : trace) (out : outcome fetch_result) (tr' : trace) :
  fetch_loop upstream fuel player_id game_id nickname all_matches offset tr
    = Some (out, tr') ->
  In (EvRequest (history_url player_id game_id offset)) tr'.
Proof.
  destruct fuel as [|fuel]; [discriminate|]. cbn [fetch_loop].
  pose proof (fetch_page_history_request all_matches offset tr) as Hin.
  destruct (fetch_page upstream player_id game_id nickname all_matches offset tr)
    as [[[h| |a]|e] tr1]; cbn [snd] in Hin; intros H;
    try (injection H as <- <-; exact Hin).
  eapply extends_In; [eapply fetch_loop_extends; exact H | exact Hin].
Qed.

(** The ways a detail lookup ends in an error result: the transport
    raises a [RequestException], the status is not 200, or the decoding
    of a body with status 200 raises a [RequestException]. *)
Lemma get_match_stats_error_result (match_id : json) (tr : trace) (msg : string) :
  fetch_fails upstream tr (ReqStats match_id) msg \/
  (exists r, upstream tr (ReqStats match_id) = Ok r /\ status_code r = 200 /\
             body_json r = Raise (RequestException msg)) ->
  exists error,
    get_match_stats upstream match_id tr =
    (Ok (error_result error msg), EvRequest (ReqStats match_id) :: tr).
Proof.
  intros [Hfail | (r & H & Hs & Hb)]; [apply get_match_stats_fails; exact Hfail|].
  unfold get_match_stats, try_request, bind, requests_get, lift, ret.
  rewrite H, Hs, Hb. eexists; reflexivity.
Qed.

(** C7: when the detail lookup of a match returns an error result, a
    dict with ["error"] and ["message"] (as it does when the transport
    raises a [RequestException], when the status is not 200 and when the
    decoding of the body raises a [RequestException]), the iteration of
    the match ends with one printed line, no record and no exception; the
    loop over the page ends as the loop over the summaries after it does,
    started from there with the records gathered before it; when that one
    completes, the turn of the page completes with its records, and
    whatever number of further turns complete, [fetch_games] comes to
    what the turn that ends the loop comes to. *)
Theorem failed_detail_skipped
    (fields sfields : list (string * json)) (match_id match_date error msg : json)
    (pre post : list json) (all_matches all_matches1 : list match_data)
    (tr tr1 : trace) :
  dict_get "match_id" fields = Some match_id -> truthy match_id = true ->
  dict_get "started_at" fields = Some match_date -> truthy match_date = true ->
  for_matches upstream player_id nickname pre all_matches tr = (Ok all_matches1, tr1) ->
  fst (get_match_stats upstream match_id tr1) = Ok (JObj sfields) ->
  dict_get "error" sfields = Some error ->
  dict_get "message" sfields = Some msg ->
  let tr2 := EvPrint (MsgSkipping match_id msg)
             :: EvRequest (ReqStats match_id) :: tr1 in
  process_match upstream player_id nickname (JObj fields) tr1 = (Ok None, tr2) /\
  (forall r tr3,
      for_matches upstream player_id nickname post all_matches1 tr2 = (r, tr3) ->
      for_matches upstream player_id nickname (pre ++ JObj fields :: post) all_matches tr
        = (r, tr3)) /\
  (forall offset tr0 page all_matches2 tr3,
      answers upstream (EvPrint (MsgRequesting (history_url player_id game_id offset)) :: tr0)
        (history_url player_id game_id offset) (JObj page) ->
      dict_get "error" page = None ->
      dict_get "items" page = Some (JList (pre ++ JObj fields :: post)) ->
      tr = EvPrint (MsgFetched (Z.of_nat (List.length (pre ++ JObj fields :: post))) offset)
           :: EvRequest (history_url player_id game_id offset)
           :: EvPrint (MsgRequesting (history_url player_id game_id offset)) :: tr0 ->
      for_matches upstream player_id nickname post all_matches1 tr2
        = (Ok all_matches2, tr3) ->
      fetch_page upstream player_id game_id nickname all_matches offset tr0
        = (Ok (Next all_matches2), EvSleep 1 :: tr3) /\
      forall n fuel all_matches3 offset3 tr4 r tr5 out,
        pages_done upstream n player_id game_id nickname all_matches2
          (offset + limit) (EvSleep 1 :: tr3) = Some (all_matches3, offset3, tr4) ->
        fetch_page upstream player_id game_id nickname all_matches3 offset3 tr4
          = (r, tr5) ->
        loop_result r all_matches3 = Some out ->
        fetch_loop upstream (S (S n) + fuel) player_id game_id nickname
          all_matches offset tr0 = Some (out, tr5)).
Proof.
  intros Hid Tid Hdate Tdate Hpre Hstats Herror Hmsg tr2.
  assert (Hp : process_match upstream player_id nickname (JObj fields) tr1 = (Ok None, tr2)).
  { pose proof (get_match_stats_trace upstream match_id tr1) as Htr.
    unfold process_match, bind, lift, ret, emit, py_get.
    rewrite Hid, Hdate, Tid, Tdate. cbn [negb orb].
    destruct (get_match_stats upstream match_id tr1) as [stats tr'].
    cbn [fst snd] in Hstats, Htr. subst stats tr'.
    cbn [py_in py_getitem]. rewrite Herror, Hmsg. reflexivity. }
  assert (Hfor : for_matches upstream player_id nickname (pre ++ JObj fields :: post)
                   all_matches tr =
                 for_matches upstream player_id nickname post all_matches1 tr2).
  { rewrite for_matches_app, Hpre. cbn [for_matches]. unfold bind.
    rewrite Hp. reflexivity. }
  split; [exact Hp|]. split; [intros r tr3 Hpost; rewrite Hfor; exact Hpost|].
  intros offset tr0 page all_matches2 tr3 Hans Herr Hitems Htr Hpost.
  pose proof (get_match_history_answers offset tr0 (JObj page) Hans) as Hg.
  assert (Hpage : fetch_page upstream player_id game_id nickname all_matches offset tr0
                  = (Ok (Next all_matches2), EvSleep 1 :: tr3)).
  { rewrite (fetch_page_items all_matches offset tr0 _ page _ Hg Herr Hitems)
      by (destruct pre; discriminate).
    rewrite <- Htr, Hfor, Hpost. reflexivity. }
  split; [exact Hpage|].
  intros n fuel all_matches3 offset3 tr4 r tr5 out Hdone Hlast Hout.
  replace (S (S n) + fuel)%nat with (S (n + S fuel)) by lia.
  cbn [fetch_loop]. rewrite Hpage. cbv beta iota.
  rewrite (fetch_loop_pages_done n _ _ _ _ _ _ _ Hdone).
  cbn [fetch_loop]. rewrite Hlast.
  destruct r as [[h| |a]|e]; cbn in Hout; try discriminate;
    injection Hout as <-; reflexivity.
Qed.

(** C10: a page answered with status 200 whose body has no [items] ends
    the loop as a page with an empty list of items does: [fetch_games]
    returns the records gathered so far and nothing is raised.  A page
    with some items, fewer than [limit], does not end it: once its matches
    are processed the loop turns again, and the turn that follows issues
    the history request at [offset + limit]. *)
Theorem short_pages (fuel : nat) (all_matches : list match_data) (offset : Z)
    (tr : trace) (fields : list (string * json)) :
  let tr1 := EvRequest (history_url player_id game_id offset)
             :: EvPrint (MsgRequesting (history_url player_id game_id offset)) :: tr in
  answers upstream (EvPrint (MsgRequesting (history_url player_id game_id offset)) :: tr)
    (history_url player_id game_id offset) (JObj fields) ->
  dict_get "error" fields = None ->
  (dict_get "items" fields = None \/ dict_get "items" fields = Some (JList []) ->
   fetch_loop upstream (S fuel) player_id game_id nickname all_matches offset tr
     = Some (Ok (FRecords all_matches), tr1)) /\
  (forall items all_matches' tr2,
      dict_get "items" fields = Some (JList items) ->
      items <> [] -> (Z.of_nat (List.length items) < limit) ->
      for_matches upstream player_id nickname items all_matches
        (EvPrint (MsgFetched (Z.of_nat (List.length items)) offset) :: tr1)
        = (Ok all_matches', tr2) ->
      fetch_loop upstream (S fuel) player_id game_id nickname all_matches offset tr =
      fetch_loop upstream fuel player_id game_id nickname all_matches'
        (offset + limit) (EvSleep 1 :: tr2) /\
      forall out tr',
        fetch_loop upstream (S fuel) player_id game_id nickname all_matches offset tr
          = Some (out, tr') ->
        In (EvRequest (history_url player_id game_id (offset + limit))) tr').
Proof.
  intros tr1 Hans He.
  pose proof (get_match_history_answers offset tr (JObj fields) Hans) as Hg.
  fold tr1 in Hg. split.
  - intros Hi. cbn [fetch_loop].
    rewrite (fetch_page_break all_matches offset tr tr1 fields Hg He Hi). reflexivity.
  - intros items all_matches' tr2 Hi Hne _ Hfor.
    assert (Heq : fetch_loop upstream (S fuel) player_id game_id nickname all_matches offset tr =
                  fetch_loop upstream fuel player_id game_id nickname all_matches'
                    (offset + limit) (EvSleep 1 :: tr2)).
    { cbn [fetch_loop].
      rewrite (fetch_page_items all_matches offset tr tr1 fields items Hg He Hi Hne).
      rewrite Hfor. reflexivity. }
    split; [exact Heq|].
    intros out tr' H. rewrite Heq in H.
    eapply fetch_loop_history_request. exact H.
Qed.

End Pagination.

Section Termination.

Variable upstream : trace -> request -> outcome response.
Variables player_id game_id nickname : string.
Variable pages : list (list json).

(** The k-th history request is answered with the k-th page, the one
    after the last page with a page without items. *)
Hypothesis serves :
  forall tr url,
    is_history url = true -> (history_count tr <= List.length pages)%nat ->
    exists v, answers upstream tr url v /\
              page_body (nth (history_count tr) pages []) v.

Hypothesis full : Forall (fun items => Z.of_nat (List.length items) = limit) pages.

Lemma for_matches_quiet (items : list json) :
  (forall m tr, In m items ->
     is_ok (fst (process_match upstream player_id nickname m tr)) = true) ->
  forall all_matches tr,
    is_ok (fst (for_matches upstream player_id nickname items all_matches tr)) = true.
Proof.
  induction items as [|m items IH]; intros Hq all_matches tr; [reflexivity|].
  cbn [for_matches]. unfold bind.
  pose proof (Hq m tr (or_introl eq_refl)) as Hm.
  destruct (process_match upstream player_id nickname m tr) as [[r|e] tr1];
    cbn in Hm; [|discriminate].
  apply IH. intros m' tr' Hin. apply Hq. right. exact Hin.
Qed.

Lemma pagination_from (todo : list (list json)) :
  forall done all_matches offset tr fuel,
    pages = (done ++ todo)%list ->
    history_count tr = List.length done ->
    (List.length todo < fuel)%nat ->
    exists out tr',
      fetch_loop upstream fuel player_id game_id nickname all_matches offset tr
        = Some (out, tr') /\
      (history_count tr' <= S (List.length pages))%nat /\
      (quiet upstream player_id nickname pages ->
       history_count tr' = S (List.length pages) /\
       exists all_matches', out = Ok (FRecords all_matches')).
Proof.
  induction todo as [|items todo IH];
    intros done all_matches offset tr fuel Hpages Hcount Hfuel;
    (destruct fuel as [|fuel]; [cbn in Hfuel; lia|]).
  - rewrite app_nil_r in Hpages. subst done.
    destruct (serves (EvPrint (MsgRequesting (history_url player_id game_id offset)) :: tr)
                (history_url player_id game_id offset) eq_refl)
      as (v & Hans & fields & -> & He & Hi).
    { cbn. lia. }
    cbn [history_count] in Hi. rewrite Hcount, nth_overflow in Hi by lia.
    pose proof (get_match_history_answers upstream player_id game_id offset tr _ Hans) as Hg.
    cbn [fetch_loop].
    rewrite (fetch_page_break upstream player_id game_id nickname all_matches offset
               tr _ fields Hg He (or_intror Hi)).
    do 2 eexists. split; [reflexivity|]. cbn [history_count history_url].
    split; [lia|]. intros _. split; [lia|]. eexists; reflexivity.
  - assert (Hlen : List.length pages = (List.length done + S (List.length todo))%nat).
    { rewrite Hpages, length_app. reflexivity. }
    destruct (serves (EvPrint (MsgRequesting (history_url player_id game_id offset)) :: tr)
                (history_url player_id game_id offset) eq_refl)
      as (v & Hans & fields & -> & He & Hi).
    { cbn. lia. }
    cbn [history_count] in Hi.
    rewrite Hcount, Hpages, app_nth2, Nat.sub_diag in Hi by lia. cbn [nth] in Hi.
    assert (Hne : items <> []).
    { assert (Hin : In items pages) by (rewrite Hpages; apply in_or_app; right; left; reflexivity).
      pose proof (proj1 (Forall_forall _ _) full items Hin) as Hl. cbn in Hl.
      intros ->. cbn in Hl. unfold limit in Hl. lia. }
    pose proof (get_match_history_answers upstream player_id game_id offset tr _ Hans) as Hg.
    cbn [fetch_loop].
    rewrite (fetch_page_items upstream player_id game_id nickname all_matches offset
               tr _ fields items Hg He Hi Hne).
    match goal with
    | |- context [for_matches upstream player_id nickname items all_matches ?t] =>
        pose proof (for_matches_history_count upstream player_id nickname items all_matches t) as Hc;
        pose proof (for_matches_quiet items) as Hq;
        specialize (fun H => Hq H all_matches t);
        destruct (for_matches upstream player_id nickname items all_matches t) as [[a|e] tr2]
    end; cbn [snd fst history_count history_url] in Hc, Hq.
    + destruct (IH (done ++ [items])%list a (offset + limit) (EvSleep 1 :: tr2) fuel)
        as (out & tr' & Hloop & Hle & Hquiet).
      * rewrite <- app_assoc. exact Hpages.
      * cbn [history_count]. rewrite Hc, length_app, Hcount. cbn. lia.
      * cbn in Hfuel. lia.
      * exists out, tr'. split; [exact Hloop|]. split; [exact Hle | exact Hquiet].
    + do 2 eexists. split; [reflexivity|]. split; [lia|].
      intros Hquiet. exfalso.
      assert (Hok : is_ok (@Raise (list match_data) e) = true).
      { apply Hq. intros m tr0 Hin. apply (Hquiet items m tr0); [|exact Hin].
        rewrite Hpages. apply in_or_app. right. left. reflexivity. }
      discriminate Hok.
Qed.

End Termination.


Section Extraction.

Variable player_id : string.

Lemma In_obj_keys (o : list (string * json)) (keys : list string) :
  ~ In (JObj o) (map JStr keys).
Proof.
  intros H. apply in_map_iff in H. destruct H as (k & Hk & _). discriminate.
Qed.

Lemma In_obj_chars (o : list (string * json)) (s : string) :
  ~ In (JObj o) (chars_of s).
Proof.
  induction s as [|c s IH]; cbn; [tauto|]. intros [H | H]; [discriminate | tauto].
Qed.

(** The list a loop runs over has an object among its items only when it
    is a JSON list. *)
Lemma py_iter_obj (v : json) (l : list json) (o : list (string * json)) :
  py_iter v = Ok l -> In (JObj o) l -> v = JList l.
Proof.
  destruct v; cbn; intros H Hin; try discriminate; injection H as <-.
  - exfalso. exact (In_obj_chars _ _ Hin).
  - reflexivity.
  - exfalso. exact (In_obj_keys _ _ Hin).
Qed.

Lemma py_get_ok (v : json) (key : string) (default x : json) :
  py_get v key default = Ok x ->
  exists fields,
    v = JObj fields /\
    (dict_get key fields = Some x \/ (dict_get key fields = None /\ x = default)).
Proof.
  destruct v; cbn; intros H; try discriminate. injection H as <-.
  exists fields. split; [reflexivity|].
  destruct (dict_get key fields); [left | right]; tauto.
Qed.

Lemma py_eq_str_true (x : json) (s : string) :
  py_eq_str x s = true -> x = JStr s.
Proof.
  destruct x; cbn; try discriminate. intros H. apply String.eqb_eq in H. congruence.
Qed.

(** What the loop over the players of a team leaves in [player_stats]. *)
Lemma scan_players_found (players : list json) (init ps : json) :
  scan_players player_id players init = Ok ps ->
  ps = init \/
  exists pfields,
    In (JObj pfields) players /\
    dict_get "player_id" pfields = Some (JStr player_id) /\
    (dict_get "player_stats" pfields = Some ps \/
     (dict_get "player_stats" pfields = None /\ ps = JObj [])).
Proof.
  induction players as [|p players IH]; cbn [scan_players]; intros H.
  - left. congruence.
  - unfold obind in H.
    destruct (py_get p "player_id" JNull) as [id|e] eqn:Hid; [|discriminate].
    destruct (py_get_ok _ _ _ _ Hid) as (pfields & -> & Hd).
    destruct (py_eq_str id player_id) eqn:Heq.
    + right. exists pfields. apply py_eq_str_true in Heq. subst id.
      split; [left; reflexivity|]. split.
      * destruct Hd as [Hd | [_ Hd]]; [exact Hd | discriminate].
      * destruct (py_get_ok _ _ _ _ H) as (f & Hf & Hs).
        injection Hf as <-. exact Hs.
    + destruct (IH H) as [-> | (pf & Hin & Hrest)]; [left; reflexivity|].
      right. exists pf. split; [right; exact Hin | exact Hrest].
Qed.

(** A truthy [player_stats] after the loop over the teams is the
    statistics of an entry with the target id. *)
Lemma scan_teams_found (teams : list json) :
  forall init ps,
    scan_teams player_id teams init = Ok ps ->
    truthy init = false -> truthy ps = true ->
    exists tfields players pfields,
      In (JObj tfields) teams /\
      dict_get "players" tfields = Some (JList players) /\
      In (JObj pfields) players /\
      dict_get "player_id" pfields = Some (JStr player_id) /\
      dict_get "player_stats" pfields = Some ps.
Proof.
  induction teams as [|t teams IH]; cbn [scan_teams]; intros init ps H Hinit Hps.
  - congruence.
  - unfold obind in H.
    destruct (py_get t "players" (JList [])) as [pv|e] eqn:Hpv; [|discriminate].
    destruct (py_iter pv) as [players|e] eqn:Hit; [|discriminate].
    destruct (scan_players player_id players init) as [ps1|e] eqn:Hscan; [|discriminate].
    destruct (truthy ps1) eqn:Hps1.
    + injection H as <-.
      destruct (scan_players_found _ _ _ Hscan) as [-> | (pfields & Hin & Hid & Hst)];
        [congruence|].
      destruct (py_get_ok _ _ _ _ Hpv) as (tfields & -> & Hd).
      pose proof (py_iter_obj _ _ _ Hit Hin) as ->.
      exists tfields, players, pfields. split; [left; reflexivity|].
      split; [|split; [exact Hin | split; [exact Hid|]]].
      * destruct Hd as [Hd | [_ Hd]]; [exact Hd|].
        injection Hd as ->. destruct Hin.
      * destruct Hst as [Hst | [_ ->]]; [exact Hst | discriminate].
    + destruct (IH ps1 ps H Hps1 Hps) as (tf & pl & pf & Hin & Hrest).
      exists tf, pl, pf. split; [right; exact Hin | exact Hrest].
Qed.

Lemma first_round_obj (stats : json) (rfields : list (string * json)) :
  first_round stats = Ok (JObj rfields) ->
  exists sfields,
    stats = JObj sfields /\
    ((exists rounds, dict_get "rounds" sfields = Some (JList (JObj rfields :: rounds))) \/
     (dict_get "rounds" sfields = None /\ rfields = [])).
Proof.
  unfold first_round, obind. intros H.
  destruct (py_get stats "rounds" (JList [JObj []])) as [rv|e] eqn:Hrv; [|discriminate].
  destruct (py_get_ok _ _ _ _ Hrv) as (sfields & -> & Hd).
  exists sfields. split; [reflexivity|].
  destruct Hd as [Hd | [Hd ->]].
  - left. destruct rv as [| | |s|l|f]; cbn in H; try discriminate.
    + destruct s; discriminate.
    + destruct l as [|x l]; [discriminate|]. injection H as ->. exists l. exact Hd.
  - right. cbn in H. injection H as <-. split; [exact Hd | reflexivity].
Qed.

End Extraction.

Section Records.

Variable upstream : trace -> request -> outcome response.
Variables player_id nickname : string.

(** A lookup of a match detail whose result carries no ["error"] was
    answered with status 200 and that body. *)
Lemma get_match_stats_inv (match_id : json) (tr tr' : trace) (stats : json) :
  get_match_stats upstream match_id tr = (Ok stats, tr') ->
  py_in "error" stats = Ok false ->
  answers upstream tr (ReqStats match_id) stats.
Proof.
  unfold get_match_stats, try_request, bind, requests_get, lift, ret, answers.
  destruct (upstream tr (ReqStats match_id)) as [r|e] eqn:Hu.
  - destruct (status_code r =? 200) eqn:Hs.
    + apply Z.eqb_eq in Hs. destruct (body_json r) as [v|e] eqn:Hb.
      * intros H _. injection H as <- <-. exists r. tauto.
      * destruct e; intros H; try discriminate.
        injection H as <- <-. cbn. discriminate.
    + intros H. injection H as <- <-. cbn. discriminate.
  - destruct e; intros H; try discriminate. injection H as <- <-. cbn. discriminate.
Qed.

(** An iteration that appends a record found the statistics of the
    target player in the detail it was answered with. *)
Lemma process_match_record (m : json) (tr tr' : trace) (d : match_data) :
  process_match upstream player_id nickname m tr = (Ok (Some d), tr') ->
  exists match_id match_date stats ps,
    py_get m "match_id" JNull = Ok match_id /\
    py_get m "started_at" JNull = Ok match_date /\
    tr' = EvRequest (ReqStats match_id) :: tr /\
    answers upstream tr (ReqStats match_id) stats /\
    has_player_stats player_id stats ps /\
    compile_match_data nickname match_id match_date stats (JObj ps) = Ok d.
Proof.
  unfold process_match, bind, lift.
  destruct (py_get m "match_id" JNull) as [match_id|e]; [|discriminate].
  destruct (py_get m "started_at" JNull) as [match_date|e]; [|discriminate].
  destruct (negb (truthy match_id) || negb (truthy match_date)); [discriminate|].
  pose proof (get_match_stats_trace upstream match_id tr) as Ht.
  destruct (get_match_stats upstream match_id tr) as [[stats|e] tr1] eqn:Hg;
    cbn [snd] in Ht; subst tr1; [|discriminate].
  destruct (py_in "error" stats) as [[|]|e] eqn:Herr; [| |discriminate].
  { destruct (py_getitem stats "message"); discriminate. }
  destruct (first_round stats) as [round|e] eqn:Hround; [|discriminate].
  destruct (py_get round "teams" (JList [])) as [tv|e] eqn:Htv; [|discriminate].
  destruct (py_iter tv) as [teams|e] eqn:Hit; [|discriminate].
  destruct (scan_teams player_id teams JNull) as [ps|e] eqn:Hscan; [|discriminate].
  destruct (truthy ps) eqn:Hps; cbn [negb]; [|discriminate].
  destruct (compile_match_data nickname match_id match_date stats ps) as [d'|e] eqn:Hc;
    [|discriminate].
  unfold ret. intros H. injection H as <- <-.
  destruct (scan_teams_found player_id teams JNull ps Hscan eq_refl Hps)
    as (tfields & players & pfields & Hin & Hpl & Hpin & Hid & Hst).
  pose proof (py_iter_obj _ _ _ Hit Hin) as ->.
  destruct (py_get_ok _ _ _ _ Htv) as (rfields & -> & Hteams).
  destruct Hteams as [Hteams | [_ Hteams]];
    [|injection Hteams as ->; destruct Hin].
  destruct (first_round_obj _ _ Hround) as (sfields & -> & [[rounds Hr] | [_ ->]]);
    [|discriminate].
  assert (Hobj : exists psf, ps = JObj psf /\ psf <> []).
  { unfold compile_match_data, obind in Hc.
    destruct (Calendar.strftime_utc match_date); [|discriminate].
    destruct (round_stat (JObj sfields) "Map"); [|discriminate].
    destruct (round_stat (JObj sfields) "Score"); [|discriminate].
    destruct ps as [| | | | |psf]; try discriminate.
    exists psf. split; [reflexivity|].
    destruct psf; [discriminate Hps | discriminate]. }
  destruct Hobj as (psf & -> & Hne).
  exists match_id, match_date, (JObj sfields), psf.
  repeat split; try reflexivity; try assumption.
  - eapply get_match_stats_inv; eassumption.
  - exists sfields, rfields, rounds, teams, tfields, players, pfields. tauto.
Qed.

Lemma compile_match_data_id (match_id match_date stats ps : json) (d : match_data) :
  compile_match_data nickname match_id match_date stats ps = Ok d ->
  Match_ID d = match_id.
Proof.
  unfold compile_match_data, obind.
  repeat match goal with
         | |- context [match ?o with Ok _ => _ | Raise _ => _ end] =>
             destruct o; [|discriminate]
         end.
  intros H. injection H as <-. reflexivity.
Qed.

Lemma record_source_extends (final final' : trace) (d : match_data) :
  extends final' final ->
  record_source upstream player_id nickname final d ->
  record_source upstream player_id nickname final' d.
Proof.
  intros Hext (tr & date & stats & ps & He & Hrest).
  exists tr, date, stats, ps. split; [|exact Hrest].
  eapply extends_trans; eassumption.
Qed.

Lemma for_matches_sources (matches : list json) :
  forall all_matches tr all_matches' tr',
    Forall (record_source upstream player_id nickname tr) all_matches ->
    for_matches upstream player_id nickname matches all_matches tr
      = (Ok all_matches', tr') ->
    Forall (record_source upstream player_id nickname tr') all_matches'.
Proof.
  induction matches as [|m matches IH]; intros all_matches tr all_matches' tr' Hall H.
  - cbn in H. injection H as <- <-. exact Hall.
  - cbn [for_matches] in H. unfold bind in H.
    pose proof (process_match_extends upstream player_id nickname m tr) as Hext.
    destruct (process_match upstream player_id nickname m tr) as [[r|e] tr1] eqn:Hp;
      [|discriminate].
    cbn [snd] in Hext.
    assert (Hall1 : Forall (record_source upstream player_id nickname tr1) all_matches).
    { eapply Forall_impl; [|exact Hall].
      intros d. apply record_source_extends. exact Hext. }
    eapply IH; [|exact H].
    destruct r as [d|]; [|exact Hall1].
    apply Forall_app. split; [exact Hall1|]. constructor; [|constructor].
    destruct (process_match_record m tr tr1 d Hp)
      as (mid & date & stats & ps & _ & _ & -> & Hans & Hfound & Hc).
    pose proof (compile_match_data_id _ _ _ _ _ Hc) as Hid.
    exists tr, date, stats, ps. rewrite Hid.
    split; [apply extends_refl|]. tauto.
Qed.

Lemma fetch_page_sources (game_id : string) (all_matches all_matches' : list match_data)
    (offset : Z) (tr tr' : trace) :
  Forall (record_source upstream player_id nickname tr) all_matches ->
  fetch_page upstream player_id game_id nickname all_matches offset tr
    = (Ok (Next all_matches'), tr') ->
  Forall (record_source upstream player_id nickname tr') all_matches'.
Proof.
  intros Hall. unfold fetch_page, bind, lift, ret, emit.
  destruct (get_match_history upstream player_id game_id start_date end_date offset limit tr)
    as [[history|e] tr1] eqn:Hg; [|discriminate].
  pose proof (get_match_history_trace upstream player_id game_id start_date end_date
                offset limit tr) as Ht.
  rewrite Hg in Ht. cbv zeta in Ht. cbn [snd] in Ht.
  destruct (py_in "error" history) as [[|]|e]; try discriminate.
  destruct (py_get history "items" (JList [])) as [matches|e]; [|discriminate].
  destruct (negb (truthy matches)); [discriminate|].
  destruct (py_len matches) as [count|e]; [|discriminate].
  destruct (py_iter matches) as [ms|e]; [|discriminate].
  destruct (for_matches upstream player_id nickname ms all_matches _)
    as [[a|e] tr2] eqn:Hfor; [|discriminate].
  intros H. injection H as <- <-.
  eapply Forall_impl;
    [|eapply for_matches_sources; [|exact Hfor]].
  - intros d. apply record_source_extends. trace_grows.
  - eapply Forall_impl; [|exact Hall].
    intros d. apply record_source_extends. subst tr1.
    trace_grows.
Qed.

Lemma fetch_loop_sources (game_id : string) (fuel : nat) :
  forall all_matches offset tr records tr',
    Forall (record_source upstream player_id nickname tr) all_matches ->
    fetch_loop upstream fuel player_id game_id nickname all_matches offset tr
      = Some (Ok (FRecords records), tr') ->
    Forall (record_source upstream player_id nickname tr') records.
Proof.
  induction fuel as [|fuel IH]; intros all_matches offset tr records tr' Hall H;
    [discriminate|].
  cbn [fetch_loop] in H.
  pose proof (fetch_page_extends upstream player_id game_id nickname all_matches offset tr)
    as Hext.
  destruct (fetch_page upstream player_id game_id nickname all_matches offset tr)
    as [[[h| |a]|e] tr1] eqn:Hp; cbn [snd] in Hext; try discriminate.
  - injection H as <- <-. eapply Forall_impl; [|exact Hall].
    intros d. apply record_source_extends. exact Hext.
  - eapply IH; [|exact H]. eapply fetch_page_sources; eassumption.
Qed.

Lemma has_player_stats_entry (stats : json) (ps : list (string * json)) :
  has_player_stats player_id stats ps -> has_player_entry player_id stats.
Proof.
  intros (sf & rf & rounds & teams & tf & players & pf & H).
  exists sf, rf, rounds, teams, tf, players, pf. tauto.
Qed.

(** C5: every record that [fetch_games] returns has a source in the run:
    a stats request for its match id that was answered with a detail in
    which a player entry with the target id has a non-empty statistics
    object, from which the record is compiled.  An iteration whose match
    detail has no player entry with the target id appends no record. *)
Theorem records_have_sources (game_id : string) (fuel : nat) (tr0 tr' : trace)
    (records : list match_data) :
  (fetch_games upstream fuel player_id game_id nickname tr0
     = Some (Ok (FRecords records), tr') ->
   Forall (record_source upstream player_id nickname tr') records) /\
  (forall m match_id stats tr d,
      py_get m "match_id" JNull = Ok match_id ->
      answers upstream tr (ReqStats match_id) stats ->
      ~ has_player_entry player_id stats ->
      fst (process_match upstream player_id nickname m tr) <> Ok (Some d)).
Proof.
  split.
  - intros H. eapply fetch_loop_sources; [|exact H]. constructor.
  - intros m match_id stats tr d Hid Hans Hno Hp.
    destruct (process_match upstream player_id nickname m tr) as [o tr1] eqn:Hpm.
    cbn [fst] in Hp. subst o.
    destruct (process_match_record m tr tr1 d Hpm)
      as (mid & date & stats' & ps & Hid' & _ & _ & Hans' & Hfound & _).
    assert (mid = match_id) by congruence. subst mid.
    destruct Hans as (r & Hu & _ & Hb), Hans' as (r' & Hu' & _ & Hb').
    assert (r' = r) by congruence. subst r'.
    assert (stats' = stats) by congruence. subst stats'.
    apply Hno. eapply has_player_stats_entry. exact Hfound.
Qed.

End Records.

Section Search.

Variable player_id : string.

Lemma py_eq_str_refl (s : string) : py_eq_str (JStr s) s = true.
Proof. cbn. apply String.eqb_refl. Qed.

Lemma scan_players_others (players : list json) (init : json) :
  Forall (other_player player_id) players ->
  scan_players player_id players init = Ok init.
Proof.
  induction 1 as [|p players (pf & -> & Hid) _ IH]; [reflexivity|].
  cbn [scan_players py_get obind].
  destruct (dict_get "player_id" pf) as [id|].
  - rewrite Hid. exact IH.
  - cbn. exact IH.
Qed.

Lemma scan_players_first (ppre ppost : list json) (pfields : list (string * json))
    (init : json) :
  Forall (other_player player_id) ppre ->
  dict_get "player_id" pfields = Some (JStr player_id) ->
  scan_players player_id (ppre ++ JObj pfields :: ppost) init =
  py_get (JObj pfields) "player_stats" (JObj []).
Proof.
  intros Hpre Hid.
  induction Hpre as [|p ppre (pf & -> & Hp) _ IH]; cbn [app scan_players].
  - unfold obind, py_get at 1. rewrite Hid, py_eq_str_refl. reflexivity.
  - cbn [py_get obind]. destruct (dict_get "player_id" pf) as [id|].
    + rewrite Hp. exact IH.
    + cbn. exact IH.
Qed.

Lemma scan_teams_others (teams : list json) (init : json) :
  Forall (other_team player_id) teams -> truthy init = false ->
  scan_teams player_id teams init = Ok init.
Proof.
  intros Hteams Hinit.
  induction Hteams as [|t teams (tf & players & -> & Hpl & Hothers) _ IH];
    [reflexivity|].
  cbn [scan_teams py_get obind].
  destruct Hpl as [-> | [-> ->]]; cbn [py_iter obind];
    [rewrite (scan_players_others players init Hothers) | cbn [scan_players]];
    cbn [obind]; rewrite Hinit; exact IH.
Qed.

Lemma scan_teams_first (tpre tpost : list json) (tfields : list (string * json))
    (players : list json) (init ps : json) :
  Forall (other_team player_id) tpre -> truthy init = false ->
  dict_get "players" tfields = Some (JList players) ->
  scan_players player_id players init = Ok ps -> truthy ps = true ->
  scan_teams player_id (tpre ++ JObj tfields :: tpost) init = Ok ps.
Proof.
  intros Hpre Hinit Hpl Hscan Hps.
  induction Hpre as [|t tpre (tf & pl & -> & Hf & Hothers) _ IH]; cbn [app scan_teams].
  - cbn [py_get obind]. rewrite Hpl. cbn [py_iter obind]. rewrite Hscan. cbn [obind].
    rewrite Hps. reflexivity.
  - cbn [py_get obind].
    destruct Hf as [-> | [-> ->]]; cbn [py_iter obind];
      [rewrite (scan_players_others pl init Hothers) | cbn [scan_players]];
      cbn [obind]; rewrite Hinit; exact IH.
Qed.

End Search.

Section Compilation.

Variable upstream : trace -> request -> outcome response.
Variables player_id nickname : string.

(** C4, as the code has it: for a match summary with a truthy id and a
    start time that is an integer other than 0 between the years 1000
    and 9999, whose detail is answered with status 200 by an object
    without ["error"], whose [rounds] is a list that starts with an
    object, round 0, in which [teams] is a list, the teams before the
    first one with an entry of the target id are objects whose [players],
    absent or a list, are objects with another [player_id] or none, the
    entries before that first entry in its team are such objects too,
    the entry has a non-empty statistics object, and [round_stats] is
    absent or an object, one record is appended.
    Its fields are the nickname, the match id, the start time shown as
    [YYYY-MM-DD HH:MM:SS] in UTC, [Map] and [Score] of the round
    statistics with default ["N/A"], and [Kills], [Deaths], [Assists],
    [K/D Ratio], [Headshots %] and [MVPs] of the player's statistics with
    default ["0"], [Result] with default ["N/A"]. *)
Theorem first_entry_record
    (fields sfields rfields pfields ps rs : list (string * json))
    (rounds rest : list json) (match_id : json) (ts : Z)
    (all_matches : list match_data) (tr : trace) :
  dict_get "match_id" fields = Some match_id -> truthy match_id = true ->
  dict_get "started_at" fields = Some (JNum ts) -> ts <> 0 ->
  Calendar.year_1000_timestamp <= ts <= Calendar.max_timestamp ->
  answers upstream tr (ReqStats match_id) (JObj sfields) ->
  dict_get "error" sfields = None ->
  dict_get "rounds" sfields = Some (JList (JObj rfields :: rounds)) ->
  first_entry player_id rfields pfields ->
  dict_get "player_stats" pfields = Some (JObj ps) -> ps <> [] ->
  obj_field "round_stats" rfields rs ->
  let d := {| Nickname := nickname;
              Match_ID := match_id;
              Date := Calendar.format_utc ts;
              Map := or_default (dict_get "Map" rs) "N/A";
              Score := or_default (dict_get "Score" rs) "N/A";
              Kills := or_default (dict_get "Kills" ps) "0";
              Deaths := or_default (dict_get "Deaths" ps) "0";
              Assists := or_default (dict_get "Assists" ps) "0";
              KD_Ratio := or_default (dict_get "K/D Ratio" ps) "0";
              Headshots := or_default (dict_get "Headshots %" ps) "0";
              MVPs := or_default (dict_get "MVPs" ps) "0";
              Result := or_default (dict_get "Result" ps) "N/A" |} in
  let tr' := EvRequest (ReqStats match_id) :: tr in
  process_match upstream player_id nickname (JObj fields) tr = (Ok (Some d), tr') /\
  for_matches upstream player_id nickname (JObj fields :: rest) all_matches tr =
  for_matches upstream player_id nickname rest (all_matches ++ [d]) tr' /\
  Calendar.is_utc_rendering ts (Date d).
Proof.
  intros Hid Tid Hdate Hts Hrange1000 Hans Herr Hrounds
         (tpre & tfields & tpost & ppre & ppost & Hteams & Htpre & Hplayers & Hppre & Hpid)
         Hstats Hne Hrs d tr'.
  assert (Hrange : Calendar.min_timestamp <= ts <= Calendar.max_timestamp).
  { unfold Calendar.year_1000_timestamp in Hrange1000. unfold Calendar.min_timestamp. lia. }
  assert (Hp : process_match upstream player_id nickname (JObj fields) tr
               = (Ok (Some d), tr')).
  { unfold process_match, bind, lift, ret.
    cbn [py_get]. rewrite Hid, Hdate, Tid. cbn [truthy].
    apply Z.eqb_neq in Hts. rewrite Hts. cbn [negb orb].
    rewrite (get_match_stats_answers upstream match_id tr _ Hans).
    cbn [py_in]. rewrite Herr.
    assert (Hround : first_round (JObj sfields) = Ok (JObj rfields)).
    { unfold first_round, obind, py_get. rewrite Hrounds. reflexivity. }
    rewrite Hround. cbn [py_get]. rewrite Hteams. cbn [py_iter].
    assert (Hscan : scan_teams player_id (tpre ++ JObj tfields :: tpost) JNull
                    = Ok (JObj ps)).
    { eapply scan_teams_first; try eassumption; try reflexivity.
      - rewrite (scan_players_first player_id ppre ppost pfields JNull Hppre Hpid).
        cbn [py_get]. rewrite Hstats. reflexivity.
      - destruct ps; [congruence | reflexivity]. }
    rewrite Hscan.
    assert (Htruthy : truthy (JObj ps) = true) by (destruct ps; [congruence | reflexivity]).
    rewrite Htruthy. cbn [negb].
    assert (Hstat : forall key,
               round_stat (JObj sfields) key = Ok (or_default (dict_get key rs) "N/A")).
    { intros key. unfold round_stat. rewrite Hround. cbn [obind py_get].
      destruct Hrs as [-> | [-> ->]]; reflexivity. }
    unfold compile_match_data. rewrite (strftime_utc_in_range ts Hrange).
    cbn [obind]. rewrite !Hstat. cbn [obind py_get]. reflexivity. }
  split; [exact Hp|]. split.
  - cbn [for_matches]. unfold bind. rewrite Hp. reflexivity.
  - apply format_utc_rendering. exact Hrange1000.
Qed.

(** A detail without rounds, or whose round 0 has no teams or only teams
    without an entry for the target id, is skipped with a printed line. *)
Lemma unfound_player_skipped
    (fields sfields rfields : list (string * json)) (teams : list json)
    (match_id match_date : json) (tr : trace) :
  dict_get "match_id" fields = Some match_id -> truthy match_id = true ->
  dict_get "started_at" fields = Some match_date -> truthy match_date = true ->
  answers upstream tr (ReqStats match_id) (JObj sfields) ->
  dict_get "error" sfields = None ->
  (exists rounds, dict_get "rounds" sfields = Some (JList (JObj rfields :: rounds))) \/
  (dict_get "rounds" sfields = None /\ rfields = []) ->
  list_field "teams" rfields teams ->
  Forall (other_team player_id) teams ->
  process_match upstream player_id nickname (JObj fields) tr =
  (Ok None, EvPrint (MsgNoStats match_id) :: EvRequest (ReqStats match_id) :: tr).
Proof.
  intros Hid Tid Hdate Tdate Hans Herr Hrounds Hteams Hothers.
  unfold process_match, bind, lift, ret, emit.
  cbn [py_get]. rewrite Hid, Hdate, Tid, Tdate. cbn [negb orb].
  rewrite (get_match_stats_answers upstream match_id tr _ Hans).
  cbn [py_in]. rewrite Herr.
  assert (Hround : first_round (JObj sfields) = Ok (JObj rfields)).
  { unfold first_round, obind, py_get.
    destruct Hrounds as [[rounds ->] | [-> ->]]; reflexivity. }
  rewrite Hround. cbn [py_get].
  assert (Hiter : py_iter (match dict_get "teams" rfields with
                           | Some x => x | None => JList [] end) = Ok teams).
  { destruct Hteams as [-> | [-> ->]]; reflexivity. }
  rewrite Hiter, (scan_teams_others player_id teams JNull Hothers eq_refl).
  reflexivity.
Qed.

End Compilation.

(** ** The code at particular inputs *)

(** C4 does not hold of every player entry with the target id: the detail
    of match m4 has one, without statistics, and no record is appended. *)
Lemma entry_without_stats_no_record :
  has_player_entry "p1" Mock.detail_no_stats /\
  answers (Mock.scripted [] Mock.details) [] (ReqStats (JStr "m4")) Mock.detail_no_stats /\
  process_match (Mock.scripted [] Mock.details) "p1" "Kevzip"
    (Mock.summary "m4" 1748736000) [] =
  (Ok None, [EvPrint (MsgNoStats (JStr "m4")); EvRequest (ReqStats (JStr "m4"))]).
Proof.
  split; [|split].
  - unfold has_player_entry, Mock.detail_no_stats.
    do 7 eexists.
    repeat (split; [first [reflexivity | left; reflexivity]|]). reflexivity.
  - eexists. repeat split; reflexivity.
  - reflexivity.
Qed.

(** C3: a detail whose list of rounds is empty makes the iteration raise
    [IndexError]; the exception leaves [fetch_games], whose run ends
    there, the record of the earlier match lost with it. *)
Theorem empty_rounds_raises :
  process_match (Mock.scripted [] Mock.details) "p1" "Kevzip"
    (Mock.summary "m3" 1748736000) [] =
  (Raise IndexError, [EvRequest (ReqStats (JStr "m3"))]) /\
  exists tr,
    fetch_games
      (Mock.scripted [[Mock.summary "m1" 1748736000; Mock.summary "m3" 1748739600]]
         Mock.details)
      3 "p1" "cs2" "Kevzip" [] = Some (Raise IndexError, tr).
Proof.
  split; [reflexivity|]. eexists. reflexivity.
Qed.

(** ** The theorems at work on the scripted upstream *)

Lemma scripted_serves (pages : list (list json)) (details : json -> outcome response)
    (tr : trace) (url : request) :
  is_history url = true ->
  exists v,
    answers (Mock.scripted pages details) tr url v /\
    page_body (nth (history_count tr) pages []) v.
Proof.
  destruct url; try discriminate. intros _.
  exists (Mock.page (nth (history_count tr) pages [])). split.
  - eexists. repeat split; reflexivity.
  - eexists. repeat split; reflexivity.
Qed.

Lemma full_page_quiet :
  quiet (Mock.scripted [Mock.full_page] Mock.details) "p1" "Kevzip" [Mock.full_page].
Proof.
  intros items m tr [<- | []] Hin.
  apply repeat_spec in Hin. subst m. reflexivity.
Qed.



Lemma history_error_returned_witness :
  exists error,
    fetch_games (Mock.failing_after [[Mock.summary "m1" 1748736000]] Mock.details)
      5 "p1" "cs2" "Kevzip" [] =
    Some (Ok (FError (error_result error "unavailable")),
          [EvRequest (history_url "p1" "cs2" (0 + limit));
           EvPrint (MsgRequesting (history_url "p1" "cs2" (0 + limit)));
           EvSleep 1; EvRequest (ReqStats (JStr "m1")); EvPrint (MsgFetched 1 0);
           EvRequest (history_url "p1" "cs2" 0);
           EvPrint (MsgRequesting (history_url "p1" "cs2" 0))]).
Proof.
  apply (proj2 (history_error_returned
                  (Mock.failing_after [[Mock.summary "m1" 1748736000]] Mock.details)
                  "p1" "cs2" "Kevzip" 1 5 []
                  [EvSleep 1; EvRequest (ReqStats (JStr "m1")); EvPrint (MsgFetched 1 0);
                   EvRequest (history_url "p1" "cs2" 0);
                   EvPrint (MsgRequesting (history_url "p1" "cs2" 0))]
                  [Mock.record1] (0 + limit) eq_refl
                  (le_S _ _ (le_S _ _ (le_S _ _ (le_n 2)))))
           "unavailable").
  right. eexists. split; [reflexivity|]. split; [discriminate | reflexivity].
Defined.

Lemma first_entry_record_witness :
  process_match (Mock.scripted [] Mock.details) "p1" "Kevzip"
    (Mock.summary "m1" 1748736000) [] =
  (Ok (Some Mock.record1), [EvRequest (ReqStats (JStr "m1"))]).
Proof.
  refine (proj1 (first_entry_record (Mock.scripted [] Mock.details) "p1" "Kevzip"
                   [("match_id", JStr "m1"); ("started_at", JNum 1748736000)]
                   [("rounds", JList [JObj Mock.round1])]
                   Mock.round1 Mock.p1_entry Mock.p1_stats
                   [("Map", JStr "de_dust2"); ("Score", JStr "13 / 7")]
                   [] [] (JStr "m1") 1748736000 [] []
                   eq_refl eq_refl eq_refl _ _ _ eq_refl eq_refl _ eq_refl _ _)).
  - discriminate.
  - split; discriminate.
  - eexists. repeat split; reflexivity.
  - exists [JObj [("players", JList [Mock.player "p0" [("Kills", JStr "3")];
                                      Mock.player "p2" []])]],
           [("players", JList [Mock.player "p3" [("Kills", JStr "9")]; JObj Mock.p1_entry])],
           [], [Mock.player "p3" [("Kills", JStr "9")]], [].
    split; [reflexivity|]. split.
    { constructor; [|constructor]. eexists _, _. split; [reflexivity|]. split.
      - left. reflexivity.
      - repeat constructor; eexists; (split; [reflexivity | reflexivity]). }
    split; [reflexivity|]. split; [|reflexivity].
    constructor; [|constructor]. eexists. split; reflexivity.
  - discriminate.
  - left. reflexivity.
Defined.

Lemma records_have_sources_witness :
  Forall (record_source (Mock.scripted [[Mock.summary "m1" 1748736000]] Mock.details)
            "p1" "Kevzip"
            [EvRequest (history_url "p1" "cs2" 100);
             EvPrint (MsgRequesting (history_url "p1" "cs2" 100));
             EvSleep 1; EvRequest (ReqStats (JStr "m1")); EvPrint (MsgFetched 1 0);
             EvRequest (history_url "p1" "cs2" 0);
             EvPrint (MsgRequesting (history_url "p1" "cs2" 0))])
    [Mock.record1] /\
  fst (process_match (Mock.scripted [] Mock.details) "p1" "Kevzip"
         (Mock.summary "m5" 1748736000) []) <> Ok (Some Mock.record1).
Proof.
  split.
  - apply (proj1 (records_have_sources
                    (Mock.scripted [[Mock.summary "m1" 1748736000]] Mock.details)
                    "p1" "Kevzip" "cs2" 2 [] _ _)).
    reflexivity.
  - apply (proj2 (records_have_sources (Mock.scripted [] Mock.details)
                    "p1" "Kevzip" "cs2" 0 [] [] [])
             (Mock.summary "m5" 1748736000) (JStr "m5") (JObj []) [] Mock.record1).
    + reflexivity.
    + eexists. repeat split; reflexivity.
    + intros (sf & rf & rounds & teams & tf & players & pf & Hs & Hr & _).
      injection Hs as <-. discriminate Hr.
Defined.

Lemma missing_id_or_date_skipped_witness :
  process_match (Mock.scripted [] Mock.details) "p1" "Kevzip"
    (JObj [("match_id", JStr "m1")]) [] = (Ok None, []) /\
  for_matches (Mock.scripted [] Mock.details) "p1" "Kevzip"
    [JObj [("match_id", JStr "m1")]; Mock.summary "m1" 1748736000] [] [] =
  for_matches (Mock.scripted [] Mock.details) "p1" "Kevzip"
    [Mock.summary "m1" 1748736000] [] [].
Proof.
  apply (missing_id_or_date_skipped (Mock.scripted [] Mock.details) "p1" "Kevzip"
           [("match_id", JStr "m1")] [Mock.summary "m1" 1748736000] [] []).
  right. reflexivity.
Defined.

Lemma failed_detail_skipped_witness :
  get_match_stats (Mock.scripted Faults.pages Faults.details) (JStr "m2")
    (EvRequest (ReqStats (JStr "m1")) :: Mock.mixed_start) =
  (Ok (error_result "Request error" "Expecting value: line 1 column 1 (char 0)"),
   EvRequest (ReqStats (JStr "m2")) :: EvRequest (ReqStats (JStr "m1"))
     :: Mock.mixed_start) /\
  process_match (Mock.scripted Faults.pages Faults.details) "p1" "Kevzip"
    (Mock.summary "m2" 1748739600)
    (EvRequest (ReqStats (JStr "m1")) :: Mock.mixed_start) =
  (Ok None,
   EvPrint (MsgSkipping (JStr "m2") (JStr "Expecting value: line 1 column 1 (char 0)"))
     :: EvRequest (ReqStats (JStr "m2")) :: EvRequest (ReqStats (JStr "m1"))
     :: Mock.mixed_start) /\
  for_matches (Mock.scripted Faults.pages Faults.details) "p1" "Kevzip"
    ([Mock.summary "m1" 1748736000]
       ++ Mock.summary "m2" 1748739600 :: [Mock.summary "m1" 1748736000])
    [] Mock.mixed_start =
  (Ok [Mock.record1; Mock.record1], tl Faults.first_page_trace) /\
  fetch_page (Mock.scripted Faults.pages Faults.details) "p1" "cs2" "Kevzip" [] 0 [] =
  (Ok (Next [Mock.record1; Mock.record1]), Faults.first_page_trace) /\
  fetch_loop (Mock.scripted Faults.pages Faults.details) (S (S 1) + 0)
    "p1" "cs2" "Kevzip" [] 0 [] =
  Some (Ok (FRecords [Mock.record1; Mock.record1; Faults.record3]), Faults.run_trace).
Proof.
  split; [reflexivity|].
  destruct (failed_detail_skipped (Mock.scripted Faults.pages Faults.details)
              "p1" "cs2" "Kevzip"
              [("match_id", JStr "m2"); ("started_at", JNum 1748739600)]
              [("error", JStr "Request error");
               ("message", JStr "Expecting value: line 1 column 1 (char 0)")]
              (JStr "m2") (JNum 1748739600) (JStr "Request error")
              (JStr "Expecting value: line 1 column 1 (char 0)")
              [Mock.summary "m1" 1748736000] [Mock.summary "m1" 1748736000]
              [] [Mock.record1] Mock.mixed_start
              (EvRequest (ReqStats (JStr "m1")) :: Mock.mixed_start)
              eq_refl eq_refl eq_refl eq_refl eq_refl eq_refl eq_refl eq_refl)
    as (Hp & Hfor & Hloop).
  split; [exact Hp|].
  split; [apply Hfor; reflexivity|].
  destruct (Hloop 0 [] [("items", JList Mock.mixed_page)]
              [Mock.record1; Mock.record1] (tl Faults.first_page_trace))
    as [Hpage Hrun].
  - eexists. repeat split; reflexivity.
  - reflexivity.
  - reflexivity.
  - reflexivity.
  - reflexivity.
  - split; [exact Hpage|].
    apply (Hrun 1%nat 0%nat [Mock.record1; Mock.record1; Faults.record3] (0 + limit + limit)
             Faults.second_page_trace (Ok Break) Faults.run_trace).
    + reflexivity.
    + reflexivity.
    + reflexivity.
Defined.

Lemma export_to_excel_result_witness :
  export_to_excel (fun _ _ _ => None) [] "Kevzip" [] =
    (Ok (JObj [("error", JStr "No matches to export")]), []) /\
  export_to_excel (fun _ _ _ => None) [Mock.record1; Mock.record1] "Kevzip" [] =
    (Ok (JObj [("success", JStr "Exported 2 matches to Kevzip's faceit_games.xlsx")]),
     [EvToExcel "Kevzip's faceit_games.xlsx" [Mock.record1; Mock.record1]]).
Proof.
  destruct (export_to_excel_result (fun _ _ _ => None) [Mock.record1; Mock.record1]
              "Kevzip" []) as [Hempty Hfull].
  split; [exact Hempty|].
  apply Hfull; [discriminate | reflexivity].
Defined.

Lemma find_player_id_result_witness :
  find_player_id (Mock.scripted [] Mock.details) "Kevzip" [] =
    (Ok (JStr "p1"), [EvRequest (ReqPlayer "Kevzip")]) /\
  find_player_id (Mock.bare Mock.details) "Kevzip" [] =
    (Ok (JObj [("error", JStr "Player search failed with status 404");
               ("message", JStr "player not found")]),
     [EvRequest (ReqPlayer "Kevzip")]).
Proof.
  split.
  - apply (proj1 (find_player_id_result (Mock.scripted [] Mock.details) "Kevzip" [] _
                    eq_refl) [("player_id", JStr "p1")] (JStr "p1"));
      reflexivity.
  - apply (proj2 (find_player_id_result (Mock.bare Mock.details) "Kevzip" [] _ eq_refl)).
    discriminate.
Defined.

Lemma short_pages_witness :
  fetch_loop (Mock.bare Mock.details) 1 "p1" "cs2" "Kevzip" [Mock.record1] 100 [] =
    Some (Ok (FRecords [Mock.record1]),
          [EvRequest (history_url "p1" "cs2" 100);
           EvPrint (MsgRequesting (history_url "p1" "cs2" 100))]) /\
  forall out tr',
    fetch_loop (Mock.scripted [[Mock.summary "m1" 1748736000]] Mock.details) 2
      "p1" "cs2" "Kevzip" [] 0 [] = Some (out, tr') ->
    In (EvRequest (history_url "p1" "cs2" (0 + limit))) tr'.
Proof.
  split.
  - apply (proj1 (short_pages (Mock.bare Mock.details) "p1" "cs2" "Kevzip" 0
                    [Mock.record1] 100 [] [("start", JNum 0); ("end", JNum 0)]
                    (ex_intro _ _ (conj eq_refl (conj eq_refl eq_refl))) eq_refl)).
    left. reflexivity.
  - refine (proj2 (proj2 (short_pages
                      (Mock.scripted [[Mock.summary "m1" 1748736000]] Mock.details)
                      "p1" "cs2" "Kevzip" 1 [] 0 []
                      [("items", JList [Mock.summary "m1" 1748736000])]
                      (ex_intro _ _ (conj eq_refl (conj eq_refl eq_refl))) eq_refl)
                    [Mock.summary "m1" 1748736000] [Mock.record1] _ eq_refl _ _ _)).
    + discriminate.
    + reflexivity.
    + reflexivity.
Defined.

(** A run over two pages: the detail lookups of m2 (status 404) and m9
    (transport error) fail, the matches after them in the page and the
    match of the next page are still exported. *)
Example failed_details_run :
  exists tr,
    fetch_games
      (Mock.scripted
         [[Mock.summary "m2" 1748739600; Mock.summary "m1" 1748736000;
           Mock.summary "m9" 1748743200];
          [Mock.summary "m1" 1748736000]]
         Mock.details)
      3 "p1" "cs2" "Kevzip" [] =
    Some (Ok (FRecords [Mock.record1; Mock.record1]), tr) /\
    history_count tr = 3%nat.
Proof. eexists. split; reflexivity. Qed.

(** The bound on the turns is reached when the upstream never runs out of
    pages. *)
Example endless_pages :
  fetch_games (fun _ _ => Mock.ok200 (Mock.page [JObj []])) 50 "p1" "cs2" "Kevzip" []
  = None.
Proof. reflexivity. Qed.

(** ** The three lookups *)

Section Lookups.

Variable upstream : trace -> request -> outcome response.

(** X2: whatever the upstream does, a result that [get_match_stats] or
    [get_match_history] builds for a failure (status other than 200, or a
    [RequestException] of the transport or of the decoding) is an error
    result: it has the keys ["error"] and ["message"], so the test of the
    callers finds it and reading its message does not fail. *)
Theorem lookup_failures_are_error_results
    (player_id game_id : string) (from_timestamp to_timestamp offset lim : Z)
    (match_id : json) (tr : trace) :
  (forall v,
      ~ answers upstream
          (EvPrint (MsgRequesting
             (ReqHistory player_id game_id from_timestamp to_timestamp offset lim)) :: tr)
          (ReqHistory player_id game_id from_timestamp to_timestamp offset lim) v ->
      fst (get_match_history upstream player_id game_id from_timestamp to_timestamp
             offset lim tr) = Ok v ->
      exists error msg,
        v = error_result error msg /\ py_in "error" v = Ok true /\
        py_getitem v "message" = Ok (JStr msg)) /\
  (forall v,
      ~ answers upstream tr (ReqStats match_id) v ->
      fst (get_match_stats upstream match_id tr) = Ok v ->
      exists error msg,
        v = error_result error msg /\ py_in "error" v = Ok true /\
        py_getitem v "message" = Ok (JStr msg)).
Proof.
  split; intros v Hno.
  - unfold get_match_history, try_request, bind, requests_get, lift, ret, emit.
    destruct (upstream _ _) as [r|e0] eqn:Hu.
    + destruct (status_code r =? 200) eqn:Hs.
      * apply Z.eqb_eq in Hs.
        destruct (body_json r) as [v0|e0] eqn:Hb.
        -- cbn [fst]. intros H. injection H as <-.
           exfalso. apply Hno. exists r. tauto.
        -- destruct e0; cbn [fst]; intros H; try discriminate.
           injection H as <-. do 2 eexists. repeat split; reflexivity.
      * cbn [fst]. intros H. injection H as <-.
        do 2 eexists. repeat split; reflexivity.
    + destruct e0; cbn [fst]; intros H; try discriminate.
      injection H as <-. do 2 eexists. repeat split; reflexivity.
  - unfold get_match_stats, try_request, bind, requests_get, lift, ret.
    destruct (upstream _ _) as [r|e0] eqn:Hu.
    + destruct (status_code r =? 200) eqn:Hs.
      * apply Z.eqb_eq in Hs.
        destruct (body_json r) as [v0|e0] eqn:Hb.
        -- cbn [fst]. intros H. injection H as <-.
           exfalso. apply Hno. exists r. tauto.
        -- destruct e0; cbn [fst]; intros H; try discriminate.
           injection H as <-. do 2 eexists. repeat split; reflexivity.
      * cbn [fst]. intros H. injection H as <-.
        do 2 eexists. repeat split; reflexivity.
    + destruct e0; cbn [fst]; intros H; try discriminate.
      injection H as <-. do 2 eexists. repeat split; reflexivity.
Qed.

(** X3: when the transport raises a [RequestException] on the player
    search, or the decoding of the body with status 200 does,
    [find_player_id] raises nothing: it returns the error result
    ["Player search error"] with the text of the exception, after its one
    request. *)
Theorem find_player_id_request_exception (nickname : string) (tr : trace)
    (msg : string) :
  raised_by upstream tr (ReqPlayer nickname) (RequestException msg) ->
  find_player_id upstream nickname tr =
  (Ok (JObj [("error", JStr "Player search error"); ("message", JStr msg)]),
   EvRequest (ReqPlayer nickname) :: tr).
Proof.
  unfold find_player_id, try_request, bind, requests_get, lift, ret.
  intros [H | (r & H & Hs & Hb)]; rewrite H; [reflexivity|].
  rewrite Hs, Hb. reflexivity.
Qed.

(** X4: when the player search is answered with status 200 and an object
    without [player_id], [find_player_id] returns [None]; the test of the
    script on that result, ["error" in None], raises [TypeError].  When
    the body is decoded to a value that is not an object,
    [find_player_id] raises [AttributeError]. *)
Theorem find_player_id_without_id (nickname : string) (tr : trace)
    (r : response) (data : json) :
  upstream tr (ReqPlayer nickname) = Ok r -> status_code r = 200 ->
  body_json r = Ok data ->
  (forall fields,
      data = JObj fields -> dict_get "player_id" fields = None ->
      find_player_id upstream nickname tr = (Ok JNull, EvRequest (ReqPlayer nickname) :: tr) /\
      obind (fst (find_player_id upstream nickname tr)) is_error_result = Raise TypeError) /\
  ((forall fields, data <> JObj fields) ->
   find_player_id upstream nickname tr
   = (Raise AttributeError, EvRequest (ReqPlayer nickname) :: tr)).
Proof.
  intros Hu Hs Hb.
  unfold find_player_id, try_request, bind, requests_get, lift, ret.
  rewrite Hu, Hs, Hb. cbn [Z.eqb Pos.eqb]. split.
  - intros fields -> Hid. cbn [py_get]. rewrite Hid. split; reflexivity.
  - intros Hno. destruct data; try reflexivity. exfalso. eapply Hno. reflexivity.
Qed.

End Lookups.

(** ** What a run adds to the trace *)

Lemma stats_count_app (a b : trace) :
  stats_count (a ++ b)%list = (stats_count a + stats_count b)%nat.
Proof.
  induction a as [|e a IH]; [reflexivity|].
  destruct e as [[]| | |]; cbn; rewrite ?IH; reflexivity.
Qed.

Lemma history_requests_page (body tr : trace) :
  Forall page_event body -> history_requests (body ++ tr)%list = history_requests tr.
Proof.
  induction 1 as [|e body He _ IH]; [reflexivity|].
  destruct e as [[]| | |]; cbn in He |- *; try contradiction; exact IH.
Qed.

Lemma sleep_total_page (body tr : trace) :
  Forall page_event body -> sleep_total (body ++ tr)%list = sleep_total tr.
Proof.
  induction 1 as [|e body He _ IH]; [reflexivity|].
  destruct e as [[]| | |]; cbn in He |- *; try contradiction; exact IH.
Qed.

Section Shapes.

Variable upstream : trace -> request -> outcome response.
Variables player_id game_id nickname : string.

(** One match adds at most its stats request and one printed line, and
    a record comes with a request. *)
Lemma process_match_shape (m : json) (tr : trace) :
  exists body,
    snd (process_match upstream player_id nickname m tr) = (body ++ tr)%list /\
    Forall page_event body /\ (stats_count body <= 1)%nat /\
    (forall d, fst (process_match upstream player_id nickname m tr) = Ok (Some d) ->
               stats_count body = 1%nat).
Proof.
  destruct (process_match_trace upstream player_id nickname m tr)
    as [Ht | (match_id & _ & [Ht | (line & Ht)])].
  - exists []. split; [exact Ht|]. split; [constructor|]. split; [cbn; lia|].
    intros d Hd.
    destruct (process_match upstream player_id nickname m tr) as [r tr1] eqn:Hp.
    cbn [fst snd] in *. subst r tr1.
    destruct (process_match_record upstream player_id nickname m tr tr d Hp)
      as (mid & _ & _ & _ & _ & _ & Htr & _).
    exfalso. clear -Htr.
    assert (Hl : List.length tr = List.length (EvRequest (ReqStats mid) :: tr))
      by (rewrite <- Htr; reflexivity).
    cbn in Hl. lia.
  - exists [EvRequest (ReqStats match_id)]. split; [exact Ht|].
    split; [repeat constructor|]. split; [cbn; lia | reflexivity].
  - exists [EvPrint line; EvRequest (ReqStats match_id)]. split; [exact Ht|].
    split; [repeat constructor|]. split; [cbn; lia | reflexivity].
Qed.

(** The loop over a page adds stats requests and printed lines only, at
    most one request for each match; the list of records grows at its end,
    by at most one record for each request. *)
Lemma for_matches_shape (matches : list json) :
  forall all_matches tr,
  exists body,
    snd (for_matches upstream player_id nickname matches all_matches tr)
      = (body ++ tr)%list /\
    Forall page_event body /\ (stats_count body <= List.length matches)%nat /\
    (forall all_matches',
        fst (for_matches upstream player_id nickname matches all_matches tr)
          = Ok all_matches' ->
        exists ds, all_matches' = (all_matches ++ ds)%list /\
                   (List.length ds <= stats_count body)%nat).
Proof.
  induction matches as [|m matches IH]; intros all_matches tr.
  - exists []. cbn. split; [reflexivity|]. split; [constructor|]. split; [lia|].
    intros a H. injection H as <-. exists []. rewrite app_nil_r.
    split; [reflexivity | cbn; lia].
  - cbn [for_matches]. unfold bind.
    destruct (process_match_shape m tr) as (b1 & Ht1 & Hb1 & Hc1 & Hd1).
    destruct (process_match upstream player_id nickname m tr) as [[r|e] tr1];
      cbn [fst snd] in Ht1, Hd1; subst tr1.
    + destruct (IH (match r with
                    | Some d => (all_matches ++ [d])%list
                    | None => all_matches
                    end)
                  (b1 ++ tr)%list) as (b2 & Ht2 & Hb2 & Hc2 & Hd2).
      exists (b2 ++ b1)%list. rewrite Ht2, app_assoc.
      split; [reflexivity|]. split; [apply Forall_app; tauto|].
      rewrite stats_count_app. split; [cbn [List.length]; lia|].
      intros a Ha. destruct (Hd2 a Ha) as (ds & -> & Hlen).
      destruct r as [d|].
      * exists (d :: ds). rewrite <- app_assoc. split; [reflexivity|].
        pose proof (Hd1 d eq_refl). cbn [List.length]. lia.
      * exists ds. split; [reflexivity | lia].
    + exists b1. split; [reflexivity|]. split; [exact Hb1|].
      split; [cbn [List.length]; lia|]. discriminate.
Qed.

(** A turn of the loop adds, in this order, the printed URL, the history
    request, the events of the page and, when the loop goes on, the sleep
    of one second. *)
Lemma fetch_page_shape (all_matches : list match_data) (offset : Z) (tr : trace) :
  exists body ending,
    snd (fetch_page upstream player_id game_id nickname all_matches offset tr)
      = (ending ++ body ++ EvRequest (history_url player_id game_id offset)
           :: EvPrint (MsgRequesting (history_url player_id game_id offset)) :: tr)%list /\
    Forall page_event body /\
    ((ending = [EvSleep 1] /\
      exists ds,
        fst (fetch_page upstream player_id game_id nickname all_matches offset tr)
          = Ok (Next (all_matches ++ ds)%list) /\
        (List.length ds <= stats_count body)%nat) \/
     (ending = [] /\
      forall a, fst (fetch_page upstream player_id game_id nickname all_matches offset tr)
                <> Ok (Next a))).
Proof.
  unfold fetch_page, bind, lift, ret, emit.
  pose proof (get_match_history_trace upstream player_id game_id start_date end_date
                offset limit tr) as Ht.
  cbv zeta in Ht. fold (history_url player_id game_id offset) in Ht.
  destruct (get_match_history upstream player_id game_id start_date end_date offset limit tr)
    as [[history|e] tr1]; cbn [snd] in Ht; subst tr1.
  2: { exists [], []. split; [reflexivity|]. split; [constructor|]. right.
       split; [reflexivity | discriminate]. }
  destruct (py_in "error" history) as [[|]|e].
  1, 3: exists [], []; (split; [reflexivity|]); (split; [constructor|]); right;
        (split; [reflexivity | discriminate]).
  destruct (py_get history "items" (JList [])) as [matches|e].
  2: { exists [], []. split; [reflexivity|]. split; [constructor|]. right.
       split; [reflexivity | discriminate]. }
  destruct (negb (truthy matches)).
  { exists [], []. split; [reflexivity|]. split; [constructor|]. right.
    split; [reflexivity | discriminate]. }
  destruct (py_len matches) as [count|e].
  2: { exists [], []. split; [reflexivity|]. split; [constructor|]. right.
       split; [reflexivity | discriminate]. }
  destruct (py_iter matches) as [ms|e].
  2: { exists [EvPrint (MsgFetched count offset)], []. split; [reflexivity|].
       split; [repeat constructor|]. right. split; [reflexivity | discriminate]. }
  match goal with
  | |- context [for_matches upstream player_id nickname ms all_matches ?t] =>
      destruct (for_matches_shape ms all_matches t) as (body & Hb & Hpage & _ & Hrec);
      destruct (for_matches upstream player_id nickname ms all_matches t) as [[a|e] tr2]
  end; cbn [fst snd] in Hb, Hrec; subst tr2.
  - exists (body ++ [EvPrint (MsgFetched count offset)])%list, [EvSleep 1].
    split; [rewrite <- app_assoc; reflexivity|].
    split; [apply Forall_app; split; [exact Hpage | repeat constructor]|].
    left. split; [reflexivity|].
    destruct (Hrec a eq_refl) as (ds & -> & Hlen). exists ds.
    split; [reflexivity|]. rewrite stats_count_app. cbn. lia.
  - exists (body ++ [EvPrint (MsgFetched count offset)])%list, [].
    split; [rewrite <- app_assoc; reflexivity|].
    split; [apply Forall_app; split; [exact Hpage | repeat constructor]|].
    right. split; [reflexivity | discriminate].
Qed.

Lemma turns_step (k n : nat) (rest : list request) :
  (turns player_id game_id (S k) n
     ++ history_url player_id game_id (Z.of_nat k * limit) :: rest)%list
  = (turns player_id game_id k (S n) ++ rest)%list.
Proof.
  unfold turns. cbn [seq map rev]. rewrite <- app_assoc. reflexivity.
Qed.

(** The whole loop, from its turn [k] on. *)
Lemma fetch_loop_shape (fuel : nat) :
  forall k all_matches tr out tr',
    fetch_loop upstream fuel player_id game_id nickname all_matches
      (Z.of_nat k * limit) tr = Some (out, tr') ->
    exists n,
      (0 < n <= fuel)%nat /\
      history_requests tr' = (turns player_id game_id k n ++ history_requests tr)%list /\
      sleep_total tr' = sleep_total tr + Z.of_nat n - 1 /\
      (stats_count tr <= stats_count tr')%nat /\
      (forall records,
          out = Ok (FRecords records) ->
          exists ds, records = (all_matches ++ ds)%list /\
                     (List.length ds <= stats_count tr' - stats_count tr)%nat).
Proof.
  induction fuel as [|fuel IH]; intros k all_matches tr out tr' H; [discriminate|].
  cbn [fetch_loop] in H.
  destruct (fetch_page_shape all_matches (Z.of_nat k * limit) tr)
    as (body & ending & Ht & Hpage & Hend).
  destruct (fetch_page upstream player_id game_id nickname all_matches
              (Z.of_nat k * limit) tr) as [r tr1].
  cbn [fst snd] in Ht, Hend.
  assert (Hone : forall tr2,
             tr2 = (body ++ EvRequest (history_url player_id game_id (Z.of_nat k * limit))
                      :: EvPrint (MsgRequesting
                                    (history_url player_id game_id (Z.of_nat k * limit)))
                      :: tr)%list ->
             history_requests tr2 =
               history_url player_id game_id (Z.of_nat k * limit) :: history_requests tr /\
             sleep_total tr2 = sleep_total tr /\
             stats_count tr2 = (stats_count body + stats_count tr)%nat).
  { intros tr2 ->.
    rewrite history_requests_page, sleep_total_page, stats_count_app by exact Hpage.
    repeat split; reflexivity. }
  destruct Hend as [[-> (ds & Hr & Hlen)] | [-> Hnext]].
  - subst r. cbn [app] in Ht. subst tr1.
    replace (Z.of_nat k * limit + limit) with (Z.of_nat (S k) * limit) in H by lia.
    destruct (IH (S k) _ _ out tr' H) as (n & Hn & Hh & Hs & Hc & Hrec).
    destruct (Hone _ eq_refl) as (Hh1 & Hs1 & Hc1).
    cbn [history_requests sleep_total stats_count] in Hh, Hs, Hc, Hrec.
    rewrite Hh1 in Hh. rewrite Hs1 in Hs. rewrite Hc1 in Hc, Hrec.
    exists (S n). split; [lia|]. split; [rewrite Hh; apply turns_step|].
    split; [lia|]. split; [lia|].
    intros records Hout. destruct (Hrec records Hout) as (ds' & -> & Hlen').
    exists (ds ++ ds')%list. rewrite app_assoc. split; [reflexivity|].
    rewrite length_app. lia.
  - cbn [app] in Ht. subst tr1.
    destruct (Hone _ eq_refl) as (Hh1 & Hs1 & Hc1).
    assert (Hout : forall records, out = Ok (FRecords records) -> records = all_matches).
    { destruct r as [[h| |a]|e]; try (injection H as <- <-; intros; congruence).
      exfalso. eapply Hnext. reflexivity. }
    assert (Htr : tr' = (body ++ EvRequest (history_url player_id game_id (Z.of_nat k * limit))
                          :: EvPrint (MsgRequesting
                                        (history_url player_id game_id (Z.of_nat k * limit)))
                          :: tr)%list).
    { destruct r as [[h| |a]|e]; try (injection H as <- <-; reflexivity).
      exfalso. eapply Hnext. reflexivity. }
    subst tr'. exists 1%nat. split; [lia|].
    split; [rewrite Hh1; reflexivity|]. split; [lia|]. split; [lia|].
    intros records Hrec. rewrite (Hout records Hrec). exists [].
    rewrite app_nil_r. split; [reflexivity | cbn; lia].
Qed.

End Shapes.

(** ** The run as a whole *)

Lemma history_count_requests (tr : trace) :
  history_count tr = List.length (history_requests tr).
Proof.
  induction tr as [|e tr IH]; [reflexivity|].
  destruct e as [[]| | |]; cbn; rewrite ?IH; reflexivity.
Qed.

Lemma turns_length (player_id game_id : string) (k n : nat) :
  List.length (turns player_id game_id k n) = n.
Proof. unfold turns. rewrite length_rev, length_map, length_seq. reflexivity. Qed.

Section Runs.

Variable upstream : trace -> request -> outcome response.
Variables player_id game_id nickname : string.

(** X5: however a run of [fetch_games] ends (records, an error result or
    an exception), the history requests it has issued are those of the
    offsets 0, [limit], 2 * [limit], ... in this order, one for each turn
    of the loop and at least one, each for the window from [start_date]
    to [end_date] with the page size [limit]. *)
Theorem history_offsets (fuel : nat) (tr0 tr' : trace) (out : outcome fetch_result) :
  fetch_games upstream fuel player_id game_id nickname tr0 = Some (out, tr') ->
  exists n,
    (0 < n <= fuel)%nat /\
    history_requests tr' =
    (rev (map (fun i => ReqHistory player_id game_id start_date end_date
                          (Z.of_nat i * limit) limit) (seq 0 n))
       ++ history_requests tr0)%list.
Proof.
  intros H.
  destruct (fetch_loop_shape upstream player_id game_id nickname fuel 0 [] tr0 out tr' H)
    as (n & Hn & Hh & _).
  exists n. split; [exact Hn | exact Hh].
Qed.

(** X6: a run of [fetch_games] sleeps one second after each page it has
    gone through and not after its last history request: however it ends,
    the seconds slept are the number of its history requests less one. *)
Theorem one_second_between_pages (fuel : nat) (tr0 tr' : trace)
    (out : outcome fetch_result) :
  fetch_games upstream fuel player_id game_id nickname tr0 = Some (out, tr') ->
  sleep_total tr' - sleep_total tr0
  = Z.of_nat (history_count tr') - Z.of_nat (history_count tr0) - 1.
Proof.
  intros H.
  destruct (fetch_loop_shape upstream player_id game_id nickname fuel 0 [] tr0 out tr' H)
    as (n & Hn & Hh & Hs & _).
  rewrite !history_count_requests, Hh, length_app, turns_length. lia.
Qed.

(** X7: the list of records only grows at its end during the
    pagination: the records gathered after any number of turns are the
    first of the records that [fetch_games] returns; and it returns no
    more records than it has issued stats requests. *)
Theorem records_only_grow (fuel : nat) (tr0 tr' : trace) (records : list match_data) :
  fetch_games upstream fuel player_id game_id nickname tr0
    = Some (Ok (FRecords records), tr') ->
  (List.length records <= stats_count tr' - stats_count tr0)%nat /\
  (forall n all_matches offset tr,
      pages_done upstream n player_id game_id nickname [] 0 tr0
        = Some (all_matches, offset, tr) ->
      exists ds, records = (all_matches ++ ds)%list).
Proof.
  intros H. split.
  - destruct (fetch_loop_shape upstream player_id game_id nickname fuel 0 [] tr0 _ tr' H)
      as (n & _ & _ & _ & _ & Hrec).
    destruct (Hrec records eq_refl) as (ds & -> & Hlen). exact Hlen.
  - unfold fetch_games in H.
    assert (Hgen : forall n fuel k acc tr1 acc2 off2 tr2,
               pages_done upstream n player_id game_id nickname acc
                 (Z.of_nat k * limit) tr1 = Some (acc2, off2, tr2) ->
               fetch_loop upstream fuel player_id game_id nickname acc
                 (Z.of_nat k * limit) tr1 = Some (Ok (FRecords records), tr') ->
               exists ds, records = (acc2 ++ ds)%list).
    { induction n as [|n IH]; intros fuel' k acc tr1 acc2 off2 tr2 Hd Hl.
      - cbn in Hd. injection Hd as <- <- <-.
        destruct (fetch_loop_shape upstream player_id game_id nickname fuel' k acc tr1 _ tr' Hl)
          as (m & _ & _ & _ & _ & Hrec).
        destruct (Hrec records eq_refl) as (ds & -> & _). exists ds. reflexivity.
      - destruct fuel' as [|fuel']; [discriminate|].
        cbn [pages_done] in Hd. cbn [fetch_loop] in Hl.
        destruct (fetch_page upstream player_id game_id nickname acc (Z.of_nat k * limit) tr1)
          as [[[h| |a]|e] tr3]; try discriminate.
        replace (Z.of_nat k * limit + limit) with (Z.of_nat (S k) * limit) in Hd, Hl by lia.
        eapply IH; eassumption. }
    intros n all_matches offset tr Hd.
    exact (Hgen n fuel 0%nat [] tr0 all_matches offset tr Hd H).
Qed.

(** X8: the loop over the matches of a page issues at most one stats
    request for each match summary, whatever its outcome; when it comes
    to its end, the records it was given are kept, in their order, and
    those it has added follow them, at most one for each stats request of
    the page. *)
Theorem page_requests_and_records (matches : list json)
    (all_matches : list match_data) (tr : trace) :
  let run := for_matches upstream player_id nickname matches all_matches tr in
  (stats_count tr <= stats_count (snd run) <= stats_count tr + List.length matches)%nat /\
  history_count (snd run) = history_count tr /\
  sleep_total (snd run) = sleep_total tr /\
  (forall all_matches',
      fst run = Ok all_matches' ->
      exists ds,
        all_matches' = (all_matches ++ ds)%list /\
        (List.length ds <= stats_count (snd run) - stats_count tr)%nat).
Proof.
  cbv zeta.
  destruct (for_matches_shape upstream player_id nickname matches all_matches tr)
    as (body & Hb & Hpage & Hc & Hrec).
  rewrite Hb, stats_count_app, sleep_total_page, !history_count_requests,
    history_requests_page by exact Hpage.
  split; [lia|]. split; [reflexivity|]. split; [reflexivity|].
  intros a Ha. destruct (Hrec a Ha) as (ds & -> & Hlen).
  exists ds. split; [reflexivity | lia].
Qed.

Lemma fetch_page_returned (all_matches : list match_data) (offset : Z)
    (tr tr' : trace) (history : json) :
  fetch_page upstream player_id game_id nickname all_matches offset tr
    = (Ok (Returned history), tr') ->
  py_in "error" history = Ok true.
Proof.
  unfold fetch_page, bind, lift, ret, emit.
  destruct (get_match_history upstream player_id game_id start_date end_date offset limit tr)
    as [[h|e] tr1]; [|discriminate].
  destruct (py_in "error" h) as [[|]|e] eqn:He; try discriminate.
  - intros H. injection H as <- <-. exact He.
  - destruct (py_get h "items" (JList [])) as [matches|e]; [|discriminate].
    destruct (negb (truthy matches)); [discriminate|].
    destruct (py_len matches) as [count|e]; [|discriminate].
    destruct (py_iter matches) as [ms|e]; [|discriminate].
    destruct (for_matches upstream player_id nickname ms all_matches _) as [[a|e] tr2];
      discriminate.
Qed.

(** X9: what [fetch_games] returns tells the two ways of returning
    apart: a returned history page always carries ["error"], so the test
    of the script, ["error" in matches], is true of it and does not
    raise. *)
Theorem returned_history_has_error (fuel : nat) (tr0 tr' : trace) (history : json) :
  fetch_games upstream fuel player_id game_id nickname tr0
    = Some (Ok (FError history), tr') ->
  is_error_result history = Ok true.
Proof.
  unfold fetch_games. generalize (@nil match_data) as acc, 0 as offset, tr0 as tr.
  induction fuel as [|fuel IH]; intros acc offset tr H; [discriminate|].
  cbn [fetch_loop] in H.
  destruct (fetch_page upstream player_id game_id nickname acc offset tr)
    as [[[h| |a]|e] tr1] eqn:Hp; try discriminate.
  - injection H as <- <-. eapply fetch_page_returned. exact Hp.
  - eapply IH. exact H.
Qed.

End Runs.

(** ** Exceptions *)

Lemma py_get_raises (v : json) (key : string) (default : json) (e : exn) :
  py_get v key default = Raise e -> is_builtin_error e = true.
Proof. destruct v; cbn; intros H; try discriminate; injection H as <-; reflexivity. Qed.

Lemma py_in_raises (key : string) (v : json) (e : exn) :
  py_in key v = Raise e -> is_builtin_error e = true.
Proof. destruct v; cbn; intros H; try discriminate; injection H as <-; reflexivity. Qed.

Lemma py_iter_raises (v : json) (e : exn) :
  py_iter v = Raise e -> is_builtin_error e = true.
Proof. destruct v; cbn; intros H; try discriminate; injection H as <-; reflexivity. Qed.

Lemma py_len_raises (v : json) (e : exn) :
  py_len v = Raise e -> is_builtin_error e = true.
Proof. destruct v; cbn; intros H; try discriminate; injection H as <-; reflexivity. Qed.

Lemma py_getitem_raises (v : json) (key : string) (e : exn) :
  py_getitem v key = Raise e -> is_builtin_error e = true.
Proof.
  destruct v; cbn; intros H; try (injection H as <-; reflexivity).
  destruct (dict_get key fields); [discriminate | injection H as <-; reflexivity].
Qed.

Lemma py_index0_raises (v : json) (e : exn) :
  py_index0 v = Raise e -> is_builtin_error e = true.
Proof.
  destruct v as [| | |s|l|f]; cbn; intros H; try (injection H as <-; reflexivity).
  - destruct s; [injection H as <-; reflexivity | discriminate].
  - destruct l; [injection H as <-; reflexivity | discriminate].
Qed.

Lemma strftime_utc_raises (v : json) (e : exn) :
  Calendar.strftime_utc v = Raise e ->
  is_builtin_error e = true \/ is_range_error e = true.
Proof.
  unfold Calendar.strftime_utc, Calendar.fromtimestamp_utc.
  destruct v; intros H; try (left; injection H as <-; reflexivity);
    repeat match type of H with
           | context [if ?c then _ else _] => destruct c
           end;
    try discriminate; injection H as <-;
    solve [left; reflexivity | right; reflexivity].
Qed.

Lemma obind_raises {A B : Type} (o : outcome A) (k : A -> outcome B) (e : exn) :
  obind o k = Raise e -> o = Raise e \/ exists a, o = Ok a /\ k a = Raise e.
Proof.
  destruct o as [a|e0]; cbn; intros H;
    [right; exists a; tauto | left; injection H as <-; reflexivity].
Qed.

Create HintDb raises.

#[local] Hint Resolve py_get_raises py_in_raises py_iter_raises py_len_raises
  py_getitem_raises py_index0_raises : raises.

Ltac split_obind H :=
  let a := fresh "a" in
  let Ha := fresh "Ha" in
  apply obind_raises in H; destruct H as [H | (a & Ha & H)]; [eauto with raises|].

Lemma scan_players_raises (player_id : string) (players : list json) (init : json)
    (e : exn) :
  scan_players player_id players init = Raise e -> is_builtin_error e = true.
Proof.
  induction players as [|p players IH]; cbn [scan_players]; intros H; [discriminate|].
  split_obind H.
  destruct (py_eq_str a player_id); eauto with raises.
Qed.

Lemma scan_teams_raises (player_id : string) (teams : list json) :
  forall init e,
    scan_teams player_id teams init = Raise e -> is_builtin_error e = true.
Proof.
  induction teams as [|t teams IH]; cbn [scan_teams]; intros init e H; [discriminate|].
  split_obind H. split_obind H.
  apply obind_raises in H. destruct H as [H | (ps & _ & H)].
  - eapply scan_players_raises. exact H.
  - destruct (truthy ps); [discriminate | eapply IH; exact H].
Qed.

Lemma first_round_raises (stats : json) (e : exn) :
  first_round stats = Raise e -> is_builtin_error e = true.
Proof. unfold first_round. intros H. split_obind H. eauto with raises. Qed.

Lemma round_stat_raises (stats : json) (key : string) (e : exn) :
  round_stat stats key = Raise e -> is_builtin_error e = true.
Proof.
  unfold round_stat. intros H.
  apply obind_raises in H. destruct H as [H | (r & _ & H)].
  - eapply first_round_raises. exact H.
  - split_obind H. eauto with raises.
Qed.

Lemma compile_match_data_raises (nickname : string)
    (match_id match_date stats player_stats : json) (e : exn) :
  compile_match_data nickname match_id match_date stats player_stats = Raise e ->
  is_builtin_error e = true \/ is_range_error e = true.
Proof.
  unfold compile_match_data. intros H.
  apply obind_raises in H. destruct H as [H | (x0 & _ & H)];
    [eapply strftime_utc_raises; exact H|].
  left.
  apply obind_raises in H. destruct H as [H | (x1 & _ & H)];
    [eapply round_stat_raises; exact H|].
  apply obind_raises in H. destruct H as [H | (x2 & _ & H)];
    [eapply round_stat_raises; exact H|].
  do 7 split_obind H. discriminate.
Qed.

Section Exceptions.

Variable upstream : trace -> request -> outcome response.

Lemma get_match_stats_raises (match_id : json) (tr : trace) (e : exn) :
  fst (get_match_stats upstream match_id tr) = Raise e ->
  is_request_exception e = false /\ raised_by upstream tr (ReqStats match_id) e.
Proof.
  unfold get_match_stats, try_request, bind, requests_get, lift, ret, raised_by.
  destruct (upstream _ _) as [r|e0] eqn:Hu.
  - destruct (status_code r =? 200) eqn:Hs; [|discriminate].
    apply Z.eqb_eq in Hs.
    destruct (body_json r) as [v|e0] eqn:Hb; [discriminate|].
    destruct e0; cbn [fst]; intros H; try discriminate; injection H as <-;
      (split; [reflexivity | right; exists r; tauto]).
  - destruct e0; cbn [fst]; intros H; try discriminate; injection H as <-;
      (split; [reflexivity | left; reflexivity]).
Qed.

Lemma get_match_history_raises (player_id game_id : string)
    (from_timestamp to_timestamp offset lim : Z) (tr : trace) (e : exn) :
  fst (get_match_history upstream player_id game_id from_timestamp to_timestamp
         offset lim tr) = Raise e ->
  is_request_exception e = false /\
  raised_by upstream
    (EvPrint (MsgRequesting
       (ReqHistory player_id game_id from_timestamp to_timestamp offset lim)) :: tr)
    (ReqHistory player_id game_id from_timestamp to_timestamp offset lim) e.
Proof.
  unfold get_match_history, try_request, bind, requests_get, lift, ret, emit, raised_by.
  destruct (upstream _ _) as [r|e0] eqn:Hu.
  - destruct (status_code r =? 200) eqn:Hs; [|discriminate].
    apply Z.eqb_eq in Hs.
    destruct (body_json r) as [v|e0] eqn:Hb; [discriminate|].
    destruct e0; cbn [fst]; intros H; try discriminate; injection H as <-;
      (split; [reflexivity | right; exists r; tauto]).
  - destruct e0; cbn [fst]; intros H; try discriminate; injection H as <-;
      (split; [reflexivity | left; reflexivity]).
Qed.

Lemma builtin_expected (e : exn) : is_builtin_error e = true -> expected_exception upstream e.
Proof. intros H. split; [destruct e; try reflexivity; discriminate | left; exact H]. Qed.

Lemma range_expected (e : exn) : is_range_error e = true -> expected_exception upstream e.
Proof.
  intros H. split; [destruct e; try reflexivity; discriminate | right; left; exact H].
Qed.

Lemma process_match_raises (player_id nickname : string) (m : json) (tr : trace)
    (e : exn) :
  fst (process_match upstream player_id nickname m tr) = Raise e ->
  expected_exception upstream e.
Proof.
  unfold process_match, bind, lift, ret, emit.
  destruct (py_get m "match_id" JNull) as [match_id|e0] eqn:H1;
    [|cbn; intros H; injection H as <-; eauto using builtin_expected with raises].
  destruct (py_get m "started_at" JNull) as [match_date|e0] eqn:H2;
    [|cbn; intros H; injection H as <-; eauto using builtin_expected with raises].
  destruct (negb (truthy match_id) || negb (truthy match_date)); [discriminate|].
  pose proof (get_match_stats_raises match_id tr) as Hs.
  destruct (get_match_stats upstream match_id tr) as [[stats|e0] tr1].
  2: { cbn [fst] in *. intros H. injection H as <-.
       destruct (Hs e0 eq_refl) as [Hn Hr]. split; [exact Hn|]. right. right. eauto. }
  clear Hs.
  destruct (py_in "error" stats) as [[|]|e0] eqn:H3;
    [| |cbn; intros H; injection H as <-; eauto using builtin_expected with raises].
  { destruct (py_getitem stats "message") as [msg|e0] eqn:H4; [discriminate|].
    cbn. intros H. injection H as <-. eauto using builtin_expected with raises. }
  destruct (first_round stats) as [round|e0] eqn:H4;
    [|cbn; intros H; injection H as <-; eauto using builtin_expected, first_round_raises].
  destruct (py_get round "teams" (JList [])) as [tv|e0] eqn:H5;
    [|cbn; intros H; injection H as <-; eauto using builtin_expected with raises].
  destruct (py_iter tv) as [teams|e0] eqn:H6;
    [|cbn; intros H; injection H as <-; eauto using builtin_expected with raises].
  destruct (scan_teams player_id teams JNull) as [ps|e0] eqn:H7;
    [|cbn; intros H; injection H as <-; eauto using builtin_expected, scan_teams_raises].
  destruct (negb (truthy ps)); [discriminate|].
  destruct (compile_match_data nickname match_id match_date stats ps) as [d|e0] eqn:H8;
    [discriminate|].
  cbn. intros H. injection H as <-.
  destruct (compile_match_data_raises _ _ _ _ _ _ H8);
    eauto using builtin_expected, range_expected.
Qed.

Lemma for_matches_raises (player_id nickname : string) (matches : list json) :
  forall all_matches tr e,
    fst (for_matches upstream player_id nickname matches all_matches tr) = Raise e ->
    expected_exception upstream e.
Proof.
  induction matches as [|m matches IH]; intros all_matches tr e; [discriminate|].
  cbn [for_matches]. unfold bind.
  pose proof (process_match_raises player_id nickname m tr) as Hm.
  destruct (process_match upstream player_id nickname m tr) as [[r|e0] tr1].
  - apply IH.
  - cbn [fst] in *. intros H. injection H as <-. apply Hm. reflexivity.
Qed.

Lemma fetch_page_raises (player_id game_id nickname : string)
    (all_matches : list match_data) (offset : Z) (tr : trace) (e : exn) :
  fst (fetch_page upstream player_id game_id nickname all_matches offset tr) = Raise e ->
  expected_exception upstream e.
Proof.
  unfold fetch_page, bind, lift, ret, emit.
  pose proof (get_match_history_raises player_id game_id start_date end_date offset limit tr)
    as Hh.
  destruct (get_match_history upstream player_id game_id start_date end_date offset limit tr)
    as [[history|e0] tr1].
  2: { cbn [fst] in *. intros H. injection H as <-.
       destruct (Hh e0 eq_refl) as [Hn Hr]. split; [exact Hn|]. right. right. eauto. }
  clear Hh.
  destruct (py_in "error" history) as [[|]|e0] eqn:H1;
    [discriminate| |cbn; intros H; injection H as <-;
                    eauto using builtin_expected with raises].
  destruct (py_get history "items" (JList [])) as [matches|e0] eqn:H2;
    [|cbn; intros H; injection H as <-; eauto using builtin_expected with raises].
  destruct (negb (truthy matches)); [discriminate|].
  destruct (py_len matches) as [count|e0] eqn:H3;
    [|cbn; intros H; injection H as <-; eauto using builtin_expected with raises].
  destruct (py_iter matches) as [ms|e0] eqn:H4;
    [|cbn; intros H; injection H as <-; eauto using builtin_expected with raises].
  match goal with
  | |- context [for_matches upstream player_id nickname ms all_matches ?t] =>
      pose proof (for_matches_raises player_id nickname ms all_matches t) as Hf;
      destruct (for_matches upstream player_id nickname ms all_matches t) as [[a|e0] tr2]
  end; [discriminate|].
  cbn [fst] in *. intros H. injection H as <-. apply Hf. reflexivity.
Qed.

(** X1: [get_match_history] and [get_match_stats] let no
    [RequestException] out: an exception that leaves one of them is one
    that the transport, or the decoding of a body with status 200, has
    raised, and it is of another kind. *)
Theorem lookups_catch_request_exceptions
    (player_id game_id : string) (from_timestamp to_timestamp offset lim : Z)
    (match_id : json) (tr : trace) (e : exn) :
  (fst (get_match_history upstream player_id game_id from_timestamp to_timestamp
          offset lim tr) = Raise e ->
   is_request_exception e = false /\
   raised_by upstream
     (EvPrint (MsgRequesting
        (ReqHistory player_id game_id from_timestamp to_timestamp offset lim)) :: tr)
     (ReqHistory player_id game_id from_timestamp to_timestamp offset lim) e) /\
  (fst (get_match_stats upstream match_id tr) = Raise e ->
   is_request_exception e = false /\
   raised_by upstream tr (ReqStats match_id) e).
Proof.
  split; [apply get_match_history_raises | apply get_match_stats_raises].
Qed.

(** X10: no failure of the network surfaces as an exception of
    [fetch_games]: an exception that leaves it is no [RequestException];
    it is one of the errors of an operation on a decoded value
    ([TypeError], [AttributeError], [IndexError], [KeyError],
    [ValueError]), the [OverflowError] or [OSError] of a start time that
    is no instant of the platform, or an exception of another kind that
    the transport or the decoding of a body has raised. *)
Theorem fetch_games_exceptions (fuel : nat) (player_id game_id nickname : string)
    (tr0 tr' : trace) (e : exn) :
  fetch_games upstream fuel player_id game_id nickname tr0 = Some (Raise e, tr') ->
  is_request_exception e = false /\
  (is_builtin_error e = true \/ is_range_error e = true \/
   exists tr url, raised_by upstream tr url e).
Proof.
  unfold fetch_games. generalize (@nil match_data) as acc, 0 as offset, tr0 as tr.
  induction fuel as [|fuel IH]; intros acc offset tr H; [discriminate|].
  cbn [fetch_loop] in H.
  pose proof (fetch_page_raises player_id game_id nickname acc offset tr) as Hp.
  destruct (fetch_page upstream player_id game_id nickname acc offset tr)
    as [[[h| |a]|e0] tr1]; try discriminate.
  - eapply IH. exact H.
  - injection H as <- <-. apply Hp. reflexivity.
Qed.

End Exceptions.

(** ** One match *)

Section Matches.

Variable upstream : trace -> request -> outcome response.
Variables player_id nickname : string.

(** X11: a match summary is looked up exactly when its [match_id] and
    its [started_at] are both truthy.  When one of them is absent, [None],
    0, false or empty, the iteration ends with no request, no printed line
    and no record; when both are truthy, exactly one stats request is
    issued, however the iteration ends. *)
Theorem lookup_iff_truthy (fields : list (string * json)) (tr : trace) :
  (truthy (get_or_none "match_id" fields) = false \/
   truthy (get_or_none "started_at" fields) = false ->
   process_match upstream player_id nickname (JObj fields) tr = (Ok None, tr)) /\
  (truthy (get_or_none "match_id" fields) = true ->
   truthy (get_or_none "started_at" fields) = true ->
   stats_count (snd (process_match upstream player_id nickname (JObj fields) tr))
   = S (stats_count tr) /\
   In (EvRequest (ReqStats (get_or_none "match_id" fields)))
      (snd (process_match upstream player_id nickname (JObj fields) tr))).
Proof.
  unfold get_or_none. split.
  - intros H. unfold process_match, bind, lift, py_get.
    destruct H as [H | H]; rewrite H; cbn [negb orb]; [reflexivity|].
    rewrite orb_true_r. reflexivity.
  - intros Hid Hdate.
    destruct (process_match_trace upstream player_id nickname (JObj fields) tr)
      as [Ht | (match_id & Hm & [Ht | (line & Ht)])].
    + exfalso. revert Ht. unfold process_match, bind, lift, ret, emit. cbn [py_get].
      rewrite Hid, Hdate. cbn [negb orb].
      pose proof (get_match_stats_trace upstream
                    (match dict_get "match_id" fields with Some v => v | None => JNull end)
                    tr) as Hg.
      destruct (get_match_stats upstream _ tr) as [[stats|e] tr1]; cbn [snd] in Hg; subst tr1.
      * destruct (py_in "error" stats) as [[|]|e].
        -- destruct (py_getitem stats "message"); cbn [snd]; intros Ht;
             apply (f_equal (@List.length event)) in Ht; cbn in Ht; lia.
        -- destruct (first_round stats) as [round|e];
             [|cbn [snd]; intros Ht; apply (f_equal (@List.length event)) in Ht;
               cbn in Ht; lia].
           destruct (py_get round "teams" (JList [])) as [tv|e];
             [|cbn [snd]; intros Ht; apply (f_equal (@List.length event)) in Ht;
               cbn in Ht; lia].
           destruct (py_iter tv) as [teams|e];
             [|cbn [snd]; intros Ht; apply (f_equal (@List.length event)) in Ht;
               cbn in Ht; lia].
           destruct (scan_teams player_id teams JNull) as [ps|e];
             [|cbn [snd]; intros Ht; apply (f_equal (@List.length event)) in Ht;
               cbn in Ht; lia].
           destruct (negb (truthy ps));
             [cbn [snd]; intros Ht; apply (f_equal (@List.length event)) in Ht;
              cbn in Ht; lia|].
           destruct (compile_match_data nickname _ _ stats ps);
             cbn [snd]; intros Ht; apply (f_equal (@List.length event)) in Ht;
             cbn in Ht; lia.
        -- cbn [snd]. intros Ht. apply (f_equal (@List.length event)) in Ht.
           cbn in Ht. lia.
      * cbn [snd]. intros Ht. apply (f_equal (@List.length event)) in Ht.
        cbn in Ht. lia.
    + cbn [py_get] in Hm. injection Hm as <-. rewrite Ht.
      split; [reflexivity | left; reflexivity].
    + cbn [py_get] in Hm. injection Hm as <-. rewrite Ht.
      split; [reflexivity | right; left; reflexivity].
Qed.

(** X12: a match detail answered with status 200 whose body carries
    ["error"] is taken for a failed lookup: with a ["message"] the match
    is skipped and the message printed; without one, reading the message
    raises [KeyError], which ends the iteration and the loop over the
    page. *)
Theorem detail_body_with_error (fields sfields : list (string * json))
    (match_id match_date reported : json) (rest : list json)
    (all_matches : list match_data) (tr : trace) :
  dict_get "match_id" fields = Some match_id -> truthy match_id = true ->
  dict_get "started_at" fields = Some match_date -> truthy match_date = true ->
  answers upstream tr (ReqStats match_id) (JObj sfields) ->
  dict_get "error" sfields = Some reported ->
  (forall msg,
      dict_get "message" sfields = Some msg ->
      process_match upstream player_id nickname (JObj fields) tr =
      (Ok None, EvPrint (MsgSkipping match_id msg) :: EvRequest (ReqStats match_id) :: tr)) /\
  (dict_get "message" sfields = None ->
   process_match upstream player_id nickname (JObj fields) tr =
   (Raise KeyError, EvRequest (ReqStats match_id) :: tr) /\
   for_matches upstream player_id nickname (JObj fields :: rest) all_matches tr =
   (Raise KeyError, EvRequest (ReqStats match_id) :: tr)).
Proof.
  intros Hid Tid Hdate Tdate Hans Herr.
  pose proof (get_match_stats_answers upstream match_id tr _ Hans) as Hg.
  split.
  - intros msg Hmsg. unfold process_match, bind, lift, ret, emit, py_get.
    rewrite Hid, Hdate, Tid, Tdate. cbn [negb orb].
    rewrite Hg. cbn [py_in py_getitem]. rewrite Herr, Hmsg. reflexivity.
  - intros Hmsg.
    assert (Hp : process_match upstream player_id nickname (JObj fields) tr =
                 (Raise KeyError, EvRequest (ReqStats match_id) :: tr)).
    { unfold process_match, bind, lift, ret, emit, py_get.
      rewrite Hid, Hdate, Tid, Tdate. cbn [negb orb].
      rewrite Hg. cbn [py_in py_getitem]. rewrite Herr, Hmsg. reflexivity. }
    split; [exact Hp|]. cbn [for_matches]. unfold bind. rewrite Hp. reflexivity.
Qed.

Lemma scan_players_safe (players : list json) (init : json) :
  Forall (safe_player player_id) players ->
  truthy init = false \/ (exists o, init = JObj o) ->
  exists ps,
    scan_players player_id players init = Ok ps /\
    (truthy ps = false \/ exists o, ps = JObj o).
Proof.
  intros Hsafe Hinit.
  induction Hsafe as [|p players (pf & -> & Hp) _ IH]; cbn [scan_players].
  - exists init. split; [reflexivity | exact Hinit].
  - cbn [py_get obind].
    destruct (dict_get "player_id" pf) as [id|] eqn:Hid; [|exact IH].
    destruct (py_eq_str id player_id) eqn:Heq; [|exact IH].
    apply py_eq_str_true in Heq. subst id. specialize (Hp eq_refl).
    destruct (dict_get "player_stats" pf) as [v|].
    + exists v. split; [reflexivity | exact Hp].
    + exists (JObj []). split; [reflexivity | left; reflexivity].
Qed.

Lemma scan_teams_safe (teams : list json) :
  Forall (safe_team player_id) teams ->
  forall init,
    truthy init = false \/ (exists o, init = JObj o) ->
    exists ps,
      scan_teams player_id teams init = Ok ps /\
      (truthy ps = false \/ exists o, ps = JObj o).
Proof.
  induction 1 as [|t teams (tf & players & -> & Hpl & Hsafe) _ IH]; intros init Hinit;
    cbn [scan_teams].
  - exists init. split; [reflexivity | exact Hinit].
  - cbn [py_get obind].
    assert (Hiter : py_iter (match dict_get "players" tf with
                             | Some x => x | None => JList [] end) = Ok players).
    { destruct Hpl as [-> | [-> ->]]; reflexivity. }
    rewrite Hiter. cbn [obind].
    destruct (scan_players_safe players init Hsafe Hinit) as (ps & -> & Hps).
    cbn [obind]. destruct (truthy ps) eqn:Ht.
    + exists ps. split; [reflexivity|].
      destruct Hps as [Hps | Hps]; [discriminate | right; exact Hps].
    + apply IH. left. exact Ht.
Qed.

(** X13: an iteration over well-formed data raises nothing.  For a
    summary whose start time, when truthy, is an integer in the range of
    [datetime], and whose detail lookup fails or is answered with a
    detail of the expected shape (an object without ["error"]; [rounds]
    absent or a list that starts with an object; [teams] and [players]
    absent or lists of objects; the statistics of the target absent,
    falsy or an object; [round_stats] absent or an object), the iteration
    ends with a record or with a skip. *)
Theorem well_formed_match_never_raises (fields : list (string * json)) (tr : trace) :
  (truthy (get_or_none "started_at" fields) = true ->
   date_ok (get_or_none "started_at" fields)) ->
  ((exists msg,
       fetch_fails upstream tr (ReqStats (get_or_none "match_id" fields)) msg) \/
   (exists stats,
       answers upstream tr (ReqStats (get_or_none "match_id" fields)) stats /\
       safe_detail player_id stats)) ->
  exists r, fst (process_match upstream player_id nickname (JObj fields) tr) = Ok r.
Proof.
  unfold get_or_none. intros Hdate Hup.
  unfold process_match, bind, lift, ret, emit. cbn [py_get].
  set (match_id := match dict_get "match_id" fields with Some v => v | None => JNull end) in *.
  set (match_date := match dict_get "started_at" fields with
                     | Some v => v | None => JNull end) in *.
  destruct (truthy match_id) eqn:Tid; cbn [negb orb]; [|eexists; reflexivity].
  destruct (truthy match_date) eqn:Tdate; cbn [negb]; [|eexists; reflexivity].
  destruct Hup as [[msg Hfail] | (stats & Hans & sf & -> & Herr & Hrounds)].
  { destruct (get_match_stats_fails upstream match_id tr msg Hfail) as [error ->].
    eexists. reflexivity. }
  rewrite (get_match_stats_answers upstream match_id tr _ Hans).
  cbn [py_in]. rewrite Herr.
  destruct Hrounds as [Hr | (r & rest & Hr & rf & teams & rs & -> & Hteams & Hsafe & Hrs)].
  { unfold first_round. cbn [py_get obind]. rewrite Hr. cbn. eexists. reflexivity. }
  assert (Hround : first_round (JObj sf) = Ok (JObj rf)).
  { unfold first_round. cbn [py_get obind]. rewrite Hr. reflexivity. }
  rewrite Hround. cbn [py_get].
  assert (Hiter : py_iter (match dict_get "teams" rf with
                           | Some x => x | None => JList [] end) = Ok teams).
  { destruct Hteams as [-> | [-> ->]]; reflexivity. }
  rewrite Hiter.
  destruct (scan_teams_safe teams Hsafe JNull (or_introl eq_refl)) as (ps & -> & Hps).
  destruct (truthy ps) eqn:Tps; cbn [negb]; [|eexists; reflexivity].
  destruct Hps as [Hps | [o ->]]; [congruence|].
  destruct (Hdate eq_refl) as (ts & -> & Hrange).
  unfold compile_match_data. rewrite (strftime_utc_in_range ts Hrange). cbn [obind].
  assert (Hstat : forall key, exists v, round_stat (JObj sf) key = Ok v).
  { intros key. unfold round_stat. rewrite Hround. cbn [obind py_get].
    destruct Hrs as [-> | [-> ->]]; eexists; reflexivity. }
  destruct (Hstat "Map") as [v1 ->]. destruct (Hstat "Score") as [v2 ->].
  cbn [obind py_get]. eexists. reflexivity.
Qed.

Lemma scan_teams_app (tpre rest : list json) (init : json) :
  Forall (other_team player_id) tpre -> truthy init = false ->
  scan_teams player_id (tpre ++ rest) init = scan_teams player_id rest init.
Proof.
  intros Hpre Hinit.
  induction Hpre as [|t tpre (tf & pl & -> & Hf & Hothers) _ IH]; [reflexivity|].
  cbn [app scan_teams py_get obind].
  destruct Hf as [-> | [-> ->]]; cbn [py_iter obind];
    [rewrite (scan_players_others player_id pl init Hothers) | cbn [scan_players]];
    cbn [obind]; rewrite Hinit; exact IH.
Qed.

(** X14: within a team only the first entry with the target id counts.
    When that entry has no statistics, or empty ones, the entries after
    it in the team are not read, whatever they are; if no other team has
    an entry for the target, the match is skipped with the line
    [No stats found]. *)
Theorem first_entry_shadows (fields sfields rfields tfields pfields : list (string * json))
    (rounds tpre tpost ppre ppost : list json) (match_id match_date : json)
    (tr : trace) :
  dict_get "match_id" fields = Some match_id -> truthy match_id = true ->
  dict_get "started_at" fields = Some match_date -> truthy match_date = true ->
  answers upstream tr (ReqStats match_id) (JObj sfields) ->
  dict_get "error" sfields = None ->
  dict_get "rounds" sfields = Some (JList (JObj rfields :: rounds)) ->
  dict_get "teams" rfields = Some (JList (tpre ++ JObj tfields :: tpost)) ->
  Forall (other_team player_id) tpre -> Forall (other_team player_id) tpost ->
  dict_get "players" tfields = Some (JList (ppre ++ JObj pfields :: ppost)) ->
  Forall (other_player player_id) ppre ->
  dict_get "player_id" pfields = Some (JStr player_id) ->
  dict_get "player_stats" pfields = None \/
  dict_get "player_stats" pfields = Some (JObj []) ->
  process_match upstream player_id nickname (JObj fields) tr =
  (Ok None, EvPrint (MsgNoStats match_id) :: EvRequest (ReqStats match_id) :: tr).
Proof.
  intros Hid Tid Hdate Tdate Hans Herr Hrounds Hteams Htpre Htpost Hplayers Hppre
         Hpid Hstats.
  unfold process_match, bind, lift, ret, emit. cbn [py_get].
  rewrite Hid, Hdate, Tid, Tdate. cbn [negb orb].
  rewrite (get_match_stats_answers upstream match_id tr _ Hans).
  cbn [py_in]. rewrite Herr.
  assert (Hround : first_round (JObj sfields) = Ok (JObj rfields)).
  { unfold first_round, obind, py_get. rewrite Hrounds. reflexivity. }
  rewrite Hround. cbn [py_get]. rewrite Hteams. cbn [py_iter].
  assert (Hscan : scan_teams player_id (tpre ++ JObj tfields :: tpost) JNull
                  = Ok (JObj [])).
  { rewrite (scan_teams_app tpre _ JNull Htpre eq_refl).
    cbn [scan_teams py_get obind]. rewrite Hplayers. cbn [py_iter obind].
    rewrite (scan_players_first player_id ppre ppost pfields JNull Hppre Hpid).
    cbn [py_get]. destruct Hstats as [-> | ->]; cbn [obind truthy];
      apply (scan_teams_others player_id tpost (JObj []) Htpost eq_refl). }
  rewrite Hscan. reflexivity.
Qed.

End Matches.

(** ** The turn of a page, the export *)

Section Bodies.

Variable upstream : trace -> request -> outcome response.
Variables player_id game_id nickname : string.

(** X15: a history page answered with status 200 whose body is not an
    object never ends the pagination as an empty page does.  After any
    number of turns, [fetch_games] then raises [TypeError] when the body
    is [None], a number or a boolean; for a list or a string it returns
    the body as an error result when ["error"] is an item of the list or
    occurs in the string, and raises [AttributeError] otherwise. *)
Theorem history_body_not_object (n fuel : nat) (tr0 tr : trace)
    (all_matches : list match_data) (offset : Z) (body : json) :
  pages_done upstream n player_id game_id nickname [] 0 tr0
    = Some (all_matches, offset, tr) ->
  (n < fuel)%nat ->
  answers upstream (EvPrint (MsgRequesting (history_url player_id game_id offset)) :: tr)
    (history_url player_id game_id offset) body ->
  (forall fields, body <> JObj fields) ->
  fetch_games upstream fuel player_id game_id nickname tr0 =
  Some (match py_in "error" body with
        | Raise e => Raise e
        | Ok true => Ok (FError body)
        | Ok false => Raise AttributeError
        end,
        EvRequest (history_url player_id game_id offset)
          :: EvPrint (MsgRequesting (history_url player_id game_id offset)) :: tr).
Proof.
  intros Hdone Hfuel Hans Hno. unfold fetch_games.
  replace fuel with (n + S (fuel - S n))%nat by lia.
  rewrite (fetch_loop_pages_done upstream player_id game_id nickname n _ _ _ _ _ _ _ Hdone).
  cbn [fetch_loop]. unfold fetch_page, bind, lift, ret.
  rewrite (get_match_history_answers upstream player_id game_id offset tr body Hans).
  destruct body as [| | |s|l|f]; try reflexivity.
  - cbn [py_in]. destruct (is_substring "error" s); reflexivity.
  - cbn [py_in]. destruct (existsb (is_str "error") l); reflexivity.
  - exfalso. eapply Hno. reflexivity.
Qed.

End Bodies.

(** X16: [export_to_excel] raises nothing and returns a dict with exactly
    one of the keys ["success"] and ["error"]: ["success"] exactly when
    there are records and the writer does not raise.  The writer is
    called once when there are records and not at all otherwise; when it
    raises, the result is the error ["Export error"] with the text of the
    exception as its message. *)
Theorem export_to_excel_outcome
    (to_excel : trace -> string -> list match_data -> option string)
    (matches : list match_data) (nickname : string) (tr : trace) :
  exists result,
    fst (export_to_excel to_excel matches nickname tr) = Ok (JObj result) /\
    (dict_get "success" result <> None <-> dict_get "error" result = None) /\
    (dict_get "success" result <> None <->
     matches <> [] /\ to_excel tr (nickname ++ "'s faceit_games.xlsx") matches = None) /\
    (forall e,
        matches <> [] ->
        to_excel tr (nickname ++ "'s faceit_games.xlsx") matches = Some e ->
        result = [("error", JStr "Export error"); ("message", JStr e)]) /\
    write_count (snd (export_to_excel to_excel matches nickname tr))
    = (write_count tr + match matches with [] => 0 | _ => 1 end)%nat.
Proof.
  destruct matches as [|d matches].
  - eexists. split; [reflexivity|]. cbn.
    split; [split; [congruence | discriminate]|].
    split; [split; [congruence | intros [H _]; congruence]|].
    split; [congruence | lia].
  - unfold export_to_excel.
    destruct (to_excel tr (nickname ++ "'s faceit_games.xlsx") (d :: matches)) as [e|].
    + eexists. split; [reflexivity|]. cbn.
      split; [split; [congruence | discriminate]|].
      split; [split; [congruence | intros [_ H]; discriminate]|].
      split; [intros e' _ H; injection H as <-; reflexivity | lia].
    + eexists. split; [reflexivity|]. cbn.
      split; [split; [reflexivity | discriminate]|].
      split; [split; [intros _; split; [discriminate | reflexivity] | discriminate]|].
      split; [discriminate | lia].
Qed.

(** ** Requests and records *)

Section Once.

Variable upstream : trace -> request -> outcome response.

(** X17: each lookup issues exactly one request, whatever the answer:
    none of them asks again after a failure.  [find_player_id] and
    [get_match_stats] add nothing else to the trace; [get_match_history]
    prints the URL before the request, also when the request fails. *)
Theorem lookups_ask_once (nickname player_id game_id : string)
    (from_timestamp to_timestamp offset lim : Z) (match_id : json) (tr : trace) :
  snd (find_player_id upstream nickname tr) = EvRequest (ReqPlayer nickname) :: tr /\
  snd (get_match_history upstream player_id game_id from_timestamp to_timestamp
         offset lim tr)
  = EvRequest (ReqHistory player_id game_id from_timestamp to_timestamp offset lim)
      :: EvPrint (MsgRequesting
                    (ReqHistory player_id game_id from_timestamp to_timestamp offset lim))
      :: tr /\
  snd (get_match_stats upstream match_id tr) = EvRequest (ReqStats match_id) :: tr.
Proof.
  split; [|split].
  - unfold find_player_id, try_request, bind, requests_get, lift, ret.
    destruct (upstream tr (ReqPlayer nickname)) as [r|[]]; try reflexivity.
    destruct (status_code r =? 200); [|reflexivity].
    destruct (body_json r) as [v|[]]; try reflexivity.
    destruct (py_get v "player_id" JNull) as [id|[]]; reflexivity.
  - apply get_match_history_trace.
  - apply get_match_stats_trace.
Qed.

Variables player_id game_id nickname : string.

Lemma length_append (s t : string) :
  String.length (s ++ t) = (String.length s + String.length t)%nat.
Proof. induction s as [|c s IH]; cbn; [reflexivity | rewrite IH; reflexivity]. Qed.

(** A year between 1 and 9999 is written on one to four digits. *)
Lemma year_length (y : Z) :
  1 <= y <= 9999 -> (1 <= String.length (str_of_int y) <= 4)%nat.
Proof.
  intros H.
  assert (Hall : forallb (fun n => let k := String.length (str_of_int (Z.of_nat n)) in
                                   Nat.leb 1 k && Nat.leb k 4)
                   (seq 1 (10 * 10 * 10 * 10 - 1)) = true)
    by (vm_compute; reflexivity).
  rewrite forallb_forall in Hall.
  specialize (Hall (Z.to_nat y)). rewrite Z2Nat.id in Hall by lia.
  cbv zeta in Hall. rewrite andb_true_iff, !Nat.leb_le in Hall.
  apply Hall, in_seq. lia.
Qed.

Lemma format_utc_length (ts : Z) :
  Calendar.min_timestamp <= ts <= Calendar.max_timestamp ->
  (16 <= String.length (Calendar.format_utc ts) <= 19)%nat.
Proof.
  intros Hrange.
  destruct (format_utc_date ts Hrange) as (y & m & d & hh & mm & ss & -> & _ & Hy & _).
  rewrite length_append. cbn [String.length append Calendar.pad2].
  pose proof (year_length y Hy). lia.
Qed.

Lemma format_utc_length_19 (ts : Z) :
  Calendar.year_1000_timestamp <= ts <= Calendar.max_timestamp ->
  String.length (Calendar.format_utc ts) = 19%nat.
Proof.
  intros Hrange.
  destruct (format_utc_rendering ts Hrange) as (y & m & d & hh & mm & ss & -> & _).
  reflexivity.
Qed.

Lemma compile_match_data_fields (match_id match_date stats : json)
    (ps : list (string * json)) (d : match_data) :
  compile_match_data nickname match_id match_date stats (JObj ps) = Ok d ->
  Nickname d = nickname /\
  (exists ts,
      Calendar.min_timestamp <= ts <= Calendar.max_timestamp /\
      Date d = Calendar.format_utc ts) /\
  Kills d = or_default (dict_get "Kills" ps) "0" /\
  Deaths d = or_default (dict_get "Deaths" ps) "0" /\
  Assists d = or_default (dict_get "Assists" ps) "0" /\
  KD_Ratio d = or_default (dict_get "K/D Ratio" ps) "0" /\
  Headshots d = or_default (dict_get "Headshots %" ps) "0" /\
  MVPs d = or_default (dict_get "MVPs" ps) "0" /\
  Result d = or_default (dict_get "Result" ps) "N/A".
Proof.
  unfold compile_match_data, obind.
  destruct (Calendar.strftime_utc match_date) as [date|e] eqn:Hdate; [|discriminate].
  destruct (round_stat stats "Map"); [|discriminate].
  destruct (round_stat stats "Score"); [|discriminate].
  cbn [py_get]. intros H. injection H as <-. cbn.
  split; [reflexivity|]. split; [|repeat split].
  destruct (strftime_utc_ok _ _ Hdate) as (ts & _ & Hrange & ->).
  exists ts. split; [exact Hrange | reflexivity].
Qed.

(** X18: every record that [fetch_games] returns has the shape of a row
    of the export: its [Nickname] is the nickname given; its [Date] is
    what [strftime] makes of an instant between the years 1 and 9999,
    year-month-day hour:minute:second, with the year as it is written, on
    16 to 19 characters, and on 19 characters with a year of four digits
    from the year 1000 on; each of its statistics is the value of a player
    entry with the target id in the detail of its match, or the
    default. *)
Theorem records_are_rows (fuel : nat) (tr0 tr' : trace) (records : list match_data) :
  fetch_games upstream fuel player_id game_id nickname tr0
    = Some (Ok (FRecords records), tr') ->
  Forall (is_row upstream player_id nickname) records.
Proof.
  intros H.
  pose proof (fetch_loop_sources upstream player_id nickname game_id fuel [] 0 tr0
                records tr' (Forall_nil _) H) as Hsrc.
  eapply Forall_impl; [|exact Hsrc].
  intros d (tr & date & stats & ps & _ & Hans & Hfound & Hc).
  destruct (compile_match_data_fields _ _ _ _ _ Hc)
    as (Hn & (ts & Hrange & Hdate) & Hfields).
  split; [exact Hn|]. split.
  - exists ts. split; [exact Hrange|]. split; [exact Hdate|]. rewrite Hdate.
    split; [apply format_utc_date; exact Hrange|].
    split; [apply format_utc_length; exact Hrange|].
    intros H1000.
    split; [apply format_utc_length_19 | apply format_utc_rendering]; tauto.
  - exists tr, stats, ps. tauto.
Qed.

End Once.

(** ** The further properties at work *)

Lemma lookups_catch_request_exceptions_witness :
  (is_request_exception (OtherException "MemoryError" "") = false /\
   raised_by Cases.out_of_memory
     [EvPrint (MsgRequesting (history_url "p1" "cs2" 0))]
     (history_url "p1" "cs2" 0) (OtherException "MemoryError" "")) /\
  (is_request_exception ValueError = false /\
   raised_by (Mock.scripted [] Cases.details) [] (ReqStats (JStr "m9")) ValueError).
Proof.
  split.
  - apply (proj1 (lookups_catch_request_exceptions Cases.out_of_memory
                    "p1" "cs2" start_date end_date 0 limit JNull []
                    (OtherException "MemoryError" ""))).
    reflexivity.
  - apply (proj2 (lookups_catch_request_exceptions (Mock.scripted [] Cases.details)
                    "p1" "cs2" start_date end_date 0 limit (JStr "m9") [] ValueError)).
    reflexivity.
Defined.

Lemma lookup_failures_are_error_results_witness :
  exists error msg,
    error_result "Match stats request failed with status 404" "not found"
      = error_result error msg /\
    py_in "error"
      (error_result "Match stats request failed with status 404" "not found") = Ok true /\
    py_getitem
      (error_result "Match stats request failed with status 404" "not found") "message"
      = Ok (JStr msg).
Proof.
  apply (proj2 (lookup_failures_are_error_results (Mock.scripted [] Mock.details)
                  "p1" "cs2" start_date end_date 0 limit (JStr "m2") [])).
  - intros (r & Hu & Hs & _). injection Hu as <-. discriminate Hs.
  - reflexivity.
Defined.

Lemma find_player_id_request_exception_witness :
  find_player_id Cases.offline "Kevzip" [] =
  (Ok (JObj [("error", JStr "Player search error");
             ("message", JStr "connection refused")]),
   [EvRequest (ReqPlayer "Kevzip")]).
Proof.
  apply (find_player_id_request_exception Cases.offline "Kevzip" [] "connection refused").
  left. reflexivity.
Defined.

Lemma find_player_id_without_id_witness :
  (find_player_id Cases.no_player "Kevzip" [] = (Ok JNull, [EvRequest (ReqPlayer "Kevzip")]) /\
   obind (fst (find_player_id Cases.no_player "Kevzip" [])) is_error_result
   = Raise TypeError) /\
  find_player_id Cases.player_list "Kevzip" []
  = (Raise AttributeError, [EvRequest (ReqPlayer "Kevzip")]).
Proof.
  split.
  - apply (proj1 (find_player_id_without_id Cases.no_player "Kevzip" [] _ _
                    eq_refl eq_refl eq_refl) [("items", JList [])] eq_refl eq_refl).
  - apply (proj2 (find_player_id_without_id Cases.player_list "Kevzip" [] _ _
                    eq_refl eq_refl eq_refl)).
    discriminate.
Defined.

Lemma history_offsets_witness :
  exists n,
    (0 < n <= 5)%nat /\
    history_requests Cases.run_trace =
    (rev (map (fun i => ReqHistory "p1" "cs2" start_date end_date (Z.of_nat i * limit) limit)
            (seq 0 n))
       ++ history_requests [])%list.
Proof.
  apply (history_offsets (Mock.scripted Cases.two_pages Cases.details)
           "p1" "cs2" "Kevzip" 5 [] Cases.run_trace (Ok (FRecords Cases.run_records))).
  reflexivity.
Defined.

Lemma one_second_between_pages_witness :
  sleep_total Cases.run_trace - sleep_total []
  = Z.of_nat (history_count Cases.run_trace) - Z.of_nat (history_count []) - 1.
Proof.
  apply (one_second_between_pages (Mock.scripted Cases.two_pages Cases.details)
           "p1" "cs2" "Kevzip" 5 [] Cases.run_trace (Ok (FRecords Cases.run_records))).
  reflexivity.
Defined.

Lemma records_only_grow_witness :
  (List.length Cases.run_records <= stats_count Cases.run_trace - stats_count [])%nat /\
  exists ds, Cases.run_records = ([Mock.record1] ++ ds)%list.
Proof.
  destruct (records_only_grow (Mock.scripted Cases.two_pages Cases.details)
              "p1" "cs2" "Kevzip" 5 [] Cases.run_trace Cases.run_records eq_refl)
    as [Hcount Hgrow].
  split; [exact Hcount|].
  apply (Hgrow 1%nat [Mock.record1] (0 + limit) Cases.first_page_trace).
  reflexivity.
Defined.

Lemma page_requests_and_records_witness :
  exists ds,
    [Mock.record1; Mock.record1] = ([] ++ ds)%list /\
    (List.length ds <=
     stats_count
       (snd (for_matches (Mock.scripted [] Cases.details) "p1" "Kevzip"
               Mock.mixed_page [] []))
     - stats_count [])%nat.
Proof.
  apply (proj2 (proj2 (proj2 (page_requests_and_records
                                (Mock.scripted [] Cases.details) "p1" "Kevzip"
                                Mock.mixed_page [] [])))).
  reflexivity.
Defined.

Lemma returned_history_has_error_witness :
  is_error_result
    (error_result "Match history request failed with status 503" "unavailable")
  = Ok true.
Proof.
  apply (returned_history_has_error (Mock.failing_after Cases.two_pages Cases.details)
           "p1" "cs2" "Kevzip" 5 [] Cases.failed_trace).
  reflexivity.
Defined.

Lemma fetch_games_exceptions_witness :
  is_request_exception IndexError = false /\
  (is_builtin_error IndexError = true \/ is_range_error IndexError = true \/
   exists tr url,
     raised_by
       (Mock.scripted [[Mock.summary "m1" 1748736000; Mock.summary "m3" 1748739600]]
          Mock.details) tr url IndexError).
Proof.
  apply (fetch_games_exceptions
           (Mock.scripted [[Mock.summary "m1" 1748736000; Mock.summary "m3" 1748739600]]
              Mock.details)
           3 "p1" "cs2" "Kevzip" [] Cases.raised_trace IndexError).
  reflexivity.
Defined.

(** A start time beyond [time_t] ends the run with [OverflowError]. *)
Example start_time_out_of_range :
  process_match (Mock.scripted [] Mock.details) "p1" "Kevzip"
    (Mock.summary "m1" (Calendar.time_t_max + 1)) [] =
  (Raise (OtherException "OverflowError" "timestamp out of range for platform time_t"),
   [EvRequest (ReqStats (JStr "m1"))]).
Proof. reflexivity. Qed.

Lemma lookup_iff_truthy_witness :
  process_match (Mock.scripted [] Mock.details) "p1" "Kevzip"
    (JObj [("match_id", JStr "m1"); ("started_at", JNum 0)]) [] = (Ok None, []) /\
  stats_count
    (snd (process_match (Mock.scripted [] Mock.details) "p1" "Kevzip"
            (JObj [("match_id", JStr "m2"); ("started_at", JNum 1748739600)]) []))
  = 1%nat.
Proof.
  split.
  - apply (proj1 (lookup_iff_truthy (Mock.scripted [] Mock.details) "p1" "Kevzip"
                    [("match_id", JStr "m1"); ("started_at", JNum 0)] [])).
    right. reflexivity.
  - apply (proj2 (lookup_iff_truthy (Mock.scripted [] Mock.details) "p1" "Kevzip"
                    [("match_id", JStr "m2"); ("started_at", JNum 1748739600)] [])
             eq_refl eq_refl).
Defined.

Lemma detail_body_with_error_witness :
  process_match (Mock.scripted [] Cases.details) "p1" "Kevzip"
    (JObj [("match_id", JStr "m7"); ("started_at", JNum 1748736000)]) [] =
  (Ok None,
   [EvPrint (MsgSkipping (JStr "m7") (JStr "slow down")); EvRequest (ReqStats (JStr "m7"))]) /\
  for_matches (Mock.scripted [] Cases.details) "p1" "Kevzip"
    [JObj [("match_id", JStr "m8"); ("started_at", JNum 1748736000)];
     Mock.summary "m1" 1748736000] [Mock.record1] [] =
  (Raise KeyError, [EvRequest (ReqStats (JStr "m8"))]).
Proof.
  split.
  - apply (proj1 (detail_body_with_error (Mock.scripted [] Cases.details) "p1" "Kevzip"
                    [("match_id", JStr "m7"); ("started_at", JNum 1748736000)]
                    [("error", JStr "rate limited"); ("message", JStr "slow down")]
                    (JStr "m7") (JNum 1748736000) (JStr "rate limited") [] [] []
                    eq_refl eq_refl eq_refl eq_refl
                    (ex_intro _ _ (conj eq_refl (conj eq_refl eq_refl))) eq_refl)).
    reflexivity.
  - apply (proj2 (detail_body_with_error (Mock.scripted [] Cases.details) "p1" "Kevzip"
                    [("match_id", JStr "m8"); ("started_at", JNum 1748736000)]
                    [("error", JStr "rate limited")]
                    (JStr "m8") (JNum 1748736000) (JStr "rate limited")
                    [Mock.summary "m1" 1748736000] [Mock.record1] []
                    eq_refl eq_refl eq_refl eq_refl
                    (ex_intro _ _ (conj eq_refl (conj eq_refl eq_refl))) eq_refl)).
    reflexivity.
Defined.

Ltac safe_entry :=
  eexists; split;
  [reflexivity
  | cbn; first [ intros H; discriminate H
               | intros _; right; eexists; reflexivity
               | intros _; exact I ] ].

Lemma detail1_safe : safe_detail "p1" Mock.detail1.
Proof.
  eexists. split; [reflexivity|]. split; [reflexivity|]. right.
  eexists _, _. split; [reflexivity|].
  eexists _, _, _. split; [reflexivity|]. split; [left; reflexivity|].
  split; [|left; reflexivity].
  repeat constructor;
    (eexists _, _; split; [reflexivity|]; split; [left; reflexivity|];
     repeat constructor; safe_entry).
Qed.

Lemma well_formed_match_never_raises_witness :
  exists r,
    fst (process_match (Mock.scripted [] Mock.details) "p1" "Kevzip"
           (JObj [("match_id", JStr "m1"); ("started_at", JNum 1748736000)]) []) = Ok r.
Proof.
  apply (well_formed_match_never_raises (Mock.scripted [] Mock.details) "p1" "Kevzip"
           [("match_id", JStr "m1"); ("started_at", JNum 1748736000)] []).
  - intros _. exists 1748736000. split; [reflexivity|]. split; discriminate.
  - right. exists Mock.detail1. split; [|exact detail1_safe].
    eexists. repeat split; reflexivity.
Defined.

Lemma first_entry_shadows_witness :
  process_match (Mock.scripted [] Cases.details) "p1" "Kevzip"
    (JObj [("match_id", JStr "m6"); ("started_at", JNum 1748736000)]) [] =
  (Ok None, [EvPrint (MsgNoStats (JStr "m6")); EvRequest (ReqStats (JStr "m6"))]).
Proof.
  refine (first_entry_shadows (Mock.scripted [] Cases.details) "p1" "Kevzip"
            [("match_id", JStr "m6"); ("started_at", JNum 1748736000)]
            [("rounds", JList [JObj [
               ("teams", JList [
                  JObj [("players", JList [Mock.player "p1" []; JObj Mock.p1_entry])];
                  JObj [("players", JList [Mock.player "p2" [("Kills", JStr "4")]])]])]])]
            [("teams", JList [
                JObj [("players", JList [Mock.player "p1" []; JObj Mock.p1_entry])];
                JObj [("players", JList [Mock.player "p2" [("Kills", JStr "4")]])]])]
            [("players", JList [Mock.player "p1" []; JObj Mock.p1_entry])]
            [("player_id", JStr "p1"); ("nickname", JStr "p1"); ("player_stats", JObj [])]
            [] [] [JObj [("players", JList [Mock.player "p2" [("Kills", JStr "4")]])]]
            [] [JObj Mock.p1_entry] (JStr "m6") (JNum 1748736000) []
            eq_refl eq_refl eq_refl eq_refl
            (ex_intro _ _ (conj eq_refl (conj eq_refl eq_refl)))
            eq_refl eq_refl eq_refl (Forall_nil _) _ eq_refl (Forall_nil _) eq_refl
            (or_intror eq_refl)).
  constructor; [|constructor].
  eexists _, _. split; [reflexivity|]. split; [left; reflexivity|].
  constructor; [|constructor]. eexists. split; reflexivity.
Defined.

Lemma history_body_not_object_witness :
  fetch_games (Cases.history_body JNull) 1 "p1" "cs2" "Kevzip" [] =
    Some (Raise TypeError,
          [EvRequest (history_url "p1" "cs2" 0);
           EvPrint (MsgRequesting (history_url "p1" "cs2" 0))]) /\
  fetch_games (Cases.history_body (JList [])) 1 "p1" "cs2" "Kevzip" [] =
    Some (Raise AttributeError,
          [EvRequest (history_url "p1" "cs2" 0);
           EvPrint (MsgRequesting (history_url "p1" "cs2" 0))]).
Proof.
  split.
  - apply (history_body_not_object (Cases.history_body JNull) "p1" "cs2" "Kevzip"
             0 1 [] [] [] 0 JNull eq_refl (le_n 1)
             (ex_intro _ _ (conj eq_refl (conj eq_refl eq_refl)))).
    discriminate.
  - apply (history_body_not_object (Cases.history_body (JList [])) "p1" "cs2" "Kevzip"
             0 1 [] [] [] 0 (JList []) eq_refl (le_n 1)
             (ex_intro _ _ (conj eq_refl (conj eq_refl eq_refl)))).
    discriminate.
Defined.

Lemma records_are_rows_witness :
  Forall (is_row (Mock.scripted Cases.two_pages Cases.details) "p1" "Kevzip")
    Cases.run_records.
Proof.
  apply (records_are_rows (Mock.scripted Cases.two_pages Cases.details)
           "p1" "cs2" "Kevzip" 5 [] Cases.run_trace Cases.run_records).
  reflexivity.
Defined.

(** The writer raises: the export reports it and raises nothing. *)
Example export_writer_raises :
  export_to_excel (fun _ _ _ => Some "disk full") [Mock.record1] "Kevzip" [] =
  (Ok (JObj [("error", JStr "Export error"); ("message", JStr "disk full")]),
   [EvToExcel "Kevzip's faceit_games.xlsx" [Mock.record1]]).
Proof. reflexivity. Qed.
